(** * bustard.orm: a shallow embedding of the declarative ORM layer

    The development follows [src/bustard/orm.py] class by class: Python
    values and exceptions, [str.format], [ForeignKey], [Index], [Field],
    [Model], the [MetaData] registry, the model metaclass, [Session] and
    [QuerySet].  Mutable objects are modelled by explicit state passing;
    the database driver (psycopg2) is an external collaborator and appears
    as a trace of the calls made on it. *)

From Stdlib Require Import ZArith Ascii String List Bool Lia.
From stdpp Require Import base option list strings gmap pretty.

Local Open Scope string_scope.
Local Open Scope list_scope.

(** ** Python values *)

(** The literal values that flow through the ORM as column values, bound
    arguments and server defaults. *)
Inductive pyval :=
| VNone
| VBool (b : bool)
| VInt (z : Z)
| VStr (s : string).

Global Instance pyval_eq_dec : EqDecision pyval.
Proof. solve_decision. Defined.

(** [str(v)], which is also what [format] renders for these types. *)
Definition py_str (v : pyval) : string :=
  match v with
  | VNone => "None"
  | VBool true => "True"
  | VBool false => "False"
  | VInt z => pretty z
  | VStr s => s
  end.

(** Truthiness, as tested by [if v:]. *)
Definition py_truthy (v : pyval) : bool :=
  match v with
  | VNone => false
  | VBool b => b
  | VInt z => negb (Z.eqb z 0)
  | VStr s => negb (String.eqb s "")
  end.

(** [v is None] *)
Definition is_None (v : pyval) : bool :=
  match v with VNone => true | _ => false end.

(** An attribute that holds [None] or a [str]. *)
Definition of_opt_str (o : option string) : pyval :=
  match o with None => VNone | Some s => VStr s end.

Definition of_opt_int (o : option Z) : pyval :=
  match o with None => VNone | Some z => VInt z end.

(** ** Exceptions *)

Inductive exn :=
| AttributeError (attr : string)
| KeyError (key : string)
| IndexError
| TypeError (msg : string)
| ValueError (msg : string)
| DriverError (msg : string)      (* raised by the database driver *)
| Unmodelled (what : string).     (* behaviour outside this embedding *)


Inductive outcome (A : Type) :=
| Ok (a : A)
| Raise (e : exn).
Arguments Ok {A} a.
Arguments Raise {A} e.

Definition obind {A B} (m : outcome A) (k : A -> outcome B) : outcome B :=
  match m with
  | Ok a => k a
  | Raise e => Raise e
  end.

Notation "x <- m ;; k" := (obind m (fun x => k))
  (at level 20, m at level 99, k at level 200, right associativity).
Notation "' p <- m ;; k" := (obind m (fun x => match x with p => k end))
  (at level 20, p pattern, m at level 99, k at level 200,
   right associativity).

(** Reading an attribute that may not have been bound on the object. *)
Definition bound {A} (nm : string) (o : option A) : outcome A :=
  match o with
  | Some a => Ok a
  | None => Raise (AttributeError nm)
  end.

(** Computations that mutate a state [S]: the state reached is reported
    also when an exception is raised. *)
Definition M (S A : Type) : Type := S -> outcome A * S.

Definition ret {S A} (a : A) : M S A := fun s => (Ok a, s).
Definition raise {S A} (e : exn) : M S A := fun s => (Raise e, s).
Definition lift {S A} (m : outcome A) : M S A := fun s => (m, s).
Definition bind {S A B} (m : M S A) (k : A -> M S B) : M S B :=
  fun s =>
    match m s with
    | (Ok a, s') => k a s'
    | (Raise e, s') => (Raise e, s')
    end.

Notation "x <~ m ;; k" := (bind m (fun x => k))
  (at level 20, m at level 99, k at level 200, right associativity).
Notation "' p <~ m ;; k" := (bind m (fun x => match x with p => k end))
  (at level 20, p pattern, m at level 99, k at level 200,
   right associativity).
Notation "m ;;; k" := (bind m (fun _ => k))
  (at level 99, k at level 200, right associativity).

(** [for x in xs: body x] *)
Fixpoint for_each {S A} (xs : list A) (body : A -> M S unit) : M S unit :=
  match xs with
  | [] => ret tt
  | x :: xs' => body x ;;; for_each xs' body
  end.

(** ** Strings *)

(** [sep.join(parts)] *)
Fixpoint join (sep : string) (parts : list string) : string :=
  match parts with
  | [] => ""
  | [p] => p
  | p :: ps => p +:+ sep +:+ join sep ps
  end.

Definition upper_char (c : ascii) : ascii :=
  let n := nat_of_ascii c in
  if (97 <=? n)%nat && (n <=? 122)%nat then ascii_of_nat (n - 32) else c.

(** [s.upper()] on ASCII text. *)
Fixpoint upper (s : string) : string :=
  match s with
  | EmptyString => EmptyString
  | String c s' => String (upper_char c) (upper s')
  end.

(** An insertion-ordered dictionary ([collections.OrderedDict], and the
    keyword arguments of a call): assigning to a key that is present
    replaces its value in place, a new key goes to the end. *)
Section odict.
Context {K V : Type} `{EqDecision K}.

Fixpoint od_get (k : K) (d : list (K * V)) : option V :=
  match d with
  | [] => None
  | (k', v) :: d' => if decide (k' = k) then Some v else od_get k d'
  end.

Fixpoint od_set (k : K) (v : V) (d : list (K * V)) : list (K * V) :=
  match d with
  | [] => [(k, v)]
  | (k', v') :: d' =>
      if decide (k' = k) then (k, v) :: d' else (k', v') :: od_set k v d'
  end.

Definition od_keys (d : list (K * V)) : list K := map fst d.
Definition od_values (d : list (K * V)) : list V := map snd d.
End odict.

(** ** [str.format]

    The subset of the format mini-language the source uses: literal text,
    the escapes [{{] and [}}], and replacement fields [{}], [{0}], [{key}]
    with attribute access ([{.attr}], [{0.attr}], [{key.attr}]).
    Conversions ([!r]), format specifications ([:spec]) and indexing
    ([[i]]) do not occur in the source and are not part of the model. *)

(** An argument of [format]: a plain value, or an object seen through its
    attributes. *)
Inductive fmt_arg :=
| AVal (v : pyval)
| AObj (getattr : string -> option pyval).

(** Whether fields are numbered automatically ([{}]) or by hand ([{0}]);
    Python refuses a format string that mixes the two. *)
Inductive numbering :=
| NumUnset
| NumAuto (next : nat)
| NumManual.

(** The position of [c] in [s], counted from [n]. *)
Fixpoint position (c : ascii) (s : string) (n : nat) : option nat :=
  match s with
  | EmptyString => None
  | String c' s' => if Ascii.eqb c c' then Some n else position c s' (S n)
  end.

(** The value of a decimal digit. *)
Definition digit_value (c : ascii) : option nat := position c "0123456789" 0.

(** The number a field name denotes when it consists of digits only. *)
Fixpoint nat_of_digits (s : string) (acc : nat) : option nat :=
  match s with
  | EmptyString => Some acc
  | String c s' =>
      match digit_value c with
      | Some d => nat_of_digits s' (10 * acc + d)
      | None => None
      end
  end.

(** [s] followed by the character [c]. *)
Fixpoint snoc (s : string) (c : ascii) : string :=
  match s with
  | EmptyString => String c EmptyString
  | String c' s' => String c' (snoc s' c)
  end.

(** [s.split('.')]; [cur] is the part being read. *)
Fixpoint split_dots (s : string) (cur : string) : list string :=
  match s with
  | EmptyString => [cur]
  | String c s' =>
      if Ascii.eqb c "." then cur :: split_dots s' ""
      else split_dots s' (snoc cur c)
  end.

(** The object a field's first component names. *)
Definition fmt_lookup (arg_name : string) (num : numbering)
    (args : list fmt_arg) (kwargs : list (string * fmt_arg))
    : outcome (fmt_arg * numbering) :=
  if String.eqb arg_name "" then
    match num with
    | NumManual =>
        Raise (ValueError "cannot switch from manual field specification to automatic field numbering")
    | NumUnset =>
        match nth_error args 0 with
        | Some a => Ok (a, NumAuto 1)
        | None => Raise IndexError
        end
    | NumAuto n =>
        match nth_error args n with
        | Some a => Ok (a, NumAuto (S n))
        | None => Raise IndexError
        end
    end
  else
    match nat_of_digits arg_name 0 with
    | Some n =>
        match num with
        | NumAuto _ =>
            Raise (ValueError "cannot switch from automatic field numbering to manual field specification")
        | _ =>
            match nth_error args n with
            | Some a => Ok (a, NumManual)
            | None => Raise IndexError
            end
        end
    | None =>
        match od_get arg_name kwargs with
        | Some a => Ok (a, num)
        | None => Raise (KeyError arg_name)
        end
    end.

(** Following the [.attr] components of a field. *)
Fixpoint fmt_attrs (a : fmt_arg) (attrs : list string) : outcome fmt_arg :=
  match attrs with
  | [] => Ok a
  | nm :: attrs' =>
      match a with
      | AObj getattr =>
          match getattr nm with
          | Some v => fmt_attrs (AVal v) attrs'
          | None => Raise (AttributeError nm)
          end
      | AVal _ => Raise (AttributeError nm)
      end
  end.

Definition fmt_field (field : string) (num : numbering)
    (args : list fmt_arg) (kwargs : list (string * fmt_arg))
    : outcome (string * numbering) :=
  match split_dots field "" with
  | [] => Raise (ValueError "empty field")
  | arg_name :: attrs =>
      '(a, num') <- fmt_lookup arg_name num args kwargs ;;
      a' <- fmt_attrs a attrs ;;
      match a' with
      | AVal v => Ok (py_str v, num')
      | AObj _ => Raise (Unmodelled "repr of an object")
      end
  end.

(** One pass over the format string, left to right; [field] holds the text
    read so far inside an open brace. *)
Fixpoint format_go (s : string) (field : option string) (num : numbering)
    (args : list fmt_arg) (kwargs : list (string * fmt_arg))
    : outcome string :=
  match field with
  | Some f =>
      match s with
      | EmptyString => Raise (ValueError "expected '}' before end of string")
      | String c rest =>
          if Ascii.eqb c "}" then
            '(text, num') <- fmt_field f num args kwargs ;;
            out <- format_go rest None num' args kwargs ;;
            Ok (text +:+ out)
          else if Ascii.eqb c "{" then
            Raise (ValueError "unexpected '{' in field name")
          else format_go rest (Some (snoc f c)) num args kwargs
      end
  | None =>
      match s with
      | EmptyString => Ok ""
      | String c rest =>
          if Ascii.eqb c "{" then
            match rest with
            | String c' rest' =>
                if Ascii.eqb c' "{" then
                  out <- format_go rest' None num args kwargs ;;
                  Ok (String "{" out)
                else format_go rest (Some "") num args kwargs
            | EmptyString => Raise (ValueError "Single '{' encountered in format string")
            end
          else if Ascii.eqb c "}" then
            match rest with
            | String c' rest' =>
                if Ascii.eqb c' "}" then
                  out <- format_go rest' None num args kwargs ;;
                  Ok (String "}" out)
                else Raise (ValueError "Single '}' encountered in format string")
            | EmptyString => Raise (ValueError "Single '}' encountered in format string")
            end
          else
            out <- format_go rest None num args kwargs ;;
            Ok (String c out)
      end
  end.

(** [fmt.format] applied to positional and keyword arguments. *)
Definition format (fmt : string) (args : list fmt_arg)
    (kwargs : list (string * fmt_arg)) : outcome string :=
  format_go fmt None NumUnset args kwargs.

(** ** ForeignKey *)

Record ForeignKey := {
  ForeignKey_table_name : string;
  ForeignKey_column_name : string;
  ForeignKey_onupdate : option string;
  ForeignKey_ondelete : option string
}.

(** Truthiness of an optional string: [None] and [''] are false. *)
Definition opt_truthy (o : option string) : bool := py_truthy (of_opt_str o).

Definition ForeignKey_getattr (self : ForeignKey) (nm : string)
    : option pyval :=
  if String.eqb nm "table_name" then Some (VStr (ForeignKey_table_name self))
  else if String.eqb nm "column_name" then
    Some (VStr (ForeignKey_column_name self))
  else if String.eqb nm "onupdate" then
    Some (of_opt_str (ForeignKey_onupdate self))
  else if String.eqb nm "ondelete" then
    Some (of_opt_str (ForeignKey_ondelete self))
  else None.

(** [ForeignKey(column, onupdate, ondelete)]: the target is unpacked from
    [column.split('.')], which must have exactly two parts. *)
Definition ForeignKey___init__ (column : string)
    (onupdate ondelete : option string) : outcome ForeignKey :=
  match split_dots column "" with
  | [table_name; column_name] =>
      Ok {| ForeignKey_table_name := table_name;
            ForeignKey_column_name := column_name;
            ForeignKey_onupdate := onupdate;
            ForeignKey_ondelete := ondelete |}
  | [] | [_] => Raise (ValueError "not enough values to unpack")
  | _ => Raise (ValueError "too many values to unpack")
  end.

Definition ForeignKey_to_sql (self : ForeignKey) : outcome string :=
  let this := AObj (ForeignKey_getattr self) in
  sql <- format "REFERENCES {0.table_name} ({0.column_name})" [this] [] ;;
  sql <- (if opt_truthy (ForeignKey_onupdate self) then
            s <- format " ON UPDATE {0.onupdate}" [this] [] ;; Ok (sql +:+ s)
          else Ok sql) ;;
  sql <- (if opt_truthy (ForeignKey_ondelete self) then
            s <- format " ON DELETE {0.ondelete}" [this] [] ;; Ok (sql +:+ s)
          else Ok sql) ;;
  Ok sql.

(** ** Index *)

Record Index := {
  Index_name : string;
  Index_table_name : string;
  Index_column_name : option string;
  Index_unique : bool
}.

Definition Index_getattr (self : Index) (nm : string) : option pyval :=
  if String.eqb nm "name" then Some (VStr (Index_name self))
  else if String.eqb nm "table_name" then Some (VStr (Index_table_name self))
  else if String.eqb nm "column_name" then
    Some (of_opt_str (Index_column_name self))
  else if String.eqb nm "unique" then Some (VBool (Index_unique self))
  else None.

Definition Index___init__ (name table_name : string)
    (column_name : option string) (unique : bool) : Index :=
  {| Index_name := name; Index_table_name := table_name;
     Index_column_name := column_name; Index_unique := unique |}.

Definition Index_to_sql (self : Index) : outcome string :=
  let sql := "CREATE" in
  let sql := if Index_unique self then sql +:+ " UNIQUE" else sql in
  s <- format " INDEX {0.name} ON {0.table_name} ({0.column_name})"
         [AObj (Index_getattr self)] [] ;;
  let sql := sql +:+ s in
  Ok (sql +:+ ";").

(** ** Field *)

(** The concrete field classes; [Field] itself is abstract. *)
Inductive field_class :=
| TextField | CharField | IntegerField | DateField | DateTimeField
| BooleanField | UUIDField | JSONField | AutoField.

Definition data_type (c : field_class) : string :=
  match c with
  | TextField => "text"
  | CharField => "varchar"
  | IntegerField => "integer"
  | DateField => "date"
  | DateTimeField => "timestamp"
  | BooleanField => "boolean"
  | UUIDField => "uuid"
  | JSONField => "json"
  | AutoField => "serial"
  end.

(** [isinstance(self, TextField)]: [CharField] derives from [TextField]. *)
Definition isinstance_TextField (c : field_class) : bool :=
  match c with
  | TextField | CharField => true
  | _ => false
  end.

(** The [default] of a field: a literal value, or a callable taking no
    argument that produces one. *)
Inductive default_t :=
| Literal (v : pyval)
| Producer (call : unit -> pyval).

Definition default_is_None (d : default_t) : bool :=
  match d with Literal VNone => true | _ => false end.

(** A field object.  [Field_oid] is the identity of the object, compared
    by [is].  The last three attributes do not exist until the field is
    attached to a model: [None] stands for an unbound attribute there,
    whereas [Field_name = None] is the Python value [None]. *)
Record Field := {
  Field_oid : nat;
  Field_class : field_class;
  Field_name : option string;
  Field_max_length : option Z;
  Field_default : default_t;
  Field_server_default : pyval;
  Field_unique : bool;
  Field_nullable : bool;
  Field_index : bool;
  Field_primary_key : bool;
  Field_foreign_key : option ForeignKey;
  Field__name : option string;
  Field_table_name : option string;
  Field_sql_column : option string
}.

(** [a is b] on field objects. *)
Definition Field_is (a b : Field) : bool :=
  Nat.eqb (Field_oid a) (Field_oid b).

(** The attributes of a field that hold plain values. *)
Definition Field_getattr (self : Field) (nm : string) : option pyval :=
  if String.eqb nm "name" then Some (of_opt_str (Field_name self))
  else if String.eqb nm "data_type" then
    Some (VStr (data_type (Field_class self)))
  else if String.eqb nm "max_length" then
    Some (of_opt_int (Field_max_length self))
  else if String.eqb nm "server_default" then
    Some (Field_server_default self)
  else if String.eqb nm "unique" then Some (VBool (Field_unique self))
  else if String.eqb nm "nullable" then Some (VBool (Field_nullable self))
  else if String.eqb nm "index" then Some (VBool (Field_index self))
  else if String.eqb nm "primary_key" then
    Some (VBool (Field_primary_key self))
  else if String.eqb nm "_name" then VStr <$> Field__name self
  else if String.eqb nm "table_name" then VStr <$> Field_table_name self
  else if String.eqb nm "sql_column" then VStr <$> Field_sql_column self
  else None.

(** [Field.__init__]; [oid] is the identity of the new object and [c] the
    class that is instantiated. *)
Definition Field___init__ (oid : nat) (c : field_class)
    (name : option string) (max_length : option Z) (default : default_t)
    (server_default : pyval) (unique nullable index primary_key : bool)
    (foreign_key : option ForeignKey) : Field :=
  let server_default :=
    match server_default with
    | VBool b => VStr (upper (py_str (VBool b)))
    | _ => server_default
    end in
  {| Field_oid := oid; Field_class := c;
     Field_name := name; Field_max_length := max_length;
     Field_default := default; Field_server_default := server_default;
     Field_unique := unique; Field_nullable := nullable;
     Field_index := index; Field_primary_key := primary_key;
     Field_foreign_key := foreign_key;
     Field__name := None; Field_table_name := None;
     Field_sql_column := None |}.

Definition Field___lt__ (self : Field) (value : pyval)
    : outcome (string * pyval) :=
  sql <- format "{.sql_column} < %s" [AObj (Field_getattr self)] [] ;;
  Ok (sql, value).

Definition Field___eq__ (self : Field) (value : pyval)
    : outcome (string * pyval) :=
  sql <- format "{sql_column} = %s" [AObj (Field_getattr self)] [] ;;
  Ok (sql, value).

Definition Field___ne__ (self : Field) (value : pyval)
    : outcome (string * pyval) :=
  sql <- format "{.sql_column} != %s" [AObj (Field_getattr self)] [] ;;
  Ok (sql, value).

Definition Field___gt__ (self : Field) (value : pyval)
    : outcome (string * pyval) :=
  sql <- format "{.sql_column} > %s" [AObj (Field_getattr self)] [] ;;
  Ok (sql, value).

Definition Field_like (self : Field) (value : pyval)
    : outcome (string * pyval) :=
  sql <- format "{.sql_column} LIKE %s" [AObj (Field_getattr self)] [] ;;
  Ok (sql, value).

Definition Field_desc (self : Field) : outcome string :=
  format "{.sql_column} DESC" [AObj (Field_getattr self)] [].

Definition Field_to_sql (self : Field) : outcome string :=
  let this := AObj (Field_getattr self) in
  sql <- format "{0.name} {0.data_type}" [this] [] ;;
  sql <- (if negb (is_None (of_opt_int (Field_max_length self))) then
            s <- format "({0.max_length})" [this] [] ;; Ok (sql +:+ s)
          else Ok sql) ;;
  sql <- (if py_truthy (Field_server_default self) then
            s <- format " DEFAULT {0.server_default}" [this] [] ;;
            Ok (sql +:+ s)
          else Ok sql) ;;
  let sql := if negb (Field_nullable self) then sql +:+ " NOT NULL" else sql in
  let sql := if Field_unique self then sql +:+ " UNIQUE" else sql in
  let sql := if Field_primary_key self then sql +:+ " PRIMARY KEY" else sql in
  sql <- match Field_foreign_key self with
         | Some fk =>
             fk_sql <- ForeignKey_to_sql fk ;;
             s <- format " {}" [AVal (VStr fk_sql)] [] ;;
             Ok (sql +:+ s)
         | None => Ok sql
         end ;;
  Ok sql.

(** [Field.default_value]: a callable default is called, and the test
    [self.default is None] comes last. *)
Definition Field_default_value (self : Field) : pyval :=
  let value :=
    match Field_default self with
    | Producer call => call tt
    | Literal v => v
    end in
  if default_is_None (Field_default self) then
    if isinstance_TextField (Field_class self) then VStr "None" else value
  else value.

(** ** Model classes and instances *)

(** A value bound in a class body: a field descriptor or anything else. *)
Inductive attr_value :=
| AField (f : Field)
| AOther (v : pyval).

(** A model class, declared as [class C(Model): <body>].
    [Model_attr_dict] is the namespace of the class body in declaration
    order.  The other attributes are bound by the metaclass only when the
    class declares a table ([None]: unbound).  Base classes other than
    [Model] itself are not modelled: nothing is inherited from another
    model class. *)
Record Model := {
  Model_attr_dict : list (string * attr_value);
  Model_table_name : option string;
  Model_fields : option (list Field);
  Model_pk_name : option string
}.

(** A model instance: its class, its [__dict__], and the [pk_field]
    attribute that [Model.__init__] binds when the class has a primary key
    ([None]: unbound).  The attribute name [pk_field] is taken to be used
    for nothing else. *)
Record instance := {
  instance_class : Model;
  instance___dict__ : gmap string pyval;
  instance_pk_field : option Field
}.

Definition set___dict__ (d : gmap string pyval) (self : instance) : instance :=
  {| instance_class := instance_class self;
     instance___dict__ := d;
     instance_pk_field := instance_pk_field self |}.

Definition set_pk_field (f : Field) (self : instance) : instance :=
  {| instance_class := instance_class self;
     instance___dict__ := instance___dict__ self;
     instance_pk_field := Some f |}.

(** Names that resolve on every class and instance to something that is
    not a plain value (methods, the field list, special attributes). *)
Definition reserved_attr (nm : string) : bool :=
  String.eqb nm "fields" || String.eqb nm "default_dict"
  || String.eqb nm "table_sql" || String.eqb nm "sql_values"
  || String.prefix "__" nm.

(** [getattr(owner, name).default_value] as [Field.__get__] evaluates it:
    on the class a field descriptor returns itself ([Field.__get__] with
    [instance is None]); any other attribute of the class is an object
    without [default_value]. *)
Definition Model_getattr_field (owner : Model) (nm : string) : outcome Field :=
  match od_get nm (Model_attr_dict owner) with
  | Some (AField f) => Ok f
  | Some (AOther _) => Raise (AttributeError "default_value")
  | None =>
      if reserved_attr nm
         || (String.eqb nm "table_name"
             && bool_decide (is_Some (Model_table_name owner)))
         || (String.eqb nm "pk_name"
             && bool_decide (is_Some (Model_pk_name owner)))
      then Raise (AttributeError "default_value")
      else Raise (AttributeError nm)
  end.

Definition Field___get__ (self : Field) (inst : instance) (owner : Model)
    : outcome pyval :=
  _name <- bound "_name" (Field__name self) ;;
  match instance___dict__ inst !! _name with
  | None =>
      value <- Model_getattr_field owner _name ;;
      Ok (Field_default_value value)
  | Some v => Ok v
  end.

Definition Field___set__ (self : Field) (inst : instance) (value : pyval)
    : outcome instance :=
  _name <- bound "_name" (Field__name self) ;;
  Ok (set___dict__ (<[_name := value]> (instance___dict__ inst)) inst).

(** Attributes of the class that are neither in its body nor in the
    instance's [__dict__]. *)
Definition instance_getattr_builtin (inst : instance) (nm : string)
    : outcome pyval :=
  let owner := instance_class inst in
  if String.eqb nm "pk_field" then
    match instance_pk_field inst with
    | Some _ => Raise (Unmodelled "a field object as a value")
    | None => Raise (AttributeError nm)
    end
  else if reserved_attr nm then
    Raise (Unmodelled "a reserved attribute as a value")
  else if String.eqb nm "table_name" then
    s <- bound nm (Model_table_name owner) ;; Ok (VStr s)
  else if String.eqb nm "pk_name" then
    s <- bound nm (Model_pk_name owner) ;; Ok (VStr s)
  else Raise (AttributeError nm).

(** [getattr(instance, nm)]: a field descriptor of the class comes first,
    then the instance's [__dict__], then a plain class attribute.  The
    class namespace is read as the class body left it: a body entry named
    [table_name], [pk_name] or [fields], which the metaclass rebinds on
    the class, is outside what this covers. *)
Definition instance_getattr (inst : instance) (nm : string) : outcome pyval :=
  let owner := instance_class inst in
  match od_get nm (Model_attr_dict owner), instance___dict__ inst !! nm with
  | Some (AField f), _ => Field___get__ f inst owner
  | _, Some v => Ok v
  | Some (AOther v), None => Ok v
  | None, None => instance_getattr_builtin inst nm
  end.

(** [getattr(instance, nm, default)]: only [AttributeError] is caught. *)
Definition instance_getattr_default (inst : instance) (nm : string)
    (default : pyval) : outcome pyval :=
  match instance_getattr inst nm with
  | Raise (AttributeError _) => Ok default
  | r => r
  end.

(** [setattr(instance, nm, value)]: a field descriptor of the class
    intercepts the assignment, anything else lands in [__dict__]. *)
Definition instance_setattr (inst : instance) (nm : string) (value : pyval)
    : outcome instance :=
  match od_get nm (Model_attr_dict (instance_class inst)) with
  | Some (AField f) => Field___set__ f inst value
  | _ => Ok (set___dict__ (<[nm := value]> (instance___dict__ inst)) inst)
  end.

(** [for x in xs] over a computation that may raise, threading the value
    that the loop body updates. *)
Fixpoint ofold {A B} (body : B -> A -> outcome B) (xs : list A) (b : B)
    : outcome B :=
  match xs with
  | [] => Ok b
  | x :: xs' => b' <- body b x ;; ofold body xs' b'
  end.

(** [[f(x) for x in xs]]: the results in order, or the first exception. *)
Fixpoint comprehension {A B} (f : A -> outcome B) (xs : list A)
    : outcome (list B) :=
  match xs with
  | [] => Ok []
  | x :: xs' => y <- f x ;; ys <- comprehension f xs' ;; Ok (y :: ys)
  end.

(** [self.fields], for an instance whose [__dict__] has no entry
    [fields]: the list bound on the class. *)
Definition instance_fields (self : instance) : outcome (list Field) :=
  bound "fields" (Model_fields (instance_class self)).

(** [self.pk_field] *)
Definition instance_get_pk_field (self : instance) : outcome Field :=
  bound "pk_field" (instance_pk_field self).

(** [{field._name: field.default_value() for field in self.fields}], as
    the list of its items in the order they are produced. *)
Definition Model_default_dict (self : instance)
    : outcome (list (string * pyval)) :=
  fields <- instance_fields self ;;
  comprehension (fun field =>
                   _name <- bound "_name" (Field__name field) ;;
                   Ok (_name, Field_default_value field))
                fields.

(** [d.update(items)] *)
Definition dict_update (items : list (string * pyval))
    (d : gmap string pyval) : gmap string pyval :=
  fold_left (fun d kv => <[kv.1 := kv.2]> d) items d.

(** The first field flagged primary key, if any: the [for]/[break] loop of
    [Model.__init__] and of the metaclass. *)
Definition first_primary_key (fields : list Field) : option Field :=
  List.find Field_primary_key fields.

(** [setattr(self, kwg, value)] for one keyword argument. *)
Definition Model___init___body (self : instance) (kw : string * pyval)
    : outcome instance :=
  instance_setattr self kw.1 kw.2.

(** [Model.__init__(self, **kwargs)] on a fresh object of class [cls],
    for a class body and keyword arguments that leave [fields],
    [default_dict] and [pk_field] to the class and to this method. *)
Definition Model___init__ (cls : Model) (kwargs : list (string * pyval))
    : outcome instance :=
  let self := {| instance_class := cls; instance___dict__ := ∅;
                 instance_pk_field := None |} in
  defaults <- Model_default_dict self ;;
  let self := set___dict__ (dict_update defaults (instance___dict__ self)) self in
  self <- ofold Model___init___body kwargs self ;;
  fields <- instance_fields self ;;
  match first_primary_key fields with
  | Some field => Ok (set_pk_field field self)
  | None => Ok self
  end.

(** [cls.table_sql()] *)
Definition Model_table_sql (cls : Model) : outcome string :=
  fields <- bound "fields" (Model_fields cls) ;;
  column_sqls <- comprehension Field_to_sql fields ;;
  let column_sqls := join (String "," (String "010" "    ")) column_sqls in
  table_name <- bound "table_name" (Model_table_name cls) ;;
  format (String "010" "CREATE TABLE {table_name} ("
          +:+ String "010" "    {column_sqls}"
          +:+ String "010" ");" +:+ String "010" "")
    [] [("table_name", AVal (VStr table_name));
        ("column_sqls", AVal (VStr column_sqls))].

(** [self.sql_values()]: the ordered dictionary from column name to value
    of the fields to write, for an instance that leaves [fields] and
    [pk_field] to its class and to [Model.__init__]. *)
Definition Model_sql_values_body (self : instance)
    (values_dict : list (option string * pyval)) (field : Field)
    : outcome (list (option string * pyval)) :=
  pk_field <- instance_get_pk_field self ;;
  if Field_is field pk_field then Ok values_dict
  else
    _name <- bound "_name" (Field__name field) ;;
    value <- instance_getattr_default self _name
               (Field_default_value field) ;;
    if negb (is_None value) then
      Ok (od_set (Field_name field) value values_dict)
    else Ok values_dict.

Definition Model_sql_values (self : instance)
    : outcome (list (option string * pyval)) :=
  fields <- instance_fields self ;;
  ofold (Model_sql_values_body self) fields [].

(** ** The MetaData registry *)

(** The two class attributes of [MetaData], shared by the whole process:
    the ordered dictionary of model classes by table name, and the list of
    indexes. *)
Record MetaData := {
  MetaData_tables : list (string * Model);
  MetaData_indexes : list Index
}.

Definition MetaData_empty : MetaData :=
  {| MetaData_tables := []; MetaData_indexes := [] |}.

(** [MetaData.index_sqls()] *)
Definition MetaData_index_sqls (cls : MetaData) : outcome string :=
  sqls <- comprehension Index_to_sql (MetaData_indexes cls) ;;
  Ok (join (String ";" (String "010" "")) sqls).

(** ** Declaring a model: the metaclass *)

Definition set_Field_names (_name : string) (name : option string)
    (f : Field) : Field :=
  {| Field_oid := Field_oid f; Field_class := Field_class f;
     Field_name := name; Field_max_length := Field_max_length f;
     Field_default := Field_default f;
     Field_server_default := Field_server_default f;
     Field_unique := Field_unique f; Field_nullable := Field_nullable f;
     Field_index := Field_index f; Field_primary_key := Field_primary_key f;
     Field_foreign_key := Field_foreign_key f;
     Field__name := Some _name; Field_table_name := Field_table_name f;
     Field_sql_column := Field_sql_column f |}.

Definition set_Field_table (table_name sql_column : string) (f : Field)
    : Field :=
  {| Field_oid := Field_oid f; Field_class := Field_class f;
     Field_name := Field_name f; Field_max_length := Field_max_length f;
     Field_default := Field_default f;
     Field_server_default := Field_server_default f;
     Field_unique := Field_unique f; Field_nullable := Field_nullable f;
     Field_index := Field_index f; Field_primary_key := Field_primary_key f;
     Field_foreign_key := Field_foreign_key f;
     Field__name := Field__name f; Field_table_name := Some table_name;
     Field_sql_column := Some sql_column |}.

(** [_get_table_name]: [attr_dict.get('__tablename__')], for a class
    body whose [__tablename__], if it has one, is a [str]. *)
Definition _get_table_name (attr_dict : list (string * attr_value))
    : option string :=
  match od_get "__tablename__" attr_dict with
  | Some (AOther (VStr table_name)) => Some table_name
  | _ => None
  end.

(** [_auto_column_name]: the field objects are updated in place, so the
    namespace with the updated fields is returned.  Each entry is updated
    on its own, which is the update in place when the field objects of
    the body are distinct. *)
Definition _auto_column_name_body (item : string * attr_value)
    : string * attr_value :=
  match item with
  | (attr, AField attr_value) =>
      let name := match Field_name attr_value with
                  | None => Some attr
                  | Some name => Some name
                  end in
      (attr, AField (set_Field_names attr name attr_value))
  | _ => item
  end.

Definition _auto_column_name (attr_dict : list (string * attr_value))
    : list (string * attr_value) :=
  map _auto_column_name_body attr_dict.

(** [_collect_fields]: returns the list of fields, and the namespace whose
    fields now know their table and qualified column.  The back reference
    [field.model] is never read and is left out. *)
Definition _collect_fields_body (model : Model)
    (acc : list Field * list (string * attr_value))
    (item : string * attr_value)
    : outcome (list Field * list (string * attr_value)) :=
  match item with
  | (attr, AField field) =>
      table_name <- bound "table_name" (Model_table_name model) ;;
      sql_column <- format "{}.{}"
                      [AVal (VStr table_name);
                       AVal (of_opt_str (Field_name field))] [] ;;
      let field := set_Field_table table_name sql_column field in
      Ok (acc.1 ++ [field], acc.2 ++ [(attr, AField field)])
  | _ => Ok (acc.1, acc.2 ++ [item])
  end.

Definition _collect_fields (attr_dict : list (string * attr_value))
    (model : Model)
    : outcome (list Field * list (string * attr_value)) :=
  ofold (_collect_fields_body model) attr_dict ([], []).

(** [_collect_indexes]: appends to [MetaData.indexes]. *)
Definition MetaData_indexes_append (index : Index) : M MetaData unit :=
  fun md => (Ok tt, {| MetaData_tables := MetaData_tables md;
                       MetaData_indexes := MetaData_indexes md ++ [index] |}).

Definition _collect_indexes_pick (item : string * attr_value)
    : option Field :=
  match item with
  | (_, AField attr_value) =>
      if negb (Field_unique attr_value
               || Field_primary_key attr_value
               || bool_decide (is_Some (Field_foreign_key attr_value)))
         && Field_index attr_value
      then Some attr_value else None
  | _ => None
  end.

Definition _collect_indexes_body (table_name : string) (field : Field)
    : M MetaData unit :=
  let column_name := Field_name field in
  name <~ lift (format "index_{}_{}"
                  [AVal (VStr table_name);
                   AVal (of_opt_str column_name)] []) ;;
  let index := Index___init__ name table_name column_name
                 (Field_unique field) in
  MetaData_indexes_append index.

Definition _collect_indexes (table_name : string)
    (attr_dict : list (string * attr_value)) : M MetaData unit :=
  let indexes := omap _collect_indexes_pick attr_dict in
  for_each indexes (_collect_indexes_body table_name).

(** [MetaData.tables[table_name] = cls] *)
Definition MetaData_set_table (table_name : string) (cls : Model)
    : M MetaData unit :=
  fun md => (Ok tt, {| MetaData_tables := od_set table_name cls (MetaData_tables md);
                       MetaData_indexes := MetaData_indexes md |}).

(** [ModelMetaClass.__init__], run when a class [class C(Model)] with
    body [attr_dict] is declared; the result is the class object.  The
    registry holds a reference to the class, so it sees the attributes
    bound after the registration: the entry is stored again once they
    are bound. *)
Definition ModelMetaClass___init__ (attr_dict : list (string * attr_value))
    : M MetaData Model :=
  let cls := {| Model_attr_dict := attr_dict; Model_table_name := None;
                Model_fields := None; Model_pk_name := None |} in
  let table_name := _get_table_name attr_dict in
  if opt_truthy table_name then
    match table_name with
    | None => ret cls
    | Some table_name =>
        let cls := {| Model_attr_dict := attr_dict;
                      Model_table_name := Some table_name;
                      Model_fields := None; Model_pk_name := None |} in
        MetaData_set_table table_name cls ;;;
        let attr_dict := _auto_column_name attr_dict in
        '(fields, attr_dict) <~ lift (_collect_fields attr_dict cls) ;;
        let pk_name := match first_primary_key fields with
                       | Some field => Field_name field
                       | None => None
                       end in
        let cls := {| Model_attr_dict := attr_dict;
                      Model_table_name := Some table_name;
                      Model_fields := Some fields;
                      Model_pk_name := pk_name |} in
        MetaData_set_table table_name cls ;;;
        _collect_indexes table_name attr_dict ;;;
        ret cls
    end
  else ret cls.

(** The registry after declaring the given class bodies in order, each
    with the class object it produced. *)
Fixpoint declare_all (decls : list (list (string * attr_value)))
    : M MetaData (list Model) :=
  match decls with
  | [] => ret []
  | attr_dict :: decls' =>
      cls <~ ModelMetaClass___init__ attr_dict ;;
      clss <~ declare_all decls' ;;
      ret (cls :: clss)
  end.

(** ** The database driver

    psycopg2 is outside the program.  What the program does to it is
    recorded as a trace of calls; how the database answers is a parameter
    [db] of the development: given the calls made so far and the call
    being made, it fails with an exception or succeeds, and for an
    [execute] it says which rows the statement returns ([None]: the
    statement returns no result set). *)

Inductive event :=
| Connect (uri : string)
| OpenCursor
| Execute (sql : string) (args : option (list pyval))
| Commit
| Rollback
| CloseCursor
| CloseConnection.

Definition row := list pyval.

Record Driver := {
  trace : list event;            (* calls made so far, oldest first *)
  result : option (list row)     (* rows of the last statement not yet fetched *)
}.

Definition Driver_initial : Driver := {| trace := []; result := None |}.

Record Engine := { Engine_uri : string }.

(** A session object: [connect] binds its [connection] and [cursor]
    attributes, which [Session_cursor] records. *)
Record Session := {
  Session_bind : option Engine;
  Session_cursor : bool
}.

(** A query set; its session is the one the iteration runs in. *)
Record QuerySet := {
  QuerySet_session : Session;
  QuerySet_model : Model;
  QuerySet_exps : list (string * pyval)
}.

Section driver.

Variable db : list event -> event -> outcome (option (list row)).

(** One call on the driver. *)
Definition call (ev : event) : M Driver unit :=
  fun d =>
    let tr := trace d ++ [ev] in
    match db (trace d) ev with
    | Ok rows =>
        (Ok tt, {| trace := tr;
                   result := match ev with
                             | Execute _ _ => rows
                             | _ => result d
                             end |})
    | Raise e => (Raise e, {| trace := tr; result := result d |})
    end.

Definition cursor_fetchone : M Driver (option row) :=
  fun d =>
    match result d with
    | None => (Raise (DriverError "no results to fetch"), d)
    | Some [] => (Ok None, d)
    | Some (r :: rows) => (Ok (Some r), {| trace := trace d; result := Some rows |})
    end.

Definition cursor_fetchmany (size : nat) : M Driver (list row) :=
  fun d =>
    match result d with
    | None => (Raise (DriverError "no results to fetch"), d)
    | Some rows =>
        (Ok (take size rows), {| trace := trace d; result := Some (drop size rows) |})
    end.

Definition cursor_fetchall : M Driver (list row) :=
  fun d =>
    match result d with
    | None => (Raise (DriverError "no results to fetch"), d)
    | Some rows => (Ok rows, {| trace := trace d; result := Some [] |})
    end.

(** [Engine.connect] *)
Definition Engine_connect (self : Engine) : M Driver unit :=
  call (Connect (Engine_uri self)).

(** [MetaData.create_all(bind)], for registered classes whose body leaves
    [table_sql] to [Model]. *)
Definition MetaData_create_all (cls : MetaData) (bind : Engine)
    : M Driver unit :=
  Engine_connect bind ;;;
  call OpenCursor ;;;
  for_each (od_values (MetaData_tables cls)) (fun model =>
    sql <~ lift (Model_table_sql model) ;;
    call (Execute sql None)) ;;;
  index_sql <~ lift (MetaData_index_sqls cls) ;;
  (if py_truthy (VStr index_sql) then call (Execute index_sql None)
   else ret tt) ;;;
  call Commit ;;;
  call CloseCursor ;;;
  call CloseConnection.

(** [MetaData.drop_all(bind)] *)
Definition MetaData_drop_all (cls : MetaData) (bind : Engine)
    : M Driver unit :=
  Engine_connect bind ;;;
  call OpenCursor ;;;
  for_each (od_keys (MetaData_tables cls)) (fun table_name =>
    sql <~ lift (format "DROP TABLE IF EXISTS {}" [AVal (VStr table_name)] []) ;;
    call (Execute sql None)) ;;;
  call Commit ;;;
  call CloseCursor ;;;
  call CloseConnection.

(** ** Session *)

(** [self.cursor], unbound until [connect] has run. *)
Definition Session_get_cursor (self : Session) : M Driver unit :=
  if Session_cursor self then ret tt else raise (AttributeError "cursor").

Definition Session_get_connection (self : Session) : M Driver unit :=
  if Session_cursor self then ret tt else raise (AttributeError "connection").

Definition Session_connect (self : Session) : M Driver Session :=
  match Session_bind self with
  | None => raise (AttributeError "connect")
  | Some bind =>
      Engine_connect bind ;;;
      call OpenCursor ;;;
      ret {| Session_bind := Session_bind self; Session_cursor := true |}
  end.

(** [Session(bind)]; [_bind] is the class-level default set by
    [Session.configure]. *)
Definition Session___init__ (_bind bind : option Engine) : M Driver Session :=
  let bind := match bind with Some b => Some b | None => _bind end in
  let self := {| Session_bind := bind; Session_cursor := false |} in
  match bind with
  | Some _ => Session_connect self
  | None => ret self
  end.

Definition Session_execute (self : Session) (sql : string)
    (args : list pyval) : M Driver unit :=
  Session_get_cursor self ;;; call (Execute sql (Some args)).

Definition Session_fetchone (self : Session) : M Driver (option row) :=
  Session_get_cursor self ;;; cursor_fetchone.

Definition Session_fetchmany (self : Session) (size : option nat)
    : M Driver (list row) :=
  Session_get_cursor self ;;;
  match size with
  | None => cursor_fetchmany 1
  | Some size => cursor_fetchmany size
  end.

Definition Session_fetchall (self : Session) : M Driver (list row) :=
  Session_get_cursor self ;;; cursor_fetchall.

Definition Session_commit (self : Session) : M Driver unit :=
  Session_get_connection self ;;; call Commit.

Definition Session_rollback (self : Session) : M Driver unit :=
  Session_get_connection self ;;; call Rollback.

Definition Session_close (self : Session) : M Driver unit :=
  Session_get_cursor self ;;; call CloseCursor ;;;
  Session_get_connection self ;;; call CloseConnection.

(** [Session.insert]; the result is the instance as the call leaves it. *)
Definition Session_insert (self : Session) (inst : instance)
    : M Driver instance :=
  pk_field <~ lift (instance_get_pk_field inst) ;;
  let pk_name := Field_name pk_field in
  sql_values <~ lift (Model_sql_values inst) ;;
  columns <~ lift (comprehension
                     (fun k => format "{0}" [AVal (of_opt_str k)] [])
                     (od_keys sql_values)) ;;
  let columns := join ", " columns in
  let values := join ", " (map (fun _ => "%s") (od_keys sql_values)) in
  table_name <~ lift (instance_getattr inst "table_name") ;;
  sql <~ lift (format
                 "INSERT INTO {table_name} ({columns}) VALUES ({values}) RETURNING {pk_name};"
                 [] [("table_name", AVal table_name);
                     ("columns", AVal (VStr columns));
                     ("values", AVal (VStr values));
                     ("pk_name", AVal (of_opt_str pk_name))]) ;;
  let args := od_values sql_values in
  Session_execute self sql args ;;;
  fetched <~ Session_fetchone self ;;
  pk_value <~ lift (match fetched with
                    | None => Raise (TypeError "'NoneType' object is not subscriptable")
                    | Some [] => Raise IndexError
                    | Some (v :: _) => Ok v
                    end) ;;
  pk_field <~ lift (instance_get_pk_field inst) ;;
  _name <~ lift (bound "_name" (Field__name pk_field)) ;;
  lift (instance_setattr inst _name pk_value).

(** An attribute name must be a [str]. *)
Definition attr_name (o : option string) : outcome string :=
  match o with
  | Some nm => Ok nm
  | None => Raise (TypeError "attribute name must be string, not 'NoneType'")
  end.

(** [Session.update] *)
Definition Session_update (self : Session) (inst : instance)
    : M Driver unit :=
  pk_field <~ lift (instance_get_pk_field inst) ;;
  let pk_name := Field_name pk_field in
  pk_value <~ lift (nm <- attr_name pk_name ;; instance_getattr inst nm) ;;
  sql_values <~ lift (Model_sql_values inst) ;;
  columns <~ lift (comprehension
                     (fun k => format "{0} = %s" [AVal (of_opt_str k)] [])
                     (od_keys sql_values)) ;;
  let columns := join ", " columns in
  table_name <~ lift (instance_getattr inst "table_name") ;;
  sql <~ lift (format "UPDATE {table_name} SET {columns} WHERE {pk_name} = %s;"
                 [] [("table_name", AVal table_name);
                     ("pk_name", AVal (of_opt_str pk_name));
                     ("columns", AVal (VStr columns))]) ;;
  let args := od_values sql_values ++ [pk_value] in
  Session_execute self sql args.

(** [Session.delete]; the result is the instance as the call leaves it. *)
Definition Session_delete (self : Session) (inst : instance)
    : M Driver instance :=
  pk_field <~ lift (instance_get_pk_field inst) ;;
  let pk_name := Field_name pk_field in
  pk_value <~ lift (nm <- attr_name pk_name ;; instance_getattr inst nm) ;;
  table_name <~ lift (instance_getattr inst "table_name") ;;
  sql <~ lift (format "DELETE FROM {table_name} WHERE {pk_name} = %s"
                 [] [("table_name", AVal table_name);
                     ("pk_name", AVal (of_opt_str pk_name))]) ;;
  let args := [pk_value] in
  Session_execute self sql args ;;;
  lift (nm <- attr_name pk_name ;; instance_setattr inst nm VNone).

(** ** QuerySet *)

(** [QuerySet(session, model, exps)] *)
Definition QuerySet___init__ (session : Session) (model : Model)
    (exps : option (list (string * pyval))) : QuerySet :=
  {| QuerySet_session := session; QuerySet_model := model;
     QuerySet_exps := match exps with
                      | Some exps => exps
                      | None => []
                      end |}.

(** What an attribute of a query set holds. *)
Inductive QuerySet_attr :=
| QSession (s : Session)
| QModel (m : Model)
| QExps (exps : list (string * pyval)).

(** [getattr(self, nm)] on a query set: the three attributes bound by
    [__init__]; the methods of the class are not values of the model. *)
Definition QuerySet_getattr (self : QuerySet) (nm : string)
    : outcome QuerySet_attr :=
  if String.eqb nm "session" then Ok (QSession (QuerySet_session self))
  else if String.eqb nm "model" then Ok (QModel (QuerySet_model self))
  else if String.eqb nm "exps" then Ok (QExps (QuerySet_exps self))
  else if String.eqb nm "filter" || String.eqb nm "_build_sql"
          || String.prefix "__" nm
  then Raise (Unmodelled "a method as a value")
  else Raise (AttributeError nm).

(** [obj.fields] for the object an attribute holds. *)
Definition QuerySet_attr_fields (a : QuerySet_attr) : outcome (list Field) :=
  match a with
  | QModel m => bound "fields" (Model_fields m)
  | _ => Raise (AttributeError "fields")
  end.

(** [QuerySet.filter]: the body is [pass]. *)
Definition QuerySet_filter (self : QuerySet) (args : list (string * pyval))
    : pyval := VNone.

(** [QuerySet._build_sql] *)
Definition QuerySet__build_sql (self : QuerySet)
    : outcome (string * list pyval) :=
  table_name <- bound "table_name" (Model_table_name (QuerySet_model self)) ;;
  let where_ := join "AND " (map fst (QuerySet_exps self)) in
  let args := map snd (QuerySet_exps self) in
  let where_ := if py_truthy (VStr where_) then "WHERE " +:+ where_ else where_ in
  models <- QuerySet_getattr self "models" ;;
  fields <- QuerySet_attr_fields models ;;
  column_names <- comprehension
                    (fun field =>
                       format "{column_name} AS {table_name}_{column_name}"
                         [] [("column_name", AVal (of_opt_str (Field_name field)));
                             ("table_name", AVal (VStr table_name))])
                    fields ;;
  let column_names := join ", " column_names in
  sql <- format "SELECT {column_names} FROM {table_name} {where};"
           [] [("column_names", AVal (VStr column_names));
               ("table_name", AVal (VStr table_name));
               ("where", AVal (VStr where_))] ;;
  Ok (sql, args).

(** [for nu, value in enumerate(row)] *)
Fixpoint enumerate_from {A} (n : nat) (xs : list A) : list (nat * A) :=
  match xs with
  | [] => []
  | x :: xs' => (n, x) :: enumerate_from (S n) xs'
  end.

(** The body of the row loop of [__iter__]: one hydrated instance. *)
Definition QuerySet_hydrate_body (self : QuerySet) (inst : instance)
    (item : nat * pyval) : outcome instance :=
  let '(nu, value) := item in
  fields <- bound "fields" (Model_fields (QuerySet_model self)) ;;
  field <- match nth_error fields nu with
           | Some field => Ok field
           | None => Raise IndexError
           end ;;
  nm <- attr_name (Field_name field) ;;
  instance_setattr inst nm value.

Definition QuerySet_hydrate (self : QuerySet) (r : row) : outcome instance :=
  inst <- Model___init__ (QuerySet_model self) [] ;;
  ofold (QuerySet_hydrate_body self) (enumerate_from 0 r) inst.

(** [QuerySet.__iter__], run until the generator is exhausted: the list
    of the instances it yields. *)
Definition QuerySet___iter__ (self : QuerySet) : M Driver (list instance) :=
  '(sql, args) <~ lift (QuerySet__build_sql self) ;;
  Session_execute (QuerySet_session self) sql args ;;;
  rows <~ Session_fetchall (QuerySet_session self) ;;
  lift (comprehension (QuerySet_hydrate self) rows).

End driver.

(** * The statements of the specification *)

(** A clause of a statement that is present or not. *)
Definition clause (present : bool) (text : string) : string :=
  if present then text else "".

(** The number of positional placeholders [%s] in a statement. *)
Fixpoint count_placeholders (s : string) : nat :=
  match s with
  | EmptyString => 0
  | String c rest =>
      match rest with
      | EmptyString => 0
      | String c' rest' =>
          if Ascii.eqb c "%" && Ascii.eqb c' "s"
          then S (count_placeholders rest')
          else count_placeholders rest
      end
  end.

(** No character of the string is a percent sign. *)
Fixpoint no_percent (s : string) : bool :=
  match s with
  | EmptyString => true
  | String c rest => negb (Ascii.eqb c "%") && no_percent rest
  end.

(** The foreign-key clause:
    [REFERENCES <table> (<column>) [ON UPDATE <action>] [ON DELETE <action>]]. *)
Definition ForeignKey_clause (fk : ForeignKey) : string :=
  "REFERENCES " +:+ ForeignKey_table_name fk +:+ " ("
  +:+ ForeignKey_column_name fk +:+ ")"
  +:+ clause (opt_truthy (ForeignKey_onupdate fk))
        (" ON UPDATE " +:+ py_str (of_opt_str (ForeignKey_onupdate fk)))
  +:+ clause (opt_truthy (ForeignKey_ondelete fk))
        (" ON DELETE " +:+ py_str (of_opt_str (ForeignKey_ondelete fk))).

(** [<name> <type>[(<max_length>)]] *)
Definition column_head (f : Field) : string :=
  py_str (of_opt_str (Field_name f)) +:+ " " +:+ data_type (Field_class f)
  +:+ match Field_max_length f with
      | Some n => "(" +:+ pretty n +:+ ")"
      | None => ""
      end.

(** [[DEFAULT <server_default>]] *)
Definition column_default (f : Field) : string :=
  clause (py_truthy (Field_server_default f))
    (" DEFAULT " +:+ py_str (Field_server_default f)).

(** [[NOT NULL] [UNIQUE] [PRIMARY KEY] [<foreign-key clause>]] *)
Definition column_constraints (f : Field) : string :=
  clause (negb (Field_nullable f)) " NOT NULL"
  +:+ clause (Field_unique f) " UNIQUE"
  +:+ clause (Field_primary_key f) " PRIMARY KEY"
  +:+ match Field_foreign_key f with
      | Some fk => " " +:+ ForeignKey_clause fk
      | None => ""
      end.

(** The column definition in the clause order of the specification. *)
Definition column_ddl (f : Field) : string :=
  column_head f +:+ column_default f +:+ column_constraints f.

(** The column of a field declared under the attribute [attr]: its
    explicit name, or the attribute. *)
Definition column_of (attr : string) (f : Field) : string :=
  match Field_name f with
  | Some name => name
  | None => attr
  end.

(** The field declared under [attr] once attached to the table. *)
Definition attach (table_name attr : string) (f : Field) : Field :=
  set_Field_table table_name (table_name +:+ "." +:+ column_of attr f)
    (set_Field_names attr (Some (column_of attr f)) f).

Definition attach_item (table_name : string) (item : string * attr_value)
    : string * attr_value :=
  match item with
  | (attr, AField f) => (attr, AField (attach table_name attr f))
  | _ => item
  end.

Definition item_field (item : string * attr_value) : option Field :=
  match item with
  | (_, AField f) => Some f
  | _ => None
  end.

(** The namespace and the field list of a class declared on a table. *)
Definition attached_dict (table_name : string)
    (attr_dict : list (string * attr_value)) : list (string * attr_value) :=
  map (attach_item table_name) attr_dict.

Definition attached_fields (table_name : string)
    (attr_dict : list (string * attr_value)) : list Field :=
  omap item_field (attached_dict table_name attr_dict).

(** The class a body with [__tablename__ = table_name] declares. *)
Definition declared_class (table_name : string)
    (attr_dict : list (string * attr_value)) : Model :=
  {| Model_attr_dict := attached_dict table_name attr_dict;
     Model_table_name := Some table_name;
     Model_fields := Some (attached_fields table_name attr_dict);
     Model_pk_name :=
       match first_primary_key (attached_fields table_name attr_dict) with
       | Some field => Field_name field
       | None => None
       end |}.

(** A field that gets an index synthesized: flagged [index], and neither
    unique nor primary key nor foreign-keyed. *)
Definition plain_index (f : Field) : bool :=
  Field_index f && negb (Field_unique f) && negb (Field_primary_key f)
  && negb (bool_decide (is_Some (Field_foreign_key f))).

(** One index [index_<table>_<column>] per plain-index field of the class
    body, in declaration order. *)
Definition synthesized_indexes (table_name : string)
    (attr_dict : list (string * attr_value)) : list Index :=
  omap (fun item =>
          match item with
          | (attr, AField f) =>
              if plain_index f then
                Some {| Index_name := "index_" +:+ table_name +:+ "_"
                                      +:+ column_of attr f;
                        Index_table_name := table_name;
                        Index_column_name := Some (column_of attr f);
                        Index_unique := false |}
              else None
          | _ => None
          end)
       attr_dict.

(** Whether a class body declares a table. *)
Definition declares_table (attr_dict : list (string * attr_value))
    (table_name : string) : Prop :=
  _get_table_name attr_dict = Some table_name /\ table_name <> "".

(** The class a body without a table name declares: nothing is bound. *)
Definition abstract_class (attr_dict : list (string * attr_value)) : Model :=
  {| Model_attr_dict := attr_dict; Model_table_name := None;
     Model_fields := None; Model_pk_name := None |}.

(** The registry of a program that has declared the given class bodies,
    in order. *)
Definition registry (decls : list (list (string * attr_value))) : MetaData :=
  (declare_all decls MetaData_empty).2.

(** What holds of every registry a program can build: each registered
    class was declared on a table, and no index is unique. *)
Record registry_ok (md : MetaData) : Prop := {
  registry_tables_declared :
    Forall (fun entry => exists table_name attr_dict,
              entry.2 = declared_class table_name attr_dict)
           (MetaData_tables md);
  registry_indexes_plain :
    Forall (fun index => Index_unique index = false) (MetaData_indexes md)
}.

(** The statement that creates an index that is not unique. *)
Definition create_index_statement (index : Index) : string :=
  "CREATE INDEX " +:+ Index_name index +:+ " ON " +:+ Index_table_name index
  +:+ " (" +:+ py_str (of_opt_str (Index_column_name index)) +:+ ");".

(** A run of a driver computation from [d] that raises nothing, returns
    [a] and makes exactly the calls [calls]. *)
Definition runs {A} (m : M Driver A) (d : Driver) (a : A)
    (calls : list event) : Prop :=
  exists d', m d = (Ok a, d') /\ trace d' = trace d ++ calls.

(** A database that accepts every call. *)
Definition accepts_all (db : list event -> event -> outcome (option (list row)))
    : Prop :=
  forall tr ev, exists rows, db tr ev = Ok rows.


(** The attribute a field is stored under, once attached. *)
Definition field_attr (f : Field) : string :=
  match Field__name f with
  | Some _name => _name
  | None => ""
  end.

(** Among [fields], [column] is the column of a field other than the
    primary-key field [pk], and [value] is the current value of that
    field on [inst], which is not [None]. *)
Definition written (inst : instance) (fields : list Field) (pk : Field)
    (column : option string) (value : pyval) : Prop :=
  value <> VNone
  /\ exists f attr,
       f ∈ fields
       /\ Field_is f pk = false
       /\ Field_name f = column
       /\ Field__name f = Some attr
       /\ instance_getattr inst attr = Ok value.

(** [INSERT INTO <table> (<columns>) VALUES (%s, ...) RETURNING <pk>;]
    with one placeholder per column. *)
Definition insert_statement (table_name : string)
    (columns : list (option string)) (pk_column : string) : string :=
  "INSERT INTO " +:+ table_name
  +:+ " (" +:+ join ", " (map (fun c => py_str (of_opt_str c)) columns)
  +:+ ") VALUES (" +:+ join ", " (map (fun _ => "%s") columns)
  +:+ ") RETURNING " +:+ pk_column +:+ ";".

(** [DELETE FROM <table> WHERE <pk-column> = %s] *)
Definition delete_statement (table_name pk_column : string) : string :=
  "DELETE FROM " +:+ table_name +:+ " WHERE " +:+ pk_column +:+ " = %s".

(** * Sample programs *)

(** A database that answers every statement with the single row [(42,)]. *)
Definition sample_db : list event -> event -> outcome (option (list row)) :=
  fun _ ev =>
    match ev with
    | Execute _ _ => Ok (Some [[VInt 42]])
    | _ => Ok None
    end.

Definition sample_engine : Engine :=
  {| Engine_uri := "postgresql://localhost/app" |}.

Definition sample_session : Session :=
  {| Session_bind := Some sample_engine; Session_cursor := true |}.

(** [class User(Model)]: [id = AutoField(primary_key=True)],
    [username = CharField(max_length=80, index=True)],
    [age = IntegerField(name='years', default=7, nullable=False)]. *)
Definition User_body : list (string * attr_value) :=
  [("__tablename__", AOther (VStr "users"));
   ("id", AField (Field___init__ 1 AutoField None None (Literal VNone) VNone
                    false true false true None));
   ("username", AField (Field___init__ 2 CharField None (Some 80%Z)
                          (Literal VNone) VNone false true true false None));
   ("age", AField (Field___init__ 3 IntegerField (Some "years") None
                     (Literal (VInt 7)) VNone false false false false None))].

(** [class Note(Model)]: [body = TextField()], and no primary key. *)
Definition Note_body : list (string * attr_value) :=
  [("__tablename__", AOther (VStr "notes"));
   ("body", AField (Field___init__ 4 TextField None None (Literal VNone)
                      VNone false true false false None))].

(** [class Account(Model)]:
    [id = AutoField(name='account_id', primary_key=True)],
    [owner = CharField(max_length=40)]: the primary key is stored under
    the attribute [id] and mapped to the column [account_id]. *)
Definition Account_body : list (string * attr_value) :=
  [("__tablename__", AOther (VStr "accounts"));
   ("id", AField (Field___init__ 5 AutoField (Some "account_id") None
                    (Literal VNone) VNone false true false true None));
   ("owner", AField (Field___init__ 6 CharField None (Some 40%Z)
                       (Literal VNone) VNone false true false false None))].

(** * Further statements *)

(** [DROP TABLE IF EXISTS <table>] *)
Definition drop_table_statement (table_name : string) : string :=
  "DROP TABLE IF EXISTS " +:+ table_name.

(** The calls of [create_all] when every call is accepted: the table
    statements [ddl], then the index batch unless it is empty. *)
Definition create_all_script (bind : Engine) (ddl : list string)
    (index_sql : string) : list event :=
  [Connect (Engine_uri bind); OpenCursor]
  ++ map (fun sql => Execute sql None) ddl
  ++ (if py_truthy (VStr index_sql) then [Execute index_sql None] else [])
  ++ [Commit; CloseCursor; CloseConnection].

(** The calls of [drop_all] when every call is accepted. *)
Definition drop_all_script (bind : Engine) (table_names : list string)
    : list event :=
  [Connect (Engine_uri bind); OpenCursor]
  ++ map (fun table_name => Execute (drop_table_statement table_name) None)
       table_names
  ++ [Commit; CloseCursor; CloseConnection].

(** A call that ends a transaction or releases the cursor or the
    connection. *)
Definition finishing (ev : event) : bool :=
  match ev with
  | Commit | CloseCursor | CloseConnection => true
  | _ => false
  end.

Definition is_execute (ev : event) : bool :=
  match ev with
  | Execute _ _ => true
  | _ => false
  end.

(** A database that rejects every statement and accepts the other calls. *)
Definition rejecting_db : list event -> event -> outcome (option (list row)) :=
  fun _ ev =>
    match ev with
    | Execute _ _ => Raise (DriverError "syntax error")
    | _ => Ok None
    end.

(** The field entries of a class body, each with its attribute. *)
Definition body_fields (attr_dict : list (string * attr_value))
    : list (string * Field) :=
  omap (fun item => match item with
                    | (attr, AField f) => Some (attr, f)
                    | _ => None
                    end)
       attr_dict.

(** [g] is the field [f] declared under [attr], attached to the table:
    the constructor's attributes are kept, the name defaults to the
    attribute, and the table and the qualified column are bound. *)
Definition attached_as (table_name attr : string) (f g : Field) : Prop :=
  Field__name g = Some attr
  /\ Field_name g = Some (column_of attr f)
  /\ Field_table_name g = Some table_name
  /\ Field_sql_column g = Some (table_name +:+ "." +:+ column_of attr f)
  /\ Field_oid g = Field_oid f
  /\ Field_class g = Field_class f
  /\ Field_max_length g = Field_max_length f
  /\ Field_default g = Field_default f
  /\ Field_server_default g = Field_server_default f
  /\ Field_unique g = Field_unique f
  /\ Field_nullable g = Field_nullable f
  /\ Field_index g = Field_index f
  /\ Field_primary_key g = Field_primary_key f
  /\ Field_foreign_key g = Field_foreign_key f.


(** The first field entry of a class body flagged primary key. *)
Definition body_primary_key (attr_dict : list (string * attr_value))
    : option (string * Field) :=
  List.find (fun entry => Field_primary_key entry.2) (body_fields attr_dict).

(** The items [sql_values()] collects when the columns are distinct: for
    each field other than [pk] whose current value is not [None], its
    column and that value, in the order of the fields. *)
Definition written_items (inst : instance) (pk : Field)
    (fields : list Field) : list (option string * pyval) :=
  omap (fun f =>
          if Field_is f pk then None
          else match instance_getattr inst (field_attr f) with
               | Ok v => if is_None v then None else Some (Field_name f, v)
               | Raise _ => None
               end)
       fields.

(** [UPDATE <table> SET <column> = %s, ... WHERE <pk-column> = %s;] *)
Definition update_statement (table_name : string)
    (columns : list (option string)) (pk_column : string) : string :=
  "UPDATE " +:+ table_name +:+ " SET "
  +:+ join ", " (map (fun c => py_str (of_opt_str c) +:+ " = %s") columns)
  +:+ " WHERE " +:+ pk_column +:+ " = %s;".

(** An instance of [cls] in a given state. *)
Definition instance_of (cls : Model) (attrs : gmap string pyval)
    (pk : option Field) : instance :=
  {| instance_class := cls; instance___dict__ := attrs;
     instance_pk_field := pk |}.

(** No character of the string is a dot. *)
Fixpoint no_dot (s : string) : bool :=
  match s with
  | EmptyString => true
  | String c rest => negb (Ascii.eqb c ".") && no_dot rest
  end.

(** [CREATE [UNIQUE] INDEX <name> ON <table> (<column>);] *)
Definition index_statement (index : Index) : string :=
  "CREATE" +:+ clause (Index_unique index) " UNIQUE"
  +:+ " INDEX " +:+ Index_name index +:+ " ON " +:+ Index_table_name index
  +:+ " (" +:+ py_str (of_opt_str (Index_column_name index)) +:+ ");".

(** The text of [table_sql()]: the column definitions, one per line. *)
Definition create_table_statement (table_name : string)
    (fields : list Field) : string :=
  String "010" "CREATE TABLE " +:+ table_name +:+ " ("
  +:+ String "010" "    "
  +:+ join (String "," (String "010" "    ")) (map column_ddl fields)
  +:+ String "010" ");" +:+ String "010" "".

(** ** Sample values *)

(** The registry after [User] and [Note] were declared. *)
Definition sample_registry : MetaData := registry [User_body; Note_body].

(** The fields [User.id] and [Account.id] as their class bodies hold them. *)
Definition User_id : Field :=
  Field___init__ 1 AutoField None None (Literal VNone) VNone
    false true false true None.

Definition Account_id : Field :=
  Field___init__ 5 AutoField (Some "account_id") None (Literal VNone) VNone
    false true false true None.

(** Instance states: a user not yet inserted, a stored user, a user with
    every column cleared, a stored account. *)
Definition new_user : gmap string pyval := {["username" := VStr "bob"]}.

Definition stored_user : gmap string pyval :=
  {["id" := VInt 42; "username" := VStr "bob"]}.

Definition blank_user : gmap string pyval :=
  {["username" := VNone; "age" := VNone]}.

Definition stored_account : gmap string pyval :=
  {["id" := VInt 7; "owner" := VStr "ada"]}.

Definition syntax_error : exn := DriverError "syntax error".

(** The driver after [create_all] and after [drop_all] were stopped at
    their first statement. *)
Definition stopped_create : Driver :=
  {| trace := [Connect "postgresql://localhost/app"; OpenCursor;
               Execute
                 (String "010" "CREATE TABLE users (" +:+ String "010"
                  "    id serial PRIMARY KEY," +:+ String "010"
                  "    username varchar(80)," +:+ String "010"
                  "    years integer NOT NULL" +:+ String "010" ");"
                  +:+ String "010" "") None];
     result := None |}.

Definition stopped_drop : Driver :=
  {| trace := [Connect "postgresql://localhost/app"; OpenCursor;
               Execute "DROP TABLE IF EXISTS users" None];
     result := None |}.

(** An instance of [User] with nothing stored. *)
Definition fresh_user : instance :=
  instance_of (declared_class "users" User_body) ∅ None.

(** ** Ordinary classes, keyword arguments and instance states

    The class statement modelled is [class C(Model): <body>], with
    [Model] as the only base; a declared class is one declared so.  A
    model class and its instances resolve a few attribute names to what
    the metaclass and [Model] bind under them;
    a body entry, a keyword argument or an instance attribute under one
    of these names replaces a method or shadows a class attribute, and one
    field object bound under two names is updated in place under both.
    The predicates below say that none of this happens. *)

(** The names a model class and its instances use themselves. *)
Definition machinery_attr (nm : string) : bool :=
  reserved_attr nm || String.eqb nm "table_name" || String.eqb nm "pk_name"
  || String.eqb nm "pk_field".

(** The double-underscore entries of an ordinary class body, which hold
    strings. *)
Definition namespace_entry (nm : string) : bool :=
  String.eqb nm "__tablename__" || String.eqb nm "__module__"
  || String.eqb nm "__qualname__" || String.eqb nm "__doc__".

Definition body_entry_ok (item : string * attr_value) : bool :=
  match item with
  | (nm, AOther (VStr _)) => negb (machinery_attr nm) || namespace_entry nm
  | (nm, _) => negb (machinery_attr nm)
  end.

(** The field objects of a class body are pairwise distinct objects. *)
Definition distinct_fields (attr_dict : list (string * attr_value)) : bool :=
  bool_decide (NoDup (map (fun entry => Field_oid entry.2)
                        (body_fields attr_dict))).

(** An ordinary class body: a namespace (its keys are distinct) whose
    entries use none of the machinery's names, whose [__tablename__], if
    any, is a string, and whose fields are distinct objects. *)
Definition plain_body (attr_dict : list (string * attr_value)) : bool :=
  forallb body_entry_ok attr_dict
  && bool_decide (NoDup (od_keys attr_dict))
  && distinct_fields attr_dict.

(** An ordinary program: ordinary class bodies that share no field
    object. *)
Definition plain_program (decls : list (list (string * attr_value))) : bool :=
  forallb plain_body decls
  && bool_decide (NoDup (map (fun entry => Field_oid entry.2)
                           (concat (map body_fields decls)))).


(** The attributes of its class that the session reads on an instance. *)
Definition class_reads : list string :=
  ["table_name"; "fields"; "sql_values"; "pk_field"].

Definition unbound (attrs : gmap string pyval) (nm : string) : bool :=
  match attrs !! nm with
  | None => true
  | Some _ => false
  end.

(** An instance [__dict__] that shadows none of them.  ([pk_field], once
    [Model.__init__] has bound it, is kept apart from the [__dict__].) *)
Definition plain_state (attrs : gmap string pyval) : bool :=
  forallb (unbound attrs) class_reads.

(** * Properties *)

(** ** Strings and loops *)

Lemma append_nil_r (s : string) : s +:+ "" = s.
Proof.
  induction s as [|c s IH]; [reflexivity|].
  change (String c s +:+ "") with (String c (s +:+ "")).
  by rewrite IH.
Qed.

Lemma append_cons (c : ascii) (s1 s2 : string) :
  String c s1 +:+ s2 = String c (s1 +:+ s2).
Proof. reflexivity. Qed.

Lemma append_nil_l (s : string) : "" +:+ s = s.
Proof. reflexivity. Qed.

Lemma append_assoc (s1 s2 s3 : string) :
  (s1 +:+ s2) +:+ s3 = s1 +:+ (s2 +:+ s3).
Proof.
  induction s1 as [|c s1 IH]; [reflexivity|].
  rewrite !append_cons. by rewrite IH.
Qed.

Create Rewrite HintDb str.
#[local] Hint Rewrite append_nil_r append_nil_l append_cons append_assoc : str.

Lemma clause_ok (present : bool) (sql text : string) :
  (if present then Ok (sql +:+ text) else Ok sql)
  = Ok (sql +:+ clause present text).
Proof. destruct present; simpl; by rewrite ?append_nil_r. Qed.

Lemma clause_append (present : bool) (sql text : string) :
  (if present then sql +:+ text else sql) = sql +:+ clause present text.
Proof. destruct present; simpl; by rewrite ?append_nil_r. Qed.

(** ** Field: comparison builders (C1) *)

Section comparison_builders.
Variables (self : Field) (value : pyval) (sql_column : string).
Hypothesis attached : Field_sql_column self = Some sql_column.

Lemma Field___lt___attached :
  Field___lt__ self value = Ok (sql_column +:+ " < %s", value).
Proof. unfold Field___lt__, format. cbn. by rewrite attached. Qed.

Lemma Field___ne___attached :
  Field___ne__ self value = Ok (sql_column +:+ " != %s", value).
Proof. unfold Field___ne__, format. cbn. by rewrite attached. Qed.

Lemma Field___gt___attached :
  Field___gt__ self value = Ok (sql_column +:+ " > %s", value).
Proof. unfold Field___gt__, format. cbn. by rewrite attached. Qed.

Lemma Field_like_attached :
  Field_like self value = Ok (sql_column +:+ " LIKE %s", value).
Proof. unfold Field_like, format. cbn. by rewrite attached. Qed.

Lemma Field_desc_attached :
  Field_desc self = Ok (sql_column +:+ " DESC").
Proof. unfold Field_desc, format. cbn. by rewrite attached. Qed.
End comparison_builders.

Lemma count_placeholders_cons (c : ascii) (s : string) :
  Ascii.eqb c "%" = false ->
  count_placeholders (String c s) = count_placeholders s.
Proof. intros Hc. destruct s as [|c' s]; cbn; by rewrite ?Hc. Qed.

Lemma count_placeholders_app (s t : string) :
  no_percent s = true ->
  count_placeholders (s +:+ t) = count_placeholders t.
Proof.
  induction s as [|c s IH]; [done|]. cbn [no_percent].
  intros [Hc Hs]%andb_prop. rewrite append_cons.
  rewrite count_placeholders_cons by (by destruct (Ascii.eqb c "%")).
  by apply IH.
Qed.

(** On a field attached to a model whose qualified column has no percent
    sign, the builders [<], [!=], [>] and [like] return a fragment with
    exactly one placeholder together with the value, and [desc] returns
    a fragment with none. *)
Lemma Field_comparison_builders (self : Field) (value : pyval)
    (sql_column : string) :
  Field_sql_column self = Some sql_column ->
  no_percent sql_column = true ->
  (exists sql, Field___lt__ self value = Ok (sql, value)
               /\ count_placeholders sql = 1)
  /\ (exists sql, Field___ne__ self value = Ok (sql, value)
                  /\ count_placeholders sql = 1)
  /\ (exists sql, Field___gt__ self value = Ok (sql, value)
                  /\ count_placeholders sql = 1)
  /\ (exists sql, Field_like self value = Ok (sql, value)
                  /\ count_placeholders sql = 1)
  /\ (exists sql, Field_desc self = Ok sql /\ count_placeholders sql = 0).
Proof.
  intros Hattached Hsafe.
  rewrite (Field___lt___attached self value sql_column Hattached),
    (Field___ne___attached self value sql_column Hattached),
    (Field___gt___attached self value sql_column Hattached),
    (Field_like_attached self value sql_column Hattached),
    (Field_desc_attached self sql_column Hattached).
  repeat split; eexists; (split; [reflexivity|]);
    by rewrite count_placeholders_app.
Qed.

(** C1: the [=] builder does not return a fragment and a bound value.  Its
    format string names the field [sql_column] by keyword, where the other
    builders write [.sql_column], so on every field, attached or not, and
    for every value it raises [KeyError]; on an attached field the
    builders [<], [!=], [>] and [like] return the qualified column, the
    operator and one placeholder together with the value, and [desc]
    returns the qualified column followed by [DESC]. *)
Theorem Field___eq___raises_KeyError (self : Field) (value : pyval) :
  Field___eq__ self value = Raise (KeyError "sql_column")
  /\ forall sql_column,
       Field_sql_column self = Some sql_column ->
       Field___lt__ self value = Ok (sql_column +:+ " < %s", value)
       /\ Field___ne__ self value = Ok (sql_column +:+ " != %s", value)
       /\ Field___gt__ self value = Ok (sql_column +:+ " > %s", value)
       /\ Field_like self value = Ok (sql_column +:+ " LIKE %s", value)
       /\ Field_desc self = Ok (sql_column +:+ " DESC").
Proof.
  split.
  - unfold Field___eq__, format. cbn. reflexivity.
  - intros sql_column Hattached.
    repeat split.
    + by apply Field___lt___attached.
    + by apply Field___ne___attached.
    + by apply Field___gt___attached.
    + by apply Field_like_attached.
    + by apply Field_desc_attached.
Qed.

(** ** QuerySet (C2) *)

Lemma QuerySet__build_sql_raises (self : QuerySet) :
  QuerySet__build_sql self =
    match Model_table_name (QuerySet_model self) with
    | Some _ => Raise (AttributeError "models")
    | None => Raise (AttributeError "table_name")
    end.
Proof.
  unfold QuerySet__build_sql.
  by destruct (Model_table_name (QuerySet_model self)).
Qed.

(** C2: iterating a query set never reaches the database.  [_build_sql]
    reads [self.models], an attribute no query set has (the constructor
    binds [self.model]), so the iteration raises [AttributeError] before
    any statement is executed, whatever the model, the filters, the
    session and the database. *)
Theorem QuerySet___iter___raises_AttributeError
    (db : list event -> event -> outcome (option (list row)))
    (self : QuerySet) (d : Driver) :
  exists nm,
    QuerySet___iter__ db self d = (Raise (AttributeError nm), d)
    /\ (is_Some (Model_table_name (QuerySet_model self)) -> nm = "models").
Proof.
  unfold QuerySet___iter__, bind, lift.
  rewrite QuerySet__build_sql_raises.
  destruct (Model_table_name (QuerySet_model self)) as [t|].
  - exists "models". by split.
  - exists "table_name". split; [done|]. by intros [? ?].
Qed.

(** ** Field: default values (C5) *)

(** C5: [default_value()] calls a producer and returns what it produces,
    returns any other default that is not [None] as it is, and when no
    default is set returns the string [None] for a text-typed field
    ([TextField] and [CharField]) and [None] itself for the other types. *)
Theorem Field_default_value_resolution (self : Field) :
  (forall call, Field_default self = Producer call ->
     Field_default_value self = call tt)
  /\ (forall v, Field_default self = Literal v -> v <> VNone ->
        Field_default_value self = v)
  /\ (Field_default self = Literal VNone ->
      isinstance_TextField (Field_class self) = true ->
      Field_default_value self = VStr "None")
  /\ (Field_default self = Literal VNone ->
      isinstance_TextField (Field_class self) = false ->
      Field_default_value self = VNone).
Proof.
  unfold Field_default_value.
  repeat split.
  - by intros call ->.
  - intros v -> Hv. by destruct v.
  - by intros -> ->.
  - by intros -> ->.
Qed.

(** ** Field: column definitions (C6) *)

Lemma ForeignKey_to_sql_clause (fk : ForeignKey) :
  ForeignKey_to_sql fk = Ok (ForeignKey_clause fk).
Proof.
  unfold ForeignKey_to_sql, ForeignKey_clause, format. cbn.
  rewrite clause_ok. cbn [obind]. rewrite clause_ok. cbn [obind].
  by autorewrite with str.
Qed.

Lemma Field_to_sql_column_ddl (self : Field) :
  Field_to_sql self = Ok (column_ddl self).
Proof.
  unfold Field_to_sql, format. cbn -[ForeignKey_to_sql].
  unfold column_ddl, column_head, column_default, column_constraints.
  destruct (Field_max_length self) as [n|];
    cbn [is_None of_opt_int negb obind py_str];
    rewrite clause_ok; cbn [obind]; rewrite !clause_append;
    (destruct (Field_foreign_key self) as [fk|];
     [rewrite ForeignKey_to_sql_clause|]; cbn [obind];
     by autorewrite with str).
Qed.

Lemma Field___init___server_default_bool oid c name max_length default
    (b : bool) unique nullable index primary_key foreign_key :
  Field_server_default
    (Field___init__ oid c name max_length default (VBool b) unique nullable
       index primary_key foreign_key)
  = VStr (if b then "TRUE" else "FALSE").
Proof. by destruct b. Qed.

(** C6: [to_sql()] renders the column definition
    [<name> <type>[(<max_length>)] [DEFAULT <server_default>] [NOT NULL]
    [UNIQUE] [PRIMARY KEY] [<foreign-key clause>]] with the clauses in
    this order, and a field constructed with a boolean server default
    renders it as [DEFAULT TRUE] or [DEFAULT FALSE] between the head and
    the constraints. *)
Theorem Field_to_sql_clause_order :
  (forall self : Field,
     Field_to_sql self
     = Ok (column_head self +:+ column_default self
           +:+ column_constraints self))
  /\ (forall oid c name max_length default (b : bool) unique nullable index
             primary_key foreign_key,
        let self := Field___init__ oid c name max_length default (VBool b)
                      unique nullable index primary_key foreign_key in
        Field_to_sql self
        = Ok (column_head self
              +:+ " DEFAULT " +:+ (if b then "TRUE" else "FALSE")
              +:+ column_constraints self)).
Proof.
  split.
  - intros self. apply Field_to_sql_column_ddl.
  - intros. subst self. rewrite Field_to_sql_column_ddl.
    unfold column_ddl, column_default.
    rewrite (Field___init___server_default_bool oid c name max_length
               default b unique nullable index primary_key foreign_key).
    destruct b; cbn [py_truthy py_str clause String.eqb Ascii.eqb negb];
      by autorewrite with str.
Qed.

(** ** Declaring a model *)

Lemma format_qualified (table_name : string) (name : pyval) :
  format "{}.{}" [AVal (VStr table_name); AVal name] []
  = Ok (table_name +:+ "." +:+ py_str name).
Proof. unfold format. cbn. by autorewrite with str. Qed.

Lemma format_index_name (table_name : string) (column_name : pyval) :
  format "index_{}_{}" [AVal (VStr table_name); AVal column_name] []
  = Ok ("index_" +:+ table_name +:+ "_" +:+ py_str column_name).
Proof. unfold format. cbn. by autorewrite with str. Qed.

Section declaration.
Variable table_name : string.

Lemma attached_dict_cons item attr_dict :
  attached_dict table_name (item :: attr_dict)
  = attach_item table_name item :: attached_dict table_name attr_dict.
Proof. reflexivity. Qed.

Lemma attached_fields_cons_field attr f attr_dict :
  attached_fields table_name ((attr, AField f) :: attr_dict)
  = attach table_name attr f :: attached_fields table_name attr_dict.
Proof. reflexivity. Qed.

Lemma attached_fields_cons_other attr v attr_dict :
  attached_fields table_name ((attr, AOther v) :: attr_dict)
  = attached_fields table_name attr_dict.
Proof. reflexivity. Qed.

Lemma _collect_fields_body_auto model acc item :
  Model_table_name model = Some table_name ->
  _collect_fields_body model acc (_auto_column_name_body item)
  = Ok (acc.1 ++ attached_fields table_name [item],
        acc.2 ++ [attach_item table_name item]).
Proof.
  intros Ht. destruct item as [attr [f|v]].
  - cbn [_auto_column_name_body _collect_fields_body].
    rewrite Ht. cbn [bound obind]. rewrite format_qualified. cbn [obind].
    unfold attached_fields, attached_dict.
    cbn [map omap attach_item item_field].
    unfold attach, column_of. by destruct (Field_name f).
  - cbn. by rewrite app_nil_r.
Qed.

Lemma _collect_fields_loop model attr_dict acc :
  Model_table_name model = Some table_name ->
  ofold (_collect_fields_body model) (_auto_column_name attr_dict) acc
  = Ok (acc.1 ++ attached_fields table_name attr_dict,
        acc.2 ++ attached_dict table_name attr_dict).
Proof.
  intros Ht. revert acc.
  induction attr_dict as [|item attr_dict IH]; intros acc.
  - cbn. rewrite !app_nil_r. by destruct acc.
  - cbn [_auto_column_name map ofold].
    rewrite (_collect_fields_body_auto model acc item Ht). cbn [obind].
    unfold _auto_column_name in IH. rewrite IH. cbn [fst snd].
    rewrite <- !app_assoc. do 2 f_equal.
    by destruct item as [attr [f|v]].
Qed.

Lemma _collect_fields_attached model attr_dict :
  Model_table_name model = Some table_name ->
  _collect_fields (_auto_column_name attr_dict) model
  = Ok (attached_fields table_name attr_dict,
        attached_dict table_name attr_dict).
Proof. intros Ht. unfold _collect_fields. by rewrite _collect_fields_loop. Qed.

Lemma _collect_indexes_pick_attached attr f :
  _collect_indexes_pick (attr, AField (attach table_name attr f))
  = if plain_index f then Some (attach table_name attr f) else None.
Proof.
  unfold _collect_indexes_pick, plain_index, attach.
  cbn [set_Field_table set_Field_names Field_unique Field_primary_key
       Field_foreign_key Field_index].
  by destruct (Field_unique f), (Field_primary_key f),
    (bool_decide (is_Some (Field_foreign_key f))), (Field_index f).
Qed.

Lemma plain_index_not_unique f : plain_index f = true -> Field_unique f = false.
Proof. unfold plain_index. by destruct (Field_unique f), (Field_index f). Qed.

Lemma _collect_indexes_body_attached attr f md :
  plain_index f = true ->
  _collect_indexes_body table_name (attach table_name attr f) md
  = (Ok tt,
     {| MetaData_tables := MetaData_tables md;
        MetaData_indexes :=
          MetaData_indexes md
          ++ [ {| Index_name := "index_" +:+ table_name +:+ "_"
                                +:+ column_of attr f;
                  Index_table_name := table_name;
                  Index_column_name := Some (column_of attr f);
                  Index_unique := false |} ] |}).
Proof.
  intros Hp. unfold _collect_indexes_body, bind, lift.
  rewrite format_index_name. unfold MetaData_indexes_append, Index___init__.
  unfold attach.
  cbn [set_Field_table set_Field_names Field_unique Field_name of_opt_str
       py_str].
  by rewrite (plain_index_not_unique f Hp).
Qed.

(** What [_collect_indexes] picks from the attached namespace, turned
    into indexes, is what the specification synthesizes. *)
Lemma _collect_indexes_loop attr_dict md :
  for_each (omap _collect_indexes_pick (attached_dict table_name attr_dict))
    (_collect_indexes_body table_name) md
  = (Ok tt,
     {| MetaData_tables := MetaData_tables md;
        MetaData_indexes :=
          MetaData_indexes md ++ synthesized_indexes table_name attr_dict |}).
Proof.
  revert md. induction attr_dict as [|[attr [f|v]] attr_dict IH]; intros md.
  - cbn. rewrite app_nil_r. by destruct md.
  - rewrite attached_dict_cons. unfold synthesized_indexes.
    cbn [omap list_omap attach_item]. fold (@omap list _).
    rewrite _collect_indexes_pick_attached.
    destruct (plain_index f) eqn:Hp; [|apply IH].
    cbn [for_each]. unfold bind at 1.
    rewrite (_collect_indexes_body_attached attr f md Hp).
    rewrite IH. cbn [MetaData_tables MetaData_indexes].
    by rewrite <- app_assoc.
  - rewrite attached_dict_cons. apply IH.
Qed.
End declaration.

Lemma od_set_od_set {K V} `{EqDecision K} (k : K) (v1 v2 : V)
    (d : list (K * V)) :
  od_set k v2 (od_set k v1 d) = od_set k v2 d.
Proof.
  induction d as [|[k' v'] d IH]; cbn.
  - by rewrite decide_True.
  - destruct (decide (k' = k)) as [->|Hne]; cbn.
    + by rewrite decide_True.
    + rewrite decide_False by done. by rewrite IH.
Qed.

Lemma opt_truthy_Some (s : string) : s <> "" -> opt_truthy (Some s) = true.
Proof.
  intros Hs. unfold opt_truthy. cbn.
  destruct (String.eqb_spec s ""); [done | reflexivity].
Qed.

(** Declaring a class on a table always succeeds: the class gets its
    attached fields, it is stored in the registry under its table name,
    in place if the name is already registered, and the indexes of its
    plain-index fields are appended. *)
Lemma ModelMetaClass___init___declared attr_dict table_name md :
  declares_table attr_dict table_name ->
  ModelMetaClass___init__ attr_dict md
  = (Ok (declared_class table_name attr_dict),
     {| MetaData_tables :=
          od_set table_name (declared_class table_name attr_dict)
            (MetaData_tables md);
        MetaData_indexes :=
          MetaData_indexes md ++ synthesized_indexes table_name attr_dict |}).
Proof.
  intros [Ht Hne]. unfold ModelMetaClass___init__.
  rewrite Ht, (opt_truthy_Some _ Hne).
  unfold bind at 1. unfold MetaData_set_table at 1.
  unfold bind at 1, lift at 1.
  rewrite (_collect_fields_attached table_name) by reflexivity.
  unfold bind at 1. unfold MetaData_set_table at 1.
  cbn [MetaData_tables MetaData_indexes].
  unfold bind at 1, _collect_indexes.
  rewrite _collect_indexes_loop. cbn [MetaData_tables MetaData_indexes].
  unfold ret. by rewrite od_set_od_set.
Qed.

(** C9: declaring a class on table [t], the fields of whose body are
    distinct objects, appends to the registry exactly the indexes of the
    specification, one [index_t_c] over table [t] and column [c] for each
    field of the body that is flagged [index] and is neither unique, nor
    primary key, nor foreign-keyed, in declaration order, and nothing
    else. *)
Theorem ModelMetaClass___init___synthesizes_indexes
    (attr_dict : list (string * attr_value)) (table_name : string)
    (md : MetaData) :
  declares_table attr_dict table_name ->
  distinct_fields attr_dict = true ->
  exists cls md',
    ModelMetaClass___init__ attr_dict md = (Ok cls, md')
    /\ MetaData_indexes md'
       = MetaData_indexes md ++ synthesized_indexes table_name attr_dict.
Proof.
  intros Hd _. eexists _, _. split.
  - apply (ModelMetaClass___init___declared _ _ _ Hd).
  - reflexivity.
Qed.

(** ** The registry of a program *)

Lemma declares_table_dec attr_dict :
  { table_name | declares_table attr_dict table_name }
  + { forall table_name, ~ declares_table attr_dict table_name }.
Proof.
  unfold declares_table.
  destruct (_get_table_name attr_dict) as [t|].
  - destruct (decide (t = "")) as [->|Hne].
    + right. intros t [[= <-] Hne]. done.
    + left. by exists t.
  - right. by intros t [? _].
Qed.

Lemma ModelMetaClass___init___abstract_class attr_dict md :
  (forall table_name, ~ declares_table attr_dict table_name) ->
  ModelMetaClass___init__ attr_dict md = (Ok (abstract_class attr_dict), md).
Proof.
  intros Hno. unfold ModelMetaClass___init__.
  destruct (_get_table_name attr_dict) as [t|] eqn:Ht; [|reflexivity].
  destruct (opt_truthy (Some t)) eqn:Htr; [|reflexivity].
  exfalso. apply (Hno t). split; [done|]. by intros ->.
Qed.

Lemma Forall_od_set {K V} `{EqDecision K} (P : K * V -> Prop) k v
    (d : list (K * V)) :
  P (k, v) -> Forall P d -> Forall P (od_set k v d).
Proof.
  intros Hkv. induction 1 as [|[k' v'] d Hx Hd IH]; cbn.
  - by constructor.
  - destruct (decide (k' = k)); constructor; auto.
Qed.

Lemma synthesized_indexes_plain table_name attr_dict :
  Forall (fun index => Index_unique index = false)
         (synthesized_indexes table_name attr_dict).
Proof.
  unfold synthesized_indexes.
  induction attr_dict as [|[attr [f|v]] attr_dict IH];
    cbn [omap list_omap]; [constructor | | done].
  destruct (plain_index f); [by constructor | done].
Qed.

Lemma registry_ok_empty : registry_ok MetaData_empty.
Proof. split; constructor. Qed.

Lemma registry_ok_declare attr_dict md :
  registry_ok md -> registry_ok (ModelMetaClass___init__ attr_dict md).2.
Proof.
  intros [Ht Hi].
  destruct (declares_table_dec attr_dict) as [[t Hd]|Hno].
  - rewrite (ModelMetaClass___init___declared _ _ _ Hd). split; cbn.
    + apply Forall_od_set; [by eexists _, _ | done].
    + apply Forall_app. split; [done | apply synthesized_indexes_plain].
  - by rewrite (ModelMetaClass___init___abstract_class _ _ Hno).
Qed.

Lemma ModelMetaClass___init___total attr_dict md :
  exists cls, (ModelMetaClass___init__ attr_dict md).1 = Ok cls.
Proof.
  destruct (declares_table_dec attr_dict) as [[t Hd]|Hno].
  - rewrite (ModelMetaClass___init___declared _ _ _ Hd). by eexists.
  - rewrite (ModelMetaClass___init___abstract_class _ _ Hno). by eexists.
Qed.

Lemma declare_all_ok decls md :
  registry_ok md -> registry_ok (declare_all decls md).2.
Proof.
  revert md. induction decls as [|attr_dict decls IH]; intros md Hmd; [done|].
  cbn [declare_all]. unfold bind at 1.
  pose proof (registry_ok_declare attr_dict md Hmd) as Hstep.
  destruct (ModelMetaClass___init___total attr_dict md) as [cls Hcls].
  destruct (ModelMetaClass___init__ attr_dict md) as [r md1].
  cbn in Hcls, Hstep. subst r.
  unfold bind at 1. specialize (IH md1 Hstep).
  destruct (declare_all decls md1) as [[clss|e] md2]; exact IH.
Qed.

Lemma registry_registry_ok decls : registry_ok (registry decls).
Proof. apply declare_all_ok, registry_ok_empty. Qed.

(** ** Index statements (C10) *)

Lemma comprehension_map {A B} (f : A -> outcome B) (g : A -> B) (xs : list A) :
  Forall (fun x => f x = Ok (g x)) xs ->
  comprehension f xs = Ok (map g xs).
Proof.
  induction 1 as [|x xs Hx _ IH]; [reflexivity|].
  cbn [comprehension map]. by rewrite Hx, IH.
Qed.

Lemma Index_to_sql_plain (index : Index) :
  Index_unique index = false ->
  Index_to_sql index = Ok (create_index_statement index).
Proof.
  intros Hu. unfold Index_to_sql, create_index_statement, format.
  rewrite Hu. cbn. by autorewrite with str.
Qed.

Lemma MetaData_index_sqls_registry decls :
  MetaData_index_sqls (registry decls)
  = Ok (join (String ";" (String "010" ""))
          (map create_index_statement (MetaData_indexes (registry decls)))).
Proof.
  destruct (registry_registry_ok decls) as [_ Hi].
  unfold MetaData_index_sqls.
  rewrite (comprehension_map _ create_index_statement); [done|].
  eapply Forall_impl; [exact Hi|]. intros index. apply Index_to_sql_plain.
Qed.

(** C10: in the registry of any program, every index has its uniqueness
    flag false, and the batch [index_sqls()] is the [;]-newline join of
    one [CREATE INDEX <name> ON <table> (<column>);] statement per
    index: no statement of the batch is a [CREATE UNIQUE INDEX]. *)
Theorem registry_indexes_never_unique
    (decls : list (list (string * attr_value))) :
  Forall (fun index => Index_unique index = false)
         (MetaData_indexes (registry decls))
  /\ MetaData_index_sqls (registry decls)
     = Ok (join (String ";" (String "010" ""))
             (map create_index_statement (MetaData_indexes (registry decls)))).
Proof.
  split.
  - apply registry_registry_ok.
  - apply MetaData_index_sqls_registry.
Qed.

(** ** Runs of driver computations *)

Section runs.
Variable db : list event -> event -> outcome (option (list row)).
Hypothesis db_accepts : accepts_all db.

Lemma runs_ret {A} (a : A) d : runs (ret a) d a [].
Proof. exists d. by rewrite app_nil_r. Qed.

Lemma runs_lift {A} (a : A) d : runs (lift (Ok a)) d a [].
Proof. exists d. by rewrite app_nil_r. Qed.

Lemma runs_bind {A B} (m : M Driver A) (k : A -> M Driver B) d a b
    calls1 calls2 :
  runs m d a calls1 ->
  (forall d', trace d' = trace d ++ calls1 -> runs (k a) d' b calls2) ->
  runs (bind m k) d b (calls1 ++ calls2).
Proof.
  intros (d1 & Hm & Ht1) Hk.
  destruct (Hk d1 Ht1) as (d2 & Hk2 & Ht2).
  exists d2. unfold bind. rewrite Hm. split; [done|].
  by rewrite Ht2, Ht1, app_assoc.
Qed.

Lemma runs_call ev d : runs (call db ev) d tt [ev].
Proof.
  unfold runs, call. destruct (db_accepts (trace d) ev) as [rows ->].
  by eexists.
Qed.
End runs.

(** ** Creating the schema (C8) *)

Lemma format_table_sql (table_name column_sqls : string) :
  format (String "010" "CREATE TABLE {table_name} ("
          +:+ String "010" "    {column_sqls}"
          +:+ String "010" ");" +:+ String "010" "")
    [] [("table_name", AVal (VStr table_name));
        ("column_sqls", AVal (VStr column_sqls))]
  = Ok (String "010" "CREATE TABLE " +:+ table_name +:+ " ("
        +:+ String "010" "    " +:+ column_sqls
        +:+ String "010" ");" +:+ String "010" "").
Proof. unfold format. cbn. by autorewrite with str. Qed.

Lemma Model_table_sql_declared table_name attr_dict :
  exists sql,
    Model_table_sql (declared_class table_name attr_dict) = Ok sql.
Proof.
  unfold Model_table_sql. cbn [declared_class Model_fields Model_table_name bound obind].
  rewrite (comprehension_map _ column_ddl).
  - cbn [obind]. rewrite format_table_sql. by eexists.
  - apply Forall_forall. intros f _. apply Field_to_sql_column_ddl.
Qed.

Lemma comprehension_total {A B} (f : A -> outcome B) (xs : list A) :
  Forall (fun x => exists y, f x = Ok y) xs ->
  exists ys, comprehension f xs = Ok ys /\ Forall2 (fun x y => f x = Ok y) xs ys.
Proof.
  induction 1 as [|x xs [y Hy] _ (ys & IH & Hall)].
  - exists []. by split; [|constructor].
  - exists (y :: ys). cbn [comprehension]. rewrite Hy, IH.
    split; [done | by constructor].
Qed.

Lemma MetaData_index_sqls_truthy decls index_sql :
  MetaData_index_sqls (registry decls) = Ok index_sql ->
  py_truthy (VStr index_sql)
  = negb (bool_decide (MetaData_indexes (registry decls) = [])).
Proof.
  rewrite (MetaData_index_sqls_registry decls).
  intros [= <-].
  destruct (MetaData_indexes (registry decls)) as [|index [|index' indexes]];
    reflexivity.
Qed.

(** ** Ordinary bodies and states *)

Lemma plain_body_key (attr_dict : list (string * attr_value)) (nm : string) :
  plain_body attr_dict = true ->
  nm ∈ od_keys attr_dict ->
  machinery_attr nm = false \/ namespace_entry nm = true.
Proof.
  intros [[Hall _]%andb_prop _]%andb_prop.
  rewrite forallb_forall in Hall.
  intros ([nm' v] & Heq & Hin)%list_elem_of_In%in_map_iff.
  cbn in Heq. subst nm'.
  specialize (Hall _ Hin). cbn [body_entry_ok] in Hall.
  destruct v as [f|[]];
    try (left; by apply negb_true_iff).
  apply orb_prop in Hall as [H|H]; [left; by apply negb_true_iff | by right].
Qed.

Lemma plain_body_machinery (attr_dict : list (string * attr_value))
    (nm : string) :
  plain_body attr_dict = true ->
  machinery_attr nm = true -> namespace_entry nm = false ->
  nm ∉ od_keys attr_dict.
Proof.
  intros Hp Hm Hn Hin.
  destruct (plain_body_key attr_dict nm Hp Hin); congruence.
Qed.




Lemma plain_state_lookup (attrs : gmap string pyval) (nm : string) :
  plain_state attrs = true -> In nm class_reads -> attrs !! nm = None.
Proof.
  unfold plain_state. rewrite forallb_forall. intros Hall Hin.
  specialize (Hall nm Hin). unfold unbound in Hall.
  by destruct (attrs !! nm).
Qed.

Lemma plain_state_table_name (attrs : gmap string pyval) :
  plain_state attrs = true -> attrs !! "table_name" = None.
Proof. intros Hp. apply (plain_state_lookup attrs _ Hp). by left. Qed.



Lemma new_user_plain : plain_state new_user = true.
Proof. vm_compute. reflexivity. Defined.

Lemma Model_table_sql_text (table_name : string)
    (attr_dict : list (string * attr_value)) :
  Model_table_sql (declared_class table_name attr_dict)
  = Ok (create_table_statement table_name
          (attached_fields table_name attr_dict)).
Proof.
  unfold Model_table_sql.
  cbn [declared_class Model_fields Model_table_name bound obind].
  rewrite (comprehension_map _ column_ddl).
  - cbn [obind]. by rewrite format_table_sql.
  - apply Forall_forall. intros f _. apply Field_to_sql_column_ddl.
Qed.

Section create_all.
Variable db : list event -> event -> outcome (option (list row)).
Hypothesis db_accepts : accepts_all db.

Lemma runs_call_then {B} ev (k : M Driver B) d b calls :
  (forall d', runs k d' b calls) ->
  runs (call db ev ;;; k) d b (ev :: calls).
Proof.
  intros Hk. change (ev :: calls) with ([ev] ++ calls).
  eapply runs_bind; [by apply runs_call | intros d' _; apply Hk].
Qed.

Lemma runs_create_tables (models : list Model) (ddl : list string) d :
  Forall2 (fun model sql => Model_table_sql model = Ok sql) models ddl ->
  runs (for_each models (fun model =>
          sql <~ lift (Model_table_sql model) ;;
          call db (Execute sql None)))
       d tt (map (fun sql => Execute sql None) ddl).
Proof.
  intros Hall. revert d.
  induction Hall as [|model sql models ddl Hsql _ IH]; intros d.
  - apply (runs_ret tt).
  - cbn [for_each map].
    change (Execute sql None :: map (fun sql => Execute sql None) ddl)
      with ([Execute sql None] ++ map (fun sql => Execute sql None) ddl).
    eapply runs_bind; [|intros d' _; apply IH].
    rewrite Hsql.
    change [Execute sql None] with ([] ++ [Execute sql None]).
    eapply runs_bind; [apply runs_lift | intros d' _; by apply runs_call].
Qed.

(** The statement of a registered class: [CREATE TABLE] on its table,
    with the column definitions of its fields. *)
Lemma registry_table_sqls decls :
  exists ddl,
    Forall2 (fun model sql => Model_table_sql model = Ok sql)
      (od_values (MetaData_tables (registry decls))) ddl
    /\ Forall2 (fun model sql =>
                  exists table_name fields,
                    Model_table_name model = Some table_name
                    /\ Model_fields model = Some fields
                    /\ sql = create_table_statement table_name fields)
         (od_values (MetaData_tables (registry decls))) ddl.
Proof.
  destruct (registry_registry_ok decls) as [Ht _].
  unfold od_values.
  induction Ht as [|[t cls] tables (table_name & attr_dict & Hcls) _ IH].
  - exists []. split; constructor.
  - destruct IH as (ddl & Hsql & Htext). cbn in Hcls. subst cls.
    exists (create_table_statement table_name
              (attached_fields table_name attr_dict) :: ddl).
    cbn [map snd]. split; constructor; try done.
    + apply Model_table_sql_text.
    + by eexists _, _.
Qed.

(** C8: on the registry of an ordinary program and a database that
    accepts every call, [create_all] connects, opens a cursor, executes
    for each registered model, in registry order, the [CREATE TABLE]
    statement of its table and fields, then the whole batch of
    [CREATE INDEX] statements as one statement, or nothing when no
    index is registered, then commits once, and closes the cursor and
    the connection. *)
Theorem MetaData_create_all_calls
    (decls : list (list (string * attr_value))) (bind : Engine)
    (d : Driver) :
  plain_program decls = true ->
  exists ddl,
    Forall2 (fun model sql =>
               exists table_name fields,
                 Model_table_name model = Some table_name
                 /\ Model_fields model = Some fields
                 /\ sql = create_table_statement table_name fields)
      (od_values (MetaData_tables (registry decls))) ddl
    /\ runs (MetaData_create_all db (registry decls) bind) d tt
         ([Connect (Engine_uri bind); OpenCursor]
          ++ map (fun sql => Execute sql None) ddl
          ++ (if bool_decide (MetaData_indexes (registry decls) = [])
              then []
              else [Execute
                      (join (String ";" (String "010" ""))
                         (map create_index_statement
                            (MetaData_indexes (registry decls))))
                      None])
          ++ [Commit; CloseCursor; CloseConnection]).
Proof.
  intros _.
  destruct (registry_table_sqls decls) as (ddl & Hddl & Htext).
  exists ddl. split; [exact Htext|].
  unfold MetaData_create_all, Engine_connect.
  cbn [app]. apply runs_call_then. intros d1.
  apply runs_call_then. intros d2.
  eapply runs_bind; [by apply runs_create_tables | intros d3 _].
  rewrite MetaData_index_sqls_registry.
  change (?calls ++ [Commit; CloseCursor; CloseConnection])
    with ([] ++ calls ++ [Commit; CloseCursor; CloseConnection]).
  eapply runs_bind; [apply runs_lift | intros d4 _].
  eapply runs_bind.
  - rewrite (MetaData_index_sqls_truthy decls _
               (MetaData_index_sqls_registry decls)).
    destruct (bool_decide (MetaData_indexes (registry decls) = []));
      cbn [negb]; [apply (runs_ret tt) | by apply runs_call].
  - intros d5 _. apply runs_call_then. intros d6.
    apply runs_call_then. intros d7. by apply runs_call.
Qed.
End create_all.

(** ** Classes declared on a table and their instances *)

Section declared.
Variables (table_name : string) (attr_dict : list (string * attr_value)).

Let cls := declared_class table_name attr_dict.

Lemma attached_dict_get_field attr f :
  od_get attr (attached_dict table_name attr_dict) = Some (AField f) ->
  Field__name f = Some attr.
Proof.
  clear cls. induction attr_dict as [|[k [g|v]] l IH]; [done| |];
    rewrite attached_dict_cons; cbn [attach_item od_get];
    destruct (decide (k = attr)) as [->|Hne]; try done.
  by intros [= <-].
Qed.

Lemma attached_fields_elem f :
  f ∈ attached_fields table_name attr_dict ->
  exists attr column,
    Field__name f = Some attr /\ Field_name f = Some column
    /\ is_Some (od_get attr (attached_dict table_name attr_dict)).
Proof.
  clear cls. induction attr_dict as [|[k [g|v]] l IH].
  - by intros ?%elem_of_nil.
  - rewrite attached_fields_cons_field, attached_dict_cons.
    intros [->|Hin]%elem_of_cons.
    + exists k, (column_of k g). repeat split.
      cbn [attach_item od_get]. rewrite decide_True by done. by eexists.
    + destruct (IH Hin) as (attr & column & Ha & Hc & Hget).
      exists attr, column. repeat split; try done.
      cbn [attach_item od_get]. destruct (decide (k = attr)); [by eexists|done].
  - rewrite attached_fields_cons_other, attached_dict_cons.
    intros Hin. destruct (IH Hin) as (attr & column & Ha & Hc & Hget).
    exists attr, column. repeat split; try done.
    cbn [attach_item od_get]. destruct (decide (k = attr)); [by eexists|done].
Qed.

Lemma attached_dict_get_None attr :
  attr ∉ od_keys attr_dict ->
  od_get attr (attached_dict table_name attr_dict) = None.
Proof.
  clear cls. unfold od_keys.
  induction attr_dict as [|[k x] l IH]; [done|].
  rewrite attached_dict_cons. cbn [map fst].
  intros [Hne Hl]%not_elem_of_cons.
  assert (od_get attr (attach_item table_name (k, x) :: attached_dict table_name l)
          = od_get attr (attached_dict table_name l)) as ->; [|by apply IH].
  destruct x; cbn [attach_item od_get]; by rewrite decide_False.
Qed.



(** *** Attribute access on an instance of the class *)

Section instance.
Variable inst : instance.
Hypothesis inst_class : instance_class inst = cls.

Lemma instance_setattr_declared nm value :
  instance_setattr inst nm value
  = Ok (set___dict__ (<[nm := value]> (instance___dict__ inst)) inst).
Proof.
  unfold instance_setattr. rewrite inst_class.
  cbn [cls declared_class Model_attr_dict].
  destruct (od_get nm (attached_dict table_name attr_dict))
    as [[f|v]|] eqn:Hget; try done.
  unfold Field___set__.
  by rewrite (attached_dict_get_field nm f Hget).
Qed.

Lemma instance_getattr_declared_key nm :
  is_Some (od_get nm (attached_dict table_name attr_dict)) ->
  exists v, instance_getattr inst nm = Ok v.
Proof.
  intros [x Hget]. unfold instance_getattr. rewrite inst_class.
  cbn [cls declared_class Model_attr_dict]. rewrite Hget.
  destruct x as [f|v].
  - unfold Field___get__.
    rewrite (attached_dict_get_field nm f Hget). cbn [bound obind].
    destruct (instance___dict__ inst !! nm) as [v|]; [by eexists|].
    unfold Model_getattr_field. cbn [cls declared_class Model_attr_dict].
    rewrite Hget. by eexists.
  - destruct (instance___dict__ inst !! nm) as [v'|]; by eexists.
Qed.

Lemma instance_getattr_table_name :
  "table_name" ∉ od_keys attr_dict ->
  instance___dict__ inst !! "table_name" = None ->
  instance_getattr inst "table_name" = Ok (VStr table_name).
Proof.
  intros Hk Hd. unfold instance_getattr. rewrite inst_class.
  cbn [cls declared_class Model_attr_dict].
  rewrite (attached_dict_get_None _ Hk), Hd.
  unfold instance_getattr_builtin. rewrite inst_class. reflexivity.
Qed.
End instance.
End declared.

(** *** Construction of an instance *)


Section construction.
Variables (table_name : string) (attr_dict : list (string * attr_value)).

Let cls := declared_class table_name attr_dict.
Let fields := attached_fields table_name attr_dict.

(** The items of [default_dict()]. *)
Let defaults : list (string * pyval) :=
  map (fun f => (field_attr f, Field_default_value f)) fields.






End construction.


(** *** The values to write *)

Lemma elem_of_od_set {K V} `{EqDecision K} (k k' : K) (v v' : V)
    (d : list (K * V)) :
  (k', v') ∈ od_set k v d -> (k', v') = (k, v) \/ (k', v') ∈ d.
Proof.
  induction d as [|[k0 v0] d IH]; cbn [od_set].
  - intros [->|?%elem_of_nil]%elem_of_cons; [by left | done].
  - destruct (decide (k0 = k)) as [->|Hne].
    + intros [->|Hin]%elem_of_cons; [by left | right; by right].
    + intros [->|Hin]%elem_of_cons; [right; by left|].
      destruct (IH Hin) as [->|Hd]; [by left | right; by right].
Qed.

Lemma od_keys_od_set_same {K V} `{EqDecision K} (k : K) (v : V)
    (d : list (K * V)) :
  k ∈ od_keys (od_set k v d).
Proof.
  unfold od_keys. induction d as [|[k0 v0] d IH]; cbn [od_set map fst].
  - by left.
  - destruct (decide (k0 = k)); cbn [map fst]; [by left | by right].
Qed.

Lemma od_keys_od_set_mono {K V} `{EqDecision K} (k k' : K) (v : V)
    (d : list (K * V)) :
  k' ∈ od_keys d -> k' ∈ od_keys (od_set k v d).
Proof.
  unfold od_keys. induction d as [|[k0 v0] d IH]; cbn [od_set map fst].
  - by intros ?%elem_of_nil.
  - destruct (decide (k0 = k)) as [->|Hne]; cbn [map fst];
      intros [->|Hin]%elem_of_cons; try by left.
    + by right.
    + right. by apply IH.
Qed.

Section sql_values.
Variables (table_name : string) (attr_dict : list (string * attr_value)).
Variables (inst : instance) (pk : Field).

Let cls := declared_class table_name attr_dict.
Let fields := attached_fields table_name attr_dict.

Hypothesis inst_class : instance_class inst = cls.
Hypothesis inst_pk : instance_pk_field inst = Some pk.

Lemma Model_sql_values_body_declared values_dict f :
  f ∈ fields ->
  exists attr v,
    Field__name f = Some attr
    /\ instance_getattr inst attr = Ok v
    /\ Model_sql_values_body inst values_dict f
       = Ok (if Field_is f pk || is_None v then values_dict
             else od_set (Field_name f) v values_dict).
Proof.
  intros Hf.
  destruct (attached_fields_elem _ _ f Hf) as (attr & column & Ha & _ & Hk).
  destruct (instance_getattr_declared_key _ _ inst inst_class attr Hk)
    as [v Hv].
  exists attr, v. split; [done|]. split; [done|].
  unfold Model_sql_values_body, instance_get_pk_field.
  rewrite inst_pk. cbn [bound obind].
  destruct (Field_is f pk); [done|].
  rewrite Ha. cbn [bound obind].
  unfold instance_getattr_default. rewrite Hv. cbn [obind orb].
  by destruct (is_None v).
Qed.

Lemma Model_sql_values_loop fs values_dict :
  (forall f, f ∈ fs -> f ∈ fields) ->
  exists values,
    ofold (Model_sql_values_body inst) fs values_dict = Ok values
    /\ (forall k v, (k, v) ∈ values ->
          (k, v) ∈ values_dict \/ written inst fields pk k v)
    /\ (forall k, k ∈ od_keys values_dict -> k ∈ od_keys values)
    /\ (forall f attr v,
          f ∈ fs -> Field_is f pk = false -> Field__name f = Some attr ->
          instance_getattr inst attr = Ok v -> v <> VNone ->
          Field_name f ∈ od_keys values).
Proof.
  revert values_dict. induction fs as [|f fs IH]; intros values_dict Hfs.
  - exists values_dict. cbn [ofold]. repeat split; auto.
    by intros f attr v ?%elem_of_nil.
  - assert (f ∈ fields) as Hf by (apply Hfs; by left).
    destruct (Model_sql_values_body_declared values_dict f Hf)
      as (attr & v & Ha & Hv & Hbody).
    cbn [ofold]. rewrite Hbody. cbn [obind].
    destruct (IH (if Field_is f pk || is_None v then values_dict
                  else od_set (Field_name f) v values_dict))
      as (values & Hrun & Hsound & Hmono & Hcomplete).
    { intros g Hg. apply Hfs. by right. }
    exists values. split; [done|]. split; [|split].
    + intros k w Hin. destruct (Hsound k w Hin) as [Hacc|Hw]; [|by right].
      destruct (Field_is f pk) eqn:Hpk; [by left|].
      destruct (is_None v) eqn:Hnone; [by left|].
      cbn [orb] in Hacc.
      destruct (elem_of_od_set _ _ _ _ _ Hacc) as [[= -> ->]|Hd]; [|by left].
      right. split; [by destruct v|]. by exists f, attr.
    + intros k Hk. apply Hmono.
      destruct (Field_is f pk || is_None v); [done|].
      by apply od_keys_od_set_mono.
    + intros g attr' w [->|Hg]%elem_of_cons Hpk Ha' Hw Hne.
      * rewrite Ha in Ha'. injection Ha' as <-.
        rewrite Hv in Hw. injection Hw as <-.
        apply Hmono. rewrite Hpk.
        destruct v; try done; apply od_keys_od_set_same.
      * by apply (Hcomplete g attr' w).
Qed.

(** [sql_values()] succeeds on an instance of a declared class that
    has a primary key: every item is a written column with its value,
    and every written column is there. *)
Lemma Model_sql_values_declared :
  exists values,
    Model_sql_values inst = Ok values
    /\ (forall k v, (k, v) ∈ values -> written inst fields pk k v)
    /\ (forall k v, written inst fields pk k v -> k ∈ od_keys values).
Proof.
  destruct (Model_sql_values_loop fields []) as
    (values & Hrun & Hsound & _ & Hcomplete); [done|].
  exists values. split; [|split].
  - unfold Model_sql_values, instance_fields. rewrite inst_class.
    exact Hrun.
  - intros k v Hin. by destruct (Hsound k v Hin) as [?%elem_of_nil|?].
  - intros k v (Hne & f & attr & Hf & Hpk & <- & Ha & Hv).
    by apply (Hcomplete f attr v).
Qed.
End sql_values.

(** ** Session: writes *)

Lemma format_positional (v : pyval) : format "{0}" [AVal v] [] = Ok (py_str v).
Proof. unfold format. cbn. by autorewrite with str. Qed.

Lemma format_insert (table_name columns values pk_name : string) :
  format "INSERT INTO {table_name} ({columns}) VALUES ({values}) RETURNING {pk_name};"
    [] [("table_name", AVal (VStr table_name));
        ("columns", AVal (VStr columns));
        ("values", AVal (VStr values));
        ("pk_name", AVal (VStr pk_name))]
  = Ok ("INSERT INTO " +:+ table_name +:+ " (" +:+ columns
        +:+ ") VALUES (" +:+ values +:+ ") RETURNING " +:+ pk_name +:+ ";").
Proof. unfold format. cbn. by autorewrite with str. Qed.

Lemma instance_getattr_stored table_name attr_dict inst nm v :
  instance_class inst = declared_class table_name attr_dict ->
  instance___dict__ inst !! nm = Some v ->
  instance_getattr inst nm = Ok v.
Proof.
  intros Hc Hv. unfold instance_getattr. rewrite Hc.
  cbn [declared_class Model_attr_dict].
  destruct (od_get nm (attached_dict table_name attr_dict))
    as [[f|w]|] eqn:Hget; rewrite ?Hv; try done.
  unfold Field___get__.
  rewrite (attached_dict_get_field _ _ nm f Hget). cbn [bound obind].
  by rewrite Hv.
Qed.

Section insert.
Variable db : list event -> event -> outcome (option (list row)).
Variables (table_name : string) (attr_dict : list (string * attr_value)).
Variables (self : Session) (inst : instance) (pk : Field).
Variables (pk_attr pk_column : string)
          (values : list (option string * pyval)).

Hypothesis connected : Session_cursor self = true.
Hypothesis inst_class :
  instance_class inst = declared_class table_name attr_dict.
Hypothesis inst_pk : instance_pk_field inst = Some pk.
Hypothesis pk_attached : Field__name pk = Some pk_attr.
Hypothesis pk_named : Field_name pk = Some pk_column.
Hypothesis inst_values : Model_sql_values inst = Ok values.
Hypothesis inst_table :
  instance_getattr inst "table_name" = Ok (VStr table_name).

Lemma Session_insert_run d pk_value rest rows :
  let stmt := Execute (insert_statement table_name (od_keys values) pk_column)
                (Some (od_values values)) in
  db (trace d) stmt = Ok (Some ((pk_value :: rest) :: rows)) ->
  Session_insert db self inst d
  = (Ok (set___dict__ (<[pk_attr := pk_value]> (instance___dict__ inst)) inst),
     {| trace := trace d ++ [stmt]; result := Some rows |}).
Proof.
  intros stmt Hdb. unfold Session_insert.
  unfold instance_get_pk_field. rewrite inst_pk. cbn [bound].
  unfold bind at 1, lift at 1.
  rewrite inst_values. unfold bind at 1, lift at 1.
  rewrite (comprehension_map _ (fun k => py_str (of_opt_str k)))
    by (apply Forall_forall; intros k _; apply format_positional).
  unfold bind at 1, lift at 1.
  rewrite inst_table. unfold bind at 1, lift at 1.
  rewrite pk_named. cbn [of_opt_str].
  rewrite format_insert. unfold bind at 1, lift at 1.
  fold (insert_statement table_name (od_keys values) pk_column).
  unfold bind at 1. unfold Session_execute, Session_get_cursor.
  rewrite connected. unfold bind at 1, ret at 1. unfold call.
  fold stmt. rewrite Hdb.
  unfold bind at 1. unfold Session_fetchone, Session_get_cursor.
  rewrite connected. unfold bind at 1, ret at 1.
  unfold cursor_fetchone. cbn [result trace].
  unfold bind at 1, lift at 1. unfold bind at 1, lift at 1.
  rewrite pk_attached. cbn [bound].
  unfold bind at 1, lift at 1.
  by rewrite (instance_setattr_declared table_name attr_dict inst inst_class).
Qed.
End insert.


(** ** Models without a primary key (C3) *)


(** ** Session: delete (C7) *)

Lemma format_delete (table_name pk_name : string) :
  format "DELETE FROM {table_name} WHERE {pk_name} = %s"
    [] [("table_name", AVal (VStr table_name));
        ("pk_name", AVal (VStr pk_name))]
  = Ok (delete_statement table_name pk_name).
Proof. unfold format, delete_statement. cbn. by autorewrite with str. Qed.

(** When the primary-key column carries the name of its attribute,
    [delete] executes the statement with the key as its one bound
    argument and then stores [None] in the attribute. *)
Lemma Session_delete_run
    (db : list event -> event -> outcome (option (list row)))
    (table_name : string) (attr_dict : list (string * attr_value))
    (self : Session) (inst : instance) (pk : Field) (pk_attr : string)
    (pk_value : pyval) (d : Driver) (rows : option (list row)) :
  Session_cursor self = true ->
  instance_class inst = declared_class table_name attr_dict ->
  instance_pk_field inst = Some pk ->
  Field__name pk = Some pk_attr ->
  Field_name pk = Some pk_attr ->
  instance_getattr inst pk_attr = Ok pk_value ->
  instance_getattr inst "table_name" = Ok (VStr table_name) ->
  let stmt := Execute (delete_statement table_name pk_attr) (Some [pk_value]) in
  db (trace d) stmt = Ok rows ->
  Session_delete db self inst d
  = (Ok (set___dict__ (<[pk_attr := VNone]> (instance___dict__ inst)) inst),
     {| trace := trace d ++ [stmt]; result := rows |}).
Proof.
  intros Hconn Hc Hp Hattr Hcol Hval Ht stmt Hdb. unfold Session_delete.
  unfold instance_get_pk_field. rewrite Hp. cbn [bound].
  unfold bind at 1, lift at 1. rewrite Hcol. cbn [attr_name obind].
  rewrite Hval. unfold bind at 1, lift at 1.
  rewrite Ht. unfold bind at 1, lift at 1.
  cbn [of_opt_str]. rewrite format_delete. unfold bind at 1, lift at 1.
  unfold bind at 1. unfold Session_execute, Session_get_cursor.
  rewrite Hconn. unfold bind at 1, ret at 1. unfold call.
  fold stmt. rewrite Hdb. unfold lift.
  by rewrite (instance_setattr_declared table_name attr_dict inst Hc).
Qed.

(** C7: [delete] reads and clears the primary key under the name of its
    column, not of its attribute.  For the class [Account], whose key
    [id] is mapped to the column [account_id], [delete] raises
    [AttributeError] before any statement is executed, where [insert] on
    the same instance, which uses the attribute name, executes its
    statement and stores the returned key under [id]. *)
Theorem Session_delete_explicit_column_name :
  exists cls md inst inst',
    ModelMetaClass___init__ Account_body MetaData_empty = (Ok cls, md)
    /\ Model___init__ cls [("id", VInt 7); ("owner", VStr "ada")] = Ok inst
    /\ Session_delete sample_db sample_session inst Driver_initial
       = (Raise (AttributeError "account_id"), Driver_initial)
    /\ Session_insert sample_db sample_session inst Driver_initial
       = (Ok inst',
          {| trace := [Execute
                         "INSERT INTO accounts (owner) VALUES (%s) RETURNING account_id;"
                         (Some [VStr "ada"])];
             result := Some [] |})
    /\ instance___dict__ inst' !! "id" = Some (VInt 42).
Proof.
  eexists _, _, _, _.
  split; [vm_compute; reflexivity|].
  split; [vm_compute; reflexivity|].
  split; [vm_compute; reflexivity|].
  split; [vm_compute; reflexivity|].
  vm_compute. reflexivity.
Qed.

(** ** Closed instances *)



Lemma sample_db_accepts_all : accepts_all sample_db.
Proof. intros tr ev. destruct ev; by eexists. Defined.

Lemma User_body_declares_table : declares_table User_body "users".
Proof. split; [reflexivity | discriminate]. Defined.


Lemma Field_default_value_resolution_witness :
  Field_default_value
    (Field___init__ 4 TextField None None (Literal VNone) VNone false true
       false false None)
  = VStr "None".
Proof.
  apply (Field_default_value_resolution
           (Field___init__ 4 TextField None None (Literal VNone) VNone false
              true false false None)); reflexivity.
Defined.

Lemma User_body_plain : plain_body User_body = true.
Proof. vm_compute. reflexivity. Defined.


Lemma sample_program_plain : plain_program [User_body; Note_body] = true.
Proof. vm_compute. reflexivity. Defined.

Lemma ModelMetaClass___init___synthesizes_indexes_witness :
  declares_table User_body "users"
  /\ distinct_fields User_body = true
  /\ exists cls md',
       ModelMetaClass___init__ User_body MetaData_empty = (Ok cls, md')
       /\ MetaData_indexes md'
          = MetaData_indexes MetaData_empty
            ++ synthesized_indexes "users" User_body.
Proof.
  assert (distinct_fields User_body = true) as Hdistinct
    by (vm_compute; reflexivity).
  split; [exact User_body_declares_table|]. split; [exact Hdistinct|].
  apply (ModelMetaClass___init___synthesizes_indexes User_body "users"
           MetaData_empty User_body_declares_table Hdistinct).
Defined.

Lemma MetaData_create_all_calls_witness :
  accepts_all sample_db
  /\ plain_program [User_body; Note_body] = true
  /\ exists ddl,
       Forall2 (fun model sql =>
                  exists table_name fields,
                    Model_table_name model = Some table_name
                    /\ Model_fields model = Some fields
                    /\ sql = create_table_statement table_name fields)
         (od_values (MetaData_tables (registry [User_body; Note_body]))) ddl
       /\ runs (MetaData_create_all sample_db
                  (registry [User_body; Note_body]) sample_engine)
            Driver_initial tt
            ([Connect (Engine_uri sample_engine); OpenCursor]
             ++ map (fun sql => Execute sql None) ddl
             ++ (if bool_decide
                      (MetaData_indexes (registry [User_body; Note_body]) = [])
                 then []
                 else [Execute
                         (join (String ";" (String "010" ""))
                            (map create_index_statement
                               (MetaData_indexes
                                  (registry [User_body; Note_body]))))
                         None])
             ++ [Commit; CloseCursor; CloseConnection]).
Proof.
  split; [exact sample_db_accepts_all|].
  split; [exact sample_program_plain|].
  apply (MetaData_create_all_calls sample_db sample_db_accepts_all
           [User_body; Note_body] sample_engine Driver_initial
           sample_program_plain).
Defined.



(** The statement [insert] executes for [User(username='bob')]. *)
Example Session_insert_User :
  exists cls md inst inst',
    ModelMetaClass___init__ User_body MetaData_empty = (Ok cls, md)
    /\ Model___init__ cls [("username", VStr "bob")] = Ok inst
    /\ Session_insert sample_db sample_session inst Driver_initial
       = (Ok inst',
          {| trace := [Execute
                         "INSERT INTO users (username, years) VALUES (%s, %s) RETURNING id;"
                         (Some [VStr "bob"; VInt 7])];
             result := Some [] |})
    /\ instance___dict__ inst' !! "id" = Some (VInt 42).
Proof.
  eexists _, _, _, _.
  split; [vm_compute; reflexivity|].
  split; [vm_compute; reflexivity|].
  split; [vm_compute; reflexivity|].
  vm_compute. reflexivity.
Qed.

(** The schema [create_all] sends for the two sample classes. *)
Example MetaData_create_all_sample :
  trace (MetaData_create_all sample_db (registry [User_body; Note_body])
           sample_engine Driver_initial).2
  = [Connect "postgresql://localhost/app"; OpenCursor;
     Execute (String "010" "CREATE TABLE users (" +:+ String "010"
              "    id serial PRIMARY KEY," +:+ String "010"
              "    username varchar(80)," +:+ String "010"
              "    years integer NOT NULL" +:+ String "010" ");"
              +:+ String "010" "") None;
     Execute (String "010" "CREATE TABLE notes (" +:+ String "010"
              "    body text" +:+ String "010" ");" +:+ String "010" "") None;
     Execute "CREATE INDEX index_users_username ON users (username);" None;
     Commit; CloseCursor; CloseConnection].
Proof. vm_compute. reflexivity. Qed.

(** * Further properties *)

(** ** Scripts of driver calls *)

Section scripts.
Variable db : list event -> event -> outcome (option (list row)).

Lemma bind_ext {S A B} (m : M S A) (k1 k2 : A -> M S B) (s : S) :
  (forall a s1, k1 a s1 = k2 a s1) -> bind m k1 s = bind m k2 s.
Proof. intros Hk. unfold bind. by destruct (m s) as [[a|e] s1]. Qed.

Lemma bind_ext_l {S A B} (m1 m2 : M S A) (k : A -> M S B) (s : S) :
  m1 s = m2 s -> bind m1 k s = bind m2 k s.
Proof. intros Hm. unfold bind. by rewrite Hm. Qed.

Lemma bind_assoc {S A B C} (m : M S A) (k : A -> M S B) (h : B -> M S C)
    (s : S) :
  bind (bind m k) h s = bind m (fun a => bind (k a) h) s.
Proof. unfold bind. by destruct (m s) as [[a|e] s1]. Qed.

Lemma bind_ret_unit {S} (m : M S unit) (s : S) : (m ;;; ret tt) s = m s.
Proof. unfold bind, ret. by destruct (m s) as [[[]|e] s1]. Qed.

Lemma for_each_app {S A} (xs ys : list A) (body : A -> M S unit) (s : S) :
  for_each (xs ++ ys) body s = (for_each xs body ;;; for_each ys body) s.
Proof.
  revert s. induction xs as [|x xs IH]; intros s; [reflexivity|].
  cbn [for_each app]. rewrite bind_assoc.
  apply bind_ext. intros _ s1. apply IH.
Qed.

Lemma for_each_call_cons (ev : event) (script : list event) (d : Driver) :
  for_each (ev :: script) (call db) d
  = match db (trace d) ev with
    | Ok rows =>
        for_each script (call db)
          {| trace := trace d ++ [ev];
             result := match ev with
                       | Execute _ _ => rows
                       | _ => result d
                       end |}
    | Raise e => (Raise e, {| trace := trace d ++ [ev]; result := result d |})
    end.
Proof.
  cbn [for_each]. unfold bind, call. by destruct (db (trace d) ev).
Qed.

(** A script stops at the first call the database rejects. *)
Lemma script_cases (script : list event) (d : Driver) :
  (exists d', for_each script (call db) d = (Ok tt, d')
              /\ trace d' = trace d ++ script)
  \/ (exists e d' before ev after,
        for_each script (call db) d = (Raise e, d')
        /\ script = before ++ ev :: after
        /\ trace d' = trace d ++ before ++ [ev]
        /\ db (trace d ++ before) ev = Raise e).
Proof.
  revert d. induction script as [|ev script IH]; intros d.
  - left. exists d. by rewrite app_nil_r.
  - rewrite !for_each_call_cons.
    destruct (db (trace d) ev) as [rows|e] eqn:Hev.
    + match goal with |- context [for_each script (call db) ?d1] =>
        destruct (IH d1) as [(d' & Hrun & Htr)
                            |(e & d' & before & ev' & after
                              & Hrun & Hs & Htr & Hdb)]
      end; cbn [trace] in *.
      * left. exists d'. split; [done|]. by rewrite Htr, <- app_assoc.
      * right. exists e, d', (ev :: before), ev', after.
        split; [exact Hrun|]. split; [by rewrite Hs|].
        split; [by rewrite Htr, <- !app_assoc|].
        by rewrite <- app_assoc in Hdb.
    + right. eexists e, _, [], ev, script. cbn [trace app].
      split; [done|]. split; [done|]. split; [done|].
      by rewrite app_nil_r.
Qed.

Lemma format_drop_table (table_name : string) :
  format "DROP TABLE IF EXISTS {}" [AVal (VStr table_name)] []
  = Ok (drop_table_statement table_name).
Proof. unfold format, drop_table_statement. cbn. by autorewrite with str. Qed.

Lemma script_tables (table_names : list string) (d : Driver) :
  for_each table_names (fun table_name =>
    sql <~ lift (format "DROP TABLE IF EXISTS {}"
                   [AVal (VStr table_name)] []) ;;
    call db (Execute sql None)) d
  = for_each (map (fun table_name =>
                     Execute (drop_table_statement table_name) None)
                table_names)
      (call db) d.
Proof.
  revert d. induction table_names as [|t ts IH]; intros d; [reflexivity|].
  cbn [for_each map]. rewrite format_drop_table.
  apply bind_ext. intros _ d1. apply IH.
Qed.

Lemma MetaData_drop_all_script (md : MetaData) (bind : Engine) (d : Driver) :
  MetaData_drop_all db md bind d
  = for_each (drop_all_script bind (od_keys (MetaData_tables md)))
      (call db) d.
Proof.
  unfold MetaData_drop_all, drop_all_script, Engine_connect.
  cbn [app for_each].
  apply bind_ext. intros _ d1. apply bind_ext. intros _ d2.
  rewrite for_each_app.
  erewrite bind_ext_l by apply script_tables.
  apply bind_ext. intros _ d3. cbn [for_each].
  apply bind_ext. intros _ d4. apply bind_ext. intros _ d5.
  by rewrite bind_ret_unit.
Qed.

Lemma script_create_tables (models : list Model) (ddl : list string)
    (d : Driver) :
  Forall2 (fun model sql => Model_table_sql model = Ok sql) models ddl ->
  for_each models (fun model =>
    sql <~ lift (Model_table_sql model) ;; call db (Execute sql None)) d
  = for_each (map (fun sql => Execute sql None) ddl) (call db) d.
Proof.
  intros Hall. revert d.
  induction Hall as [|model sql models ddl Hsql _ IH]; intros d;
    [reflexivity|].
  cbn [for_each map]. rewrite Hsql.
  apply bind_ext. intros _ d1. apply IH.
Qed.

Lemma MetaData_create_all_script (md : MetaData) (engine : Engine)
    (ddl : list string) (index_sql : string) (d : Driver) :
  Forall2 (fun model sql => Model_table_sql model = Ok sql)
    (od_values (MetaData_tables md)) ddl ->
  MetaData_index_sqls md = Ok index_sql ->
  MetaData_create_all db md engine d
  = for_each (create_all_script engine ddl index_sql) (call db) d.
Proof.
  intros Hddl Hidx.
  unfold MetaData_create_all, create_all_script, Engine_connect.
  cbn [app for_each].
  apply bind_ext. intros _ d1. apply bind_ext. intros _ d2.
  rewrite for_each_app.
  erewrite bind_ext_l by apply (script_create_tables _ ddl _ Hddl).
  apply bind_ext. intros _ d3. rewrite Hidx.
  change (bind (lift (Ok index_sql)) ?k d3) with (k index_sql d3).
  cbv beta. rewrite for_each_app.
  destruct (py_truthy (VStr index_sql)).
  - cbn [for_each]. rewrite bind_assoc.
    apply bind_ext. intros _ d4.
    change (bind (ret tt) ?k d4) with (k tt d4). cbv beta.
    apply bind_ext. intros _ d5. apply bind_ext. intros _ d6.
    by rewrite bind_ret_unit.
  - cbn [for_each].
    change (bind (ret tt) ?k d3) with (k tt d3). cbv beta.
    apply bind_ext. intros _ d5. apply bind_ext. intros _ d6.
    by rewrite bind_ret_unit.
Qed.
End scripts.

(** ** Dropping and creating the schema *)

Lemma script_accepted db (script : list event) (d : Driver) :
  accepts_all db -> runs (for_each script (call db)) d tt script.
Proof.
  intros Hdb. destruct (script_cases db script d)
    as [(d' & Hrun & Htr)|(e & d' & before & ev & after & _ & _ & _ & Hrej)].
  - by exists d'.
  - destruct (Hdb (trace d ++ before) ev) as [rows Hok]. congruence.
Qed.

(** X1: [drop_all] on any registry, when the database accepts every call:
    it connects, opens a cursor, executes [DROP TABLE IF EXISTS <name>]
    for each registered table name in registry order, commits once and
    closes the cursor and the connection. *)
Theorem MetaData_drop_all_calls
    (db : list event -> event -> outcome (option (list row)))
    (md : MetaData) (engine : Engine) (d : Driver) :
  accepts_all db ->
  runs (MetaData_drop_all db md engine) d tt
    ([Connect (Engine_uri engine); OpenCursor]
     ++ map (fun table_name =>
               Execute ("DROP TABLE IF EXISTS " +:+ table_name) None)
          (od_keys (MetaData_tables md))
     ++ [Commit; CloseCursor; CloseConnection]).
Proof.
  intros Hdb. unfold runs. rewrite MetaData_drop_all_script.
  by apply script_accepted.
Qed.

Lemma rejected_statement_before_finishing (A B before after : list event)
    (ev : event) :
  A ++ B = before ++ ev :: after ->
  Forall (fun c => finishing c = false) A ->
  Forall (fun c => is_execute c = false) B ->
  is_execute ev = true ->
  Forall (fun c => finishing c = false) (before ++ [ev]).
Proof.
  intros Heq HA HB Hev. revert before Heq.
  induction HA as [|a A Ha _ IH]; intros before Heq.
  - cbn [app] in Heq. subst B.
    apply Forall_app in HB as [_ HB]. apply Forall_cons in HB as [HB _].
    congruence.
  - destruct before as [|b before]; cbn [app] in Heq.
    + injection Heq as -> _. by constructor.
    + injection Heq as -> Heq. constructor; [done | by apply IH].
Qed.

Lemma executes_not_finishing {A} (statement : A -> string) (xs : list A) :
  Forall (fun c => finishing c = false)
    (map (fun x => Execute (statement x) None) xs).
Proof. induction xs; by constructor. Qed.

(** X2: [create_all] has no error handling: on the registry of an
    ordinary program, when it raises, the exception is the one with
    which the database rejected a call, the calls made are the normal
    sequence up to the rejected call, and nothing after it is attempted.
    When the rejected call is a statement, no commit is sent and neither
    the cursor nor the connection is closed. *)
Theorem MetaData_create_all_stops_at_rejection
    (db : list event -> event -> outcome (option (list row)))
    (decls : list (list (string * attr_value))) (engine : Engine)
    (d d' : Driver) (e : exn) :
  plain_program decls = true ->
  MetaData_create_all db (registry decls) engine d = (Raise e, d') ->
  exists ddl before ev after,
    Forall2 (fun model sql =>
               exists table_name fields,
                 Model_table_name model = Some table_name
                 /\ Model_fields model = Some fields
                 /\ sql = create_table_statement table_name fields)
      (od_values (MetaData_tables (registry decls))) ddl
    /\ create_all_script engine ddl
         (join (String ";" (String "010" ""))
            (map create_index_statement (MetaData_indexes (registry decls))))
       = before ++ ev :: after
    /\ trace d' = trace d ++ before ++ [ev]
    /\ db (trace d ++ before) ev = Raise e
    /\ (is_execute ev = true ->
        Forall (fun c => finishing c = false) (before ++ [ev])).
Proof.
  intros _ Hrun.
  destruct (registry_table_sqls decls) as (ddl & Hddl & Htext).
  pose proof (MetaData_index_sqls_registry decls) as Hidx.
  rewrite (MetaData_create_all_script db _ engine ddl _ d Hddl Hidx) in Hrun.
  match type of Hrun with for_each ?script _ _ = _ =>
    destruct (script_cases db script d)
      as [(d1 & Hok & _)
         |(e1 & d1 & before & ev & after & Hraise & Hs & Htr & Hrej)]
  end; [congruence|].
  rewrite Hraise in Hrun. injection Hrun as -> ->.
  exists ddl, before, ev, after.
  do 4 (split; [done|]).
  intros Hev. unfold create_all_script in Hs.
  rewrite !app_assoc in Hs.
  eapply rejected_statement_before_finishing; [exact Hs| |by repeat constructor|done].
  rewrite <- app_assoc.
  apply Forall_app. split; [by repeat constructor|].
  apply Forall_app. split; [apply (executes_not_finishing id)|].
  destruct (py_truthy _); by repeat constructor.
Qed.

(** X3: [drop_all] has no error handling either: on any registry, when the
    database rejects a call the exception comes out unchanged after the
    calls of the normal sequence up to the rejected one, and a rejected
    statement leaves the transaction uncommitted and the cursor and the
    connection open. *)
Theorem MetaData_drop_all_stops_at_rejection
    (db : list event -> event -> outcome (option (list row)))
    (md : MetaData) (engine : Engine) (d d' : Driver) (e : exn) :
  MetaData_drop_all db md engine d = (Raise e, d') ->
  exists before ev after,
    drop_all_script engine (od_keys (MetaData_tables md))
    = before ++ ev :: after
    /\ trace d' = trace d ++ before ++ [ev]
    /\ db (trace d ++ before) ev = Raise e
    /\ (is_execute ev = true ->
        Forall (fun c => finishing c = false) (before ++ [ev])).
Proof.
  intros Hrun. rewrite MetaData_drop_all_script in Hrun.
  destruct (script_cases db (drop_all_script engine
                               (od_keys (MetaData_tables md))) d)
    as [(d1 & Hok & _)
       |(e1 & d1 & before & ev & after & Hraise & Hs & Htr & Hrej)];
    [congruence|].
  rewrite Hraise in Hrun. injection Hrun as -> ->.
  exists before, ev, after. do 3 (split; [done|]).
  intros Hev. unfold drop_all_script in Hs. rewrite !app_assoc in Hs.
  eapply rejected_statement_before_finishing; [exact Hs| |by repeat constructor|done].
  apply Forall_app. split; [by repeat constructor|].
  apply (executes_not_finishing drop_table_statement).
Qed.

(** ** The registry under declarations *)

Lemma declare_all_invariant (P : MetaData -> Prop) :
  (forall attr_dict md, P md -> P (ModelMetaClass___init__ attr_dict md).2) ->
  forall decls md, P md -> P (declare_all decls md).2.
Proof.
  intros Hstep decls.
  induction decls as [|attr_dict decls IH]; intros md Hmd; [done|].
  cbn [declare_all]. unfold bind at 1.
  pose proof (Hstep attr_dict md Hmd) as H1.
  destruct (ModelMetaClass___init___total attr_dict md) as [cls Hcls].
  destruct (ModelMetaClass___init__ attr_dict md) as [r md1].
  cbn in Hcls, H1. subst r.
  unfold bind at 1. specialize (IH md1 H1).
  destruct (declare_all decls md1) as [[clss|e] md2]; exact IH.
Qed.

Lemma od_keys_od_set {K V} `{EqDecision K} (k : K) (v : V) (d : list (K * V)) :
  od_keys (od_set k v d)
  = if decide (k ∈ od_keys d) then od_keys d else od_keys d ++ [k].
Proof.
  unfold od_keys. induction d as [|[k' v'] d IH]; cbn [od_set map fst].
  - rewrite decide_False; [done | by intros ?%elem_of_nil].
  - destruct (decide (k' = k)) as [->|Hne]; cbn [map fst].
    + rewrite decide_True; [done | by left].
    + rewrite IH. destruct (decide (k ∈ map fst d)) as [Hin|Hnin].
      * rewrite decide_True; [done | by right].
      * rewrite decide_False; [done|].
        intros [->|Hin]%elem_of_cons; done.
Qed.

Lemma od_get_od_set {K V} `{EqDecision K} (k k' : K) (v : V)
    (d : list (K * V)) :
  od_get k' (od_set k v d) = if decide (k = k') then Some v else od_get k' d.
Proof.
  induction d as [|[k0 v0] d IH]; cbn [od_set od_get].
  - by destruct (decide (k = k')).
  - destruct (decide (k0 = k)) as [->|Hne]; cbn [od_get].
    + by destruct (decide (k = k')).
    + rewrite IH. destruct (decide (k0 = k')) as [->|Hne'].
      * by rewrite decide_False.
      * done.
Qed.

Lemma NoDup_od_keys_od_set {K V} `{EqDecision K} (k : K) (v : V)
    (d : list (K * V)) :
  NoDup (od_keys d) -> NoDup (od_keys (od_set k v d)).
Proof.
  intros Hd. rewrite od_keys_od_set.
  destruct (decide (k ∈ od_keys d)); [done|].
  apply NoDup_app. split; [done|]. split.
  - intros x Hx [->|?%elem_of_nil]%elem_of_cons; done.
  - apply NoDup_singleton.
Qed.

(** X4: the table dictionary of the registry of any program: the table
    names are pairwise distinct and not empty, and the class registered
    under a name is mapped to that table and has its field list. *)
Theorem registry_tables_well_formed
    (decls : list (list (string * attr_value))) :
  NoDup (od_keys (MetaData_tables (registry decls)))
  /\ Forall (fun entry => entry.1 <> ""
                          /\ Model_table_name entry.2 = Some entry.1
                          /\ is_Some (Model_fields entry.2))
            (MetaData_tables (registry decls)).
Proof.
  unfold registry.
  apply (declare_all_invariant
           (fun md => NoDup (od_keys (MetaData_tables md))
                      /\ Forall (fun entry => entry.1 <> ""
                                   /\ Model_table_name entry.2 = Some entry.1
                                   /\ is_Some (Model_fields entry.2))
                                (MetaData_tables md))).
  - intros attr_dict md [Hnd Hall].
    destruct (declares_table_dec attr_dict) as [[t Hd]|Hno].
    + rewrite (ModelMetaClass___init___declared _ _ _ Hd).
      cbn [snd MetaData_tables]. split.
      * by apply NoDup_od_keys_od_set.
      * apply Forall_od_set; [|done]. cbn. destruct Hd as [_ Hne].
        split; [done|]. split; [done | by eexists].
    + by rewrite (ModelMetaClass___init___abstract_class _ _ Hno).
  - split; [apply NoDup_nil_2 | constructor].
Qed.

(** X5: declaring a class on table [t], the fields of whose body are
    distinct objects: a name that is already registered keeps its place
    and now maps to the new class, a new name goes to the end, the other
    entries are untouched; and the indexes of the body are appended in
    either case, so that declaring a table again registers indexes
    again. *)
Theorem ModelMetaClass___init___registers
    (attr_dict : list (string * attr_value)) (table_name : string)
    (md : MetaData) :
  declares_table attr_dict table_name ->
  distinct_fields attr_dict = true ->
  exists cls md',
    ModelMetaClass___init__ attr_dict md = (Ok cls, md')
    /\ od_keys (MetaData_tables md')
       = (if decide (table_name ∈ od_keys (MetaData_tables md))
          then od_keys (MetaData_tables md)
          else od_keys (MetaData_tables md) ++ [table_name])
    /\ od_get table_name (MetaData_tables md') = Some cls
    /\ (forall other, other <> table_name ->
          od_get other (MetaData_tables md')
          = od_get other (MetaData_tables md))
    /\ MetaData_indexes md'
       = MetaData_indexes md ++ synthesized_indexes table_name attr_dict.
Proof.
  intros Hd _. eexists _, _.
  split; [apply (ModelMetaClass___init___declared _ _ _ Hd)|].
  cbn [MetaData_tables MetaData_indexes].
  split; [apply od_keys_od_set|]. split; [|split; [|done]].
  - rewrite od_get_od_set. by rewrite decide_True.
  - intros other Hne. rewrite od_get_od_set. by rewrite decide_False.
Qed.


(** ** Fields of a declared class *)

Lemma attached_as_attach (table_name attr : string) (f : Field) :
  attached_as table_name attr f (attach table_name attr f).
Proof. by repeat split. Qed.

Lemma attached_fields_body (table_name : string)
    (attr_dict : list (string * attr_value)) :
  Forall2 (fun entry g => attached_as table_name entry.1 entry.2 g)
    (body_fields attr_dict) (attached_fields table_name attr_dict).
Proof.
  induction attr_dict as [|[attr [f|v]] attr_dict IH].
  - constructor.
  - rewrite attached_fields_cons_field. unfold body_fields.
    cbn [omap list_omap]. constructor; [apply attached_as_attach | exact IH].
  - rewrite attached_fields_cons_other. exact IH.
Qed.

Lemma declared_pk_name (table_name : string)
    (attr_dict : list (string * attr_value)) :
  Model_pk_name (declared_class table_name attr_dict)
  = match List.find (fun entry => Field_primary_key entry.2)
            (body_fields attr_dict) with
    | Some entry => Some (column_of entry.1 entry.2)
    | None => None
    end.
Proof.
  cbn [declared_class Model_pk_name]. unfold first_primary_key.
  induction attr_dict as [|[attr [f|v]] l IH]; [done| |].
  - rewrite attached_fields_cons_field. unfold body_fields.
    cbn [omap list_omap find snd fst].
    change (Field_primary_key (attach table_name attr f))
      with (Field_primary_key f).
    destruct (Field_primary_key f); [done | apply IH].
  - rewrite attached_fields_cons_other. apply IH.
Qed.

(** X7: declaring a class on table [t], the fields of whose body are
    distinct objects, gives it one field per field of the body, in
    declaration order: each keeps what its constructor was given, is
    stored under its attribute, takes the attribute as column name
    unless a name was given, and knows its table and its qualified
    column [t.<column>].  [pk_name] is the column of the first field
    flagged primary key. *)
Theorem ModelMetaClass___init___attaches_fields
    (attr_dict : list (string * attr_value)) (table_name : string)
    (md : MetaData) :
  declares_table attr_dict table_name ->
  distinct_fields attr_dict = true ->
  exists cls md' fields,
    ModelMetaClass___init__ attr_dict md = (Ok cls, md')
    /\ Model_table_name cls = Some table_name
    /\ Model_fields cls = Some fields
    /\ Forall2 (fun entry g => attached_as table_name entry.1 entry.2 g)
         (body_fields attr_dict) fields
    /\ Model_pk_name cls
       = match List.find (fun entry => Field_primary_key entry.2)
                 (body_fields attr_dict) with
         | Some entry => Some (column_of entry.1 entry.2)
         | None => None
         end.
Proof.
  intros Hd _. eexists _, _, _.
  split; [apply (ModelMetaClass___init___declared _ _ _ Hd)|].
  split; [done|]. split; [done|].
  split; [apply attached_fields_body | apply declared_pk_name].
Qed.

(** X8: the comparison builders need an attached field.  On a field as its
    constructor leaves it, [<], [!=], [>], [like] and [desc] raise
    [AttributeError]; on every field of a class declared on table [t]
    they return the fragment built on [t.<column>]. *)
Theorem Field_builders_after_declaration
    (attr_dict : list (string * attr_value)) (table_name : string)
    (md : MetaData) (value : pyval) :
  declares_table attr_dict table_name ->
  (forall oid c name max_length default server_default unique nullable
          index primary_key foreign_key,
     let f := Field___init__ oid c name max_length default server_default
                unique nullable index primary_key foreign_key in
     Field___lt__ f value = Raise (AttributeError "sql_column")
     /\ Field___ne__ f value = Raise (AttributeError "sql_column")
     /\ Field___gt__ f value = Raise (AttributeError "sql_column")
     /\ Field_like f value = Raise (AttributeError "sql_column")
     /\ Field_desc f = Raise (AttributeError "sql_column"))
  /\ exists cls md' fields,
       ModelMetaClass___init__ attr_dict md = (Ok cls, md')
       /\ Model_fields cls = Some fields
       /\ Forall (fun g =>
                    exists column,
                      Field_name g = Some column
                      /\ Field___lt__ g value
                         = Ok (table_name +:+ "." +:+ column +:+ " < %s", value)
                      /\ Field___ne__ g value
                         = Ok (table_name +:+ "." +:+ column +:+ " != %s", value)
                      /\ Field___gt__ g value
                         = Ok (table_name +:+ "." +:+ column +:+ " > %s", value)
                      /\ Field_like g value
                         = Ok (table_name +:+ "." +:+ column +:+ " LIKE %s", value)
                      /\ Field_desc g
                         = Ok (table_name +:+ "." +:+ column +:+ " DESC"))
            fields.
Proof.
  intros Hd. split.
  - intros. subst f. by repeat split.
  - eexists _, _, _.
    split; [apply (ModelMetaClass___init___declared _ _ _ Hd)|].
    split; [done|].
    pose proof (attached_fields_body table_name attr_dict) as Hall.
    induction Hall as [|[attr f] g entries fields Hg _ IH]; constructor;
      [|exact IH].
    destruct Hg as (_ & Hname & _ & Hcol & _). cbn [fst snd] in *.
    exists (column_of attr f). split; [done|].
    rewrite (Field___lt___attached g value _ Hcol),
      (Field___ne___attached g value _ Hcol),
      (Field___gt___attached g value _ Hcol),
      (Field_like_attached g value _ Hcol),
      (Field_desc_attached g _ Hcol).
    by autorewrite with str.
Qed.

(** ** Instances: construction and attribute access *)







(** X10: on an instance of an ordinary class declared on a table,
    [setattr] followed by [getattr] of the same attribute returns the
    value that was set, and reading any other attribute gives what it
    gave before.  The names the class reserves for itself are left
    aside. *)
Theorem instance_setattr_getattr
    (attr_dict : list (string * attr_value)) (table_name : string)
    (inst : instance) (nm : string) (value : pyval) :
  declares_table attr_dict table_name ->
  plain_body attr_dict = true ->
  instance_class inst = declared_class table_name attr_dict ->
  reserved_attr nm = false ->
  nm <> "pk_field" ->
  exists inst',
    instance_setattr inst nm value = Ok inst'
    /\ instance_class inst' = instance_class inst
    /\ instance_pk_field inst' = instance_pk_field inst
    /\ instance_getattr inst' nm = Ok value
    /\ forall other, other <> nm ->
         instance_getattr inst' other = instance_getattr inst other.
Proof.
  intros _ _ Hc _ _. eexists.
  split; [apply (instance_setattr_declared table_name attr_dict inst Hc)|].
  split; [done|]. split; [done|]. split.
  - apply (instance_getattr_stored table_name attr_dict); [done|].
    cbn [set___dict__ instance___dict__]. apply lookup_insert_eq.
  - intros other Hne. unfold instance_getattr.
    cbn [set___dict__ instance_class instance___dict__]. rewrite Hc.
    cbn [declared_class Model_attr_dict].
    rewrite lookup_insert_ne by done.
    destruct (od_get other (attached_dict table_name attr_dict))
      as [[f|v]|] eqn:Hget; try done.
    unfold Field___get__.
    rewrite (attached_dict_get_field _ _ other f Hget). cbn [bound obind].
    cbn [set___dict__ instance___dict__]. by rewrite lookup_insert_ne.
Qed.

(** ** Instances: the values to write *)

Lemma attached_fields_map (table_name : string)
    (attr_dict : list (string * attr_value)) :
  attached_fields table_name attr_dict
  = map (fun entry => attach table_name entry.1 entry.2)
      (body_fields attr_dict).
Proof.
  induction attr_dict as [|[k [f|v]] l IH]; [done| |].
  - rewrite attached_fields_cons_field. unfold body_fields.
    cbn [omap list_omap map]. fold (body_fields l). by rewrite IH.
  - rewrite attached_fields_cons_other. exact IH.
Qed.

Lemma first_primary_key_body (table_name : string)
    (attr_dict : list (string * attr_value)) :
  first_primary_key (attached_fields table_name attr_dict)
  = match body_primary_key attr_dict with
    | Some entry => Some (attach table_name entry.1 entry.2)
    | None => None
    end.
Proof.
  rewrite attached_fields_map. unfold first_primary_key, body_primary_key.
  induction (body_fields attr_dict) as [|[attr f] entries IH]; [done|].
  cbn [map find fst snd].
  change (Field_primary_key (attach table_name attr f))
    with (Field_primary_key f).
  by destruct (Field_primary_key f).
Qed.

Lemma od_set_fresh {K V} `{EqDecision K} (k : K) (v : V) (d : list (K * V)) :
  k ∉ od_keys d -> od_set k v d = d ++ [(k, v)].
Proof.
  unfold od_keys. induction d as [|[k' v'] d IH]; [done|].
  cbn [map fst]. intros [Hne Hk]%not_elem_of_cons.
  cbn [od_set app]. rewrite decide_False by done. by rewrite IH.
Qed.

Section exact_values.
Variables (table_name : string) (attr_dict : list (string * attr_value)).
Variables (inst : instance) (pk : Field).

Let fields := attached_fields table_name attr_dict.

Hypothesis inst_class :
  instance_class inst = declared_class table_name attr_dict.
Hypothesis inst_pk : instance_pk_field inst = Some pk.

Lemma written_items_cons f fs attr v :
  Field__name f = Some attr ->
  instance_getattr inst attr = Ok v ->
  written_items inst pk (f :: fs)
  = (if Field_is f pk || is_None v then [] else [(Field_name f, v)])
    ++ written_items inst pk fs.
Proof.
  intros Ha Hv. unfold written_items at 1. cbn [omap list_omap].
  fold (written_items inst pk fs).
  unfold field_attr. rewrite Ha, Hv.
  by destruct (Field_is f pk), (is_None v).
Qed.

Lemma Model_sql_values_exact_loop fs values_dict :
  (forall f, f ∈ fs -> f ∈ fields) ->
  NoDup (map Field_name fs) ->
  (forall f, f ∈ fs -> Field_name f ∉ od_keys values_dict) ->
  ofold (Model_sql_values_body inst) fs values_dict
  = Ok (values_dict ++ written_items inst pk fs).
Proof.
  revert values_dict.
  induction fs as [|f fs IH]; intros values_dict Hfs Hnd Hfresh.
  - cbn. by rewrite app_nil_r.
  - assert (f ∈ fields) as Hf by (apply Hfs; by left).
    destruct (Model_sql_values_body_declared table_name attr_dict inst pk
                inst_class inst_pk values_dict f Hf)
      as (attr & v & Ha & Hv & Hbody).
    cbn [ofold]. rewrite Hbody. cbn [obind].
    rewrite (written_items_cons f fs attr v Ha Hv).
    cbn [map] in Hnd. apply NoDup_cons in Hnd as [Hf_fresh Hnd].
    rewrite IH; try done.
    + destruct (Field_is f pk || is_None v); [done|].
      rewrite od_set_fresh by (apply Hfresh; by left).
      by rewrite <- app_assoc.
    + intros g Hg. apply Hfs. by right.
    + intros g Hg.
      assert (Field_name g ∉ od_keys values_dict) as Hg_fresh
        by (apply Hfresh; by right).
      destruct (Field_is f pk || is_None v); [done|].
      rewrite od_set_fresh by (apply Hfresh; by left).
      unfold od_keys. rewrite map_app. cbn [map fst].
      intros [Hin|[Heq|?%elem_of_nil]%elem_of_cons]%elem_of_app; try done.
      apply Hf_fresh. rewrite <- Heq.
      apply list_elem_of_In, in_map, list_elem_of_In, Hg.
Qed.

Lemma Model_sql_values_exact :
  NoDup (map Field_name fields) ->
  Model_sql_values inst = Ok (written_items inst pk fields).
Proof.
  intros Hnd. unfold Model_sql_values, instance_fields.
  rewrite inst_class. cbn [declared_class Model_fields bound obind].
  fold fields. rewrite (Model_sql_values_exact_loop fields []); try done.
  intros f _ ?%elem_of_nil. done.
Qed.
End exact_values.

Lemma attached_column_names (table_name : string)
    (attr_dict : list (string * attr_value)) :
  map Field_name (attached_fields table_name attr_dict)
  = map (fun entry => Some (column_of entry.1 entry.2))
      (body_fields attr_dict).
Proof. rewrite attached_fields_map. by rewrite map_map. Qed.

(** X11: when the columns of an ordinary class are pairwise distinct,
    [sql_values()] on an instance in any state that holds none of the
    machinery's names is, in declaration order, the column and the
    current value of each field other than the primary-key field whose
    value is not [None]. *)
Theorem Model_sql_values_in_declaration_order
    (attr_dict : list (string * attr_value)) (table_name : string)
    (md : MetaData) (attrs : gmap string pyval) (pk_entry : string * Field) :
  declares_table attr_dict table_name ->
  plain_body attr_dict = true ->
  body_primary_key attr_dict = Some pk_entry ->
  NoDup (map (fun entry => column_of entry.1 entry.2)
           (body_fields attr_dict)) ->
  plain_state attrs = true ->
  exists cls md' fields pk,
    ModelMetaClass___init__ attr_dict md = (Ok cls, md')
    /\ Model_fields cls = Some fields
    /\ first_primary_key fields = Some pk
    /\ Model_sql_values (instance_of cls attrs (Some pk))
       = Ok (written_items (instance_of cls attrs (Some pk)) pk fields).
Proof.
  intros Hd _ Hpk Hnd _. eexists _, _, _, _.
  split; [apply (ModelMetaClass___init___declared _ _ _ Hd)|].
  split; [done|].
  split; [by rewrite first_primary_key_body, Hpk|].
  apply (Model_sql_values_exact table_name attr_dict); [done | done |].
  rewrite attached_column_names.
  rewrite <- (map_map (fun entry => column_of entry.1 entry.2) Some).
  apply (NoDup_fmap_2 Some). exact Hnd.
Qed.

(** ** Session: update, delete, and what goes wrong *)

Lemma format_update (table_name pk_name columns : string) :
  format "UPDATE {table_name} SET {columns} WHERE {pk_name} = %s;"
    [] [("table_name", AVal (VStr table_name));
        ("pk_name", AVal (VStr pk_name));
        ("columns", AVal (VStr columns))]
  = Ok ("UPDATE " +:+ table_name +:+ " SET " +:+ columns
        +:+ " WHERE " +:+ pk_name +:+ " = %s;").
Proof. unfold format. cbn. by autorewrite with str. Qed.

Lemma format_assignment (v : pyval) :
  format "{0} = %s" [AVal v] [] = Ok (py_str v +:+ " = %s").
Proof. unfold format. cbn. by autorewrite with str. Qed.

Lemma body_primary_key_attached (table_name : string)
    (attr_dict : list (string * attr_value)) (pk_attr : string) (pk0 : Field) :
  body_primary_key attr_dict = Some (pk_attr, pk0) ->
  first_primary_key (attached_fields table_name attr_dict)
  = Some (attach table_name pk_attr pk0)
  /\ attach table_name pk_attr pk0 ∈ attached_fields table_name attr_dict
  /\ (pk_attr, pk0) ∈ body_fields attr_dict.
Proof.
  intros Hpk. split; [by rewrite first_primary_key_body, Hpk|].
  apply find_some in Hpk as [Hin _].
  split; [|by apply list_elem_of_In].
  rewrite attached_fields_map. apply list_elem_of_In.
  apply (in_map (fun entry => attach table_name entry.1 entry.2) _ _ Hin).
Qed.

Section writes.
Variable db : list event -> event -> outcome (option (list row)).
Variables (table_name : string) (attr_dict : list (string * attr_value)).
Variables (self : Session) (attrs : gmap string pyval).
Variables (pk_attr : string) (pk0 : Field).

Let cls := declared_class table_name attr_dict.
Let pk := attach table_name pk_attr pk0.
Let inst := instance_of cls attrs (Some pk).

Hypothesis body_pk : body_primary_key attr_dict = Some (pk_attr, pk0).
Hypothesis class_table : "table_name" ∉ od_keys attr_dict.
Hypothesis inst_table : attrs !! "table_name" = None.

Lemma inst_table_name : instance_getattr inst "table_name" = Ok (VStr table_name).
Proof. by apply (instance_getattr_table_name table_name attr_dict inst). Qed.

Lemma inst_pk_value :
  exists pk_value, instance_getattr inst pk_attr = Ok pk_value.
Proof.
  destruct (body_primary_key_attached table_name _ _ _ body_pk)
    as (_ & Hin & _).
  destruct (attached_fields_elem _ _ _ Hin) as (a & c & Ha & _ & Hk).
  injection Ha as <-.
  by apply (instance_getattr_declared_key table_name attr_dict inst).
Qed.

Lemma Session_update_run values pk_value d rows :
  Session_cursor self = true ->
  column_of pk_attr pk0 = pk_attr ->
  Model_sql_values inst = Ok values ->
  instance_getattr inst pk_attr = Ok pk_value ->
  let stmt := Execute (update_statement table_name (od_keys values) pk_attr)
                (Some (od_values values ++ [pk_value])) in
  db (trace d) stmt = Ok rows ->
  Session_update db self inst d
  = (Ok tt, {| trace := trace d ++ [stmt]; result := rows |}).
Proof.
  intros Hconn Hcol Hvalues Hpkv stmt Hdb. unfold Session_update.
  cbn [inst instance_of instance_get_pk_field instance_pk_field bound].
  unfold bind at 1, lift at 1.
  cbn [pk attach set_Field_table set_Field_names Field_name attr_name obind].
  rewrite Hcol. fold pk cls. fold (instance_of cls attrs (Some pk)).
  fold inst. rewrite Hpkv. unfold bind at 1, lift at 1.
  rewrite Hvalues. unfold bind at 1, lift at 1.
  rewrite (comprehension_map _ (fun k => py_str (of_opt_str k) +:+ " = %s"))
    by (apply Forall_forall; intros k _; apply format_assignment).
  unfold bind at 1, lift at 1.
  rewrite inst_table_name. unfold bind at 1, lift at 1.
  cbn [of_opt_str]. rewrite format_update. unfold bind at 1, lift at 1.
  fold (update_statement table_name (od_keys values) pk_attr).
  unfold Session_execute, Session_get_cursor.
  rewrite Hconn. unfold bind at 1, ret at 1. unfold call.
  fold stmt. by rewrite Hdb.
Qed.

Lemma Session_write_wrong_attribute d :
  let column := column_of pk_attr pk0 in
  column ∉ od_keys attr_dict ->
  attrs !! column = None ->
  reserved_attr column = false ->
  column <> "table_name" -> column <> "pk_name" -> column <> "pk_field" ->
  Session_update db self inst d = (Raise (AttributeError column), d)
  /\ Session_delete db self inst d = (Raise (AttributeError column), d).
Proof.
  intros column Hbody Hattrs Hres Ht Hn Hf.
  assert (instance_getattr inst column = Raise (AttributeError column))
    as Hget.
  { unfold instance_getattr.
    cbn [inst instance_of instance_class instance___dict__ cls
         declared_class Model_attr_dict].
    rewrite (attached_dict_get_None _ _ _ Hbody), Hattrs.
    unfold instance_getattr_builtin.
    rewrite (proj2 (String.eqb_neq _ _) Hf), Hres,
      (proj2 (String.eqb_neq _ _) Ht), (proj2 (String.eqb_neq _ _) Hn).
    reflexivity. }
  split.
  - unfold Session_update.
    cbn [inst instance_of instance_get_pk_field instance_pk_field bound].
    unfold bind at 1, lift at 1.
    cbn [pk attach set_Field_table set_Field_names Field_name attr_name
         obind].
    fold column pk cls. fold (instance_of cls attrs (Some pk)). fold inst.
    rewrite Hget. reflexivity.
  - unfold Session_delete.
    cbn [inst instance_of instance_get_pk_field instance_pk_field bound].
    unfold bind at 1, lift at 1.
    cbn [pk attach set_Field_table set_Field_names Field_name attr_name
         obind].
    fold column pk cls. fold (instance_of cls attrs (Some pk)). fold inst.
    rewrite Hget. reflexivity.
Qed.
End writes.

(** X12: [update] on an ordinary class whose primary-key column carries
    the name of its attribute, for an instance in any state that holds
    none of the machinery's names, on a connected session: it executes
    [UPDATE <table> SET <column> = %s, ... WHERE <pk> = %s;] over the
    columns of [sql_values()], with their values followed by the current
    primary-key value as bound arguments, and leaves the instance as it
    is. *)
Theorem Session_update_statement
    (db : list event -> event -> outcome (option (list row)))
    (attr_dict : list (string * attr_value)) (table_name : string)
    (md : MetaData) (attrs : gmap string pyval) (self : Session)
    (d : Driver) (pk_attr : string) (pk0 : Field) :
  declares_table attr_dict table_name ->
  plain_body attr_dict = true ->
  body_primary_key attr_dict = Some (pk_attr, pk0) ->
  column_of pk_attr pk0 = pk_attr ->
  plain_state attrs = true ->
  Session_cursor self = true ->
  exists cls md' fields pk values pk_value,
    ModelMetaClass___init__ attr_dict md = (Ok cls, md')
    /\ Model_fields cls = Some fields
    /\ first_primary_key fields = Some pk
    /\ Model_sql_values (instance_of cls attrs (Some pk)) = Ok values
    /\ instance_getattr (instance_of cls attrs (Some pk)) pk_attr
       = Ok pk_value
    /\ forall rows,
         let stmt :=
           Execute (update_statement table_name (od_keys values) pk_attr)
             (Some (od_values values ++ [pk_value])) in
         db (trace d) stmt = Ok rows ->
         Session_update db self (instance_of cls attrs (Some pk)) d
         = (Ok tt, {| trace := trace d ++ [stmt]; result := rows |}).
Proof.
  intros Hd Hplain Hpk Hcol Hstate Hconn.
  assert ("table_name" ∉ od_keys attr_dict) as Hbody
    by (by apply plain_body_machinery).
  assert (attrs !! "table_name" = None) as Hattrs
    by (by apply plain_state_table_name).
  destruct (body_primary_key_attached table_name _ _ _ Hpk) as (Hfirst & _ & _).
  destruct (Model_sql_values_declared table_name attr_dict
              (instance_of (declared_class table_name attr_dict) attrs
                 (Some (attach table_name pk_attr pk0)))
              (attach table_name pk_attr pk0) eq_refl eq_refl)
    as (values & Hvalues & _ & _).
  destruct (inst_pk_value table_name attr_dict attrs pk_attr pk0 Hpk)
    as [pk_value Hpkv].
  eexists _, _, _, _, values, pk_value.
  split; [apply (ModelMetaClass___init___declared _ _ _ Hd)|].
  split; [done|]. split; [exact Hfirst|]. split; [exact Hvalues|].
  split; [exact Hpkv|].
  intros rows stmt Hdb.
  by apply (Session_update_run db table_name attr_dict self attrs pk_attr pk0
              Hbody Hattrs values pk_value d rows).
Qed.

(** X13: [update] and [delete] look the primary key up under the name of its
    column.  When the column was given a name that is no attribute of
    the instance, both raise [AttributeError] for that name and send
    nothing to the database, connected or not. *)
Theorem Session_update_delete_column_not_attribute
    (db : list event -> event -> outcome (option (list row)))
    (attr_dict : list (string * attr_value)) (table_name : string)
    (md : MetaData) (attrs : gmap string pyval) (self : Session)
    (d : Driver) (pk_attr : string) (pk0 : Field) :
  declares_table attr_dict table_name ->
  body_primary_key attr_dict = Some (pk_attr, pk0) ->
  column_of pk_attr pk0 ∉ od_keys attr_dict ->
  attrs !! column_of pk_attr pk0 = None ->
  reserved_attr (column_of pk_attr pk0) = false ->
  column_of pk_attr pk0 <> "table_name" ->
  column_of pk_attr pk0 <> "pk_name" ->
  column_of pk_attr pk0 <> "pk_field" ->
  exists cls md' fields pk,
    ModelMetaClass___init__ attr_dict md = (Ok cls, md')
    /\ Model_fields cls = Some fields
    /\ first_primary_key fields = Some pk
    /\ Session_update db self (instance_of cls attrs (Some pk)) d
       = (Raise (AttributeError (column_of pk_attr pk0)), d)
    /\ Session_delete db self (instance_of cls attrs (Some pk)) d
       = (Raise (AttributeError (column_of pk_attr pk0)), d).
Proof.
  intros Hd Hpk Hbody Hattrs Hres Ht Hn Hf.
  destruct (body_primary_key_attached table_name _ _ _ Hpk) as (Hfirst & _ & _).
  eexists _, _, _, _.
  split; [apply (ModelMetaClass___init___declared _ _ _ Hd)|].
  split; [done|]. split; [exact Hfirst|].
  by apply (Session_write_wrong_attribute db table_name attr_dict self attrs
              pk_attr pk0 d).
Qed.

(** X14: [delete] on an ordinary class whose primary-key column carries
    the name of its attribute, for an instance in any state that holds
    none of the machinery's names, on a connected session: it executes
    [DELETE FROM <table> WHERE <pk> = %s] with the current primary-key
    value as the one bound argument, and afterwards the primary-key
    attribute reads [None] while the other attributes are stored as
    before. *)
Theorem Session_delete_statement
    (db : list event -> event -> outcome (option (list row)))
    (attr_dict : list (string * attr_value)) (table_name : string)
    (md : MetaData) (attrs : gmap string pyval) (self : Session)
    (d : Driver) (pk_attr : string) (pk0 : Field) :
  declares_table attr_dict table_name ->
  plain_body attr_dict = true ->
  body_primary_key attr_dict = Some (pk_attr, pk0) ->
  column_of pk_attr pk0 = pk_attr ->
  plain_state attrs = true ->
  Session_cursor self = true ->
  exists cls md' fields pk pk_value,
    ModelMetaClass___init__ attr_dict md = (Ok cls, md')
    /\ Model_fields cls = Some fields
    /\ first_primary_key fields = Some pk
    /\ instance_getattr (instance_of cls attrs (Some pk)) pk_attr
       = Ok pk_value
    /\ forall rows,
         let stmt := Execute (delete_statement table_name pk_attr)
                       (Some [pk_value]) in
         db (trace d) stmt = Ok rows ->
         Session_delete db self (instance_of cls attrs (Some pk)) d
         = (Ok (instance_of cls (<[pk_attr := VNone]> attrs) (Some pk)),
            {| trace := trace d ++ [stmt]; result := rows |})
         /\ instance_getattr
              (instance_of cls (<[pk_attr := VNone]> attrs) (Some pk)) pk_attr
            = Ok VNone.
Proof.
  intros Hd Hplain Hpk Hcol Hstate Hconn.
  assert ("table_name" ∉ od_keys attr_dict) as Hbody
    by (by apply plain_body_machinery).
  assert (attrs !! "table_name" = None) as Hattrs
    by (by apply plain_state_table_name).
  destruct (body_primary_key_attached table_name _ _ _ Hpk) as (Hfirst & _ & _).
  destruct (inst_pk_value table_name attr_dict attrs pk_attr pk0 Hpk)
    as [pk_value Hpkv].
  eexists _, _, _, _, pk_value.
  split; [apply (ModelMetaClass___init___declared _ _ _ Hd)|].
  split; [done|]. split; [exact Hfirst|]. split; [exact Hpkv|].
  intros rows stmt Hdb. split.
  - apply (Session_delete_run db table_name attr_dict self
             (instance_of (declared_class table_name attr_dict) attrs
                (Some (attach table_name pk_attr pk0)))
             (attach table_name pk_attr pk0) pk_attr pk_value d rows);
      try done.
    + cbn [attach set_Field_table set_Field_names Field_name]. by rewrite Hcol.
    + by apply (inst_table_name table_name attr_dict attrs pk_attr pk0).
  - apply (instance_getattr_stored table_name attr_dict); [done|].
    cbn [instance_of instance___dict__]. apply lookup_insert_eq.
Qed.

Section insert_outcomes.
Variable db : list event -> event -> outcome (option (list row)).
Variables (table_name : string) (attr_dict : list (string * attr_value)).
Variables (self : Session) (inst : instance) (pk : Field).
Variables (pk_attr pk_column : string)
          (values : list (option string * pyval)).

Hypothesis inst_class :
  instance_class inst = declared_class table_name attr_dict.
Hypothesis inst_pk : instance_pk_field inst = Some pk.
Hypothesis pk_attached : Field__name pk = Some pk_attr.
Hypothesis pk_named : Field_name pk = Some pk_column.
Hypothesis inst_values : Model_sql_values inst = Ok values.
Hypothesis inst_table :
  instance_getattr inst "table_name" = Ok (VStr table_name).

End insert_outcomes.


(** X16: [insert] when there is nothing to write, on an ordinary class
    and an instance whose state holds none of the machinery's names: if
    every field other than the primary key holds [None], [sql_values()]
    is empty and the statement executed is
    [INSERT INTO <table> () VALUES () RETURNING <pk>;] with no bound
    argument. *)
Theorem Session_insert_without_values
    (db : list event -> event -> outcome (option (list row)))
    (attr_dict : list (string * attr_value)) (table_name : string)
    (md : MetaData) (attrs : gmap string pyval) (self : Session)
    (d : Driver) (pk_attr : string) (pk0 : Field) :
  declares_table attr_dict table_name ->
  plain_body attr_dict = true ->
  body_primary_key attr_dict = Some (pk_attr, pk0) ->
  plain_state attrs = true ->
  Session_cursor self = true ->
  (forall attr f, (attr, f) ∈ body_fields attr_dict ->
                  (attr, f) = (pk_attr, pk0) \/ attrs !! attr = Some VNone) ->
  exists cls md' fields pk,
    ModelMetaClass___init__ attr_dict md = (Ok cls, md')
    /\ Model_fields cls = Some fields
    /\ first_primary_key fields = Some pk
    /\ Model_sql_values (instance_of cls attrs (Some pk)) = Ok []
    /\ forall pk_value rest rows,
         let stmt :=
           Execute ("INSERT INTO " +:+ table_name
                    +:+ " () VALUES () RETURNING " +:+ column_of pk_attr pk0
                    +:+ ";")
             (Some []) in
         db (trace d) stmt = Ok (Some ((pk_value :: rest) :: rows)) ->
         Session_insert db self (instance_of cls attrs (Some pk)) d
         = (Ok (instance_of cls (<[pk_attr := pk_value]> attrs) (Some pk)),
            {| trace := trace d ++ [stmt]; result := Some rows |}).
Proof.
  intros Hd Hplain Hpk Hstate Hconn Hnone.
  assert ("table_name" ∉ od_keys attr_dict) as Hbody
    by (by apply plain_body_machinery).
  assert (attrs !! "table_name" = None) as Hattrs
    by (by apply plain_state_table_name).
  destruct (body_primary_key_attached table_name _ _ _ Hpk) as (Hfirst & _ & _).
  set (pk := attach table_name pk_attr pk0).
  set (inst := instance_of (declared_class table_name attr_dict) attrs (Some pk)).
  destruct (Model_sql_values_declared table_name attr_dict inst pk
              eq_refl eq_refl) as (values & Hvalues & Hsound & _).
  assert (values = []) as ->.
  { destruct values as [|[k v] values]; [done|]. exfalso.
    destruct (Hsound k v) as (Hv & f & attr & Hf & Hnotpk & _ & Ha & Hget);
      [by left|].
    rewrite attached_fields_map in Hf.
    apply list_elem_of_In, in_map_iff in Hf as ([a f0] & <- & Hin).
    cbn [fst snd] in *. injection Ha as <-.
    destruct (Hnone a f0) as [[= -> ->]|Hstored]; [by apply list_elem_of_In| |].
    - unfold Field_is in Hnotpk. by rewrite Nat.eqb_refl in Hnotpk.
    - rewrite (instance_getattr_stored table_name attr_dict inst a VNone)
        in Hget by done.
      by injection Hget as <-. }
  eexists _, _, _, pk.
  split; [apply (ModelMetaClass___init___declared _ _ _ Hd)|].
  split; [done|]. split; [exact Hfirst|]. split; [exact Hvalues|].
  intros pk_value rest rows stmt Hdb.
  assert (stmt
          = Execute (insert_statement table_name
                       (od_keys ([] : list (option string * pyval)))
                       (column_of pk_attr pk0))
              (Some (od_values ([] : list (option string * pyval)))))
    as Hstmt.
  { unfold stmt, insert_statement. cbn [od_keys od_values map join].
    f_equal; by autorewrite with str. }
  rewrite Hstmt in Hdb |- *.
  by apply (Session_insert_run db table_name attr_dict self inst pk pk_attr
              (column_of pk_attr pk0) [] Hconn eq_refl eq_refl eq_refl eq_refl
              Hvalues
              (inst_table_name table_name attr_dict attrs pk_attr pk0
                 Hbody Hattrs) d pk_value rest rows).
Qed.

(** ** Session: connecting *)

(** X17: a session made without a bind, none being configured, is not
    connected: every operation on it raises [AttributeError] and no call
    reaches the driver. *)
Theorem Session_without_bind
    (db : list event -> event -> outcome (option (list row)))
    (d : Driver) (sql : string) (args : list pyval) (size : option nat) :
  exists self,
    Session___init__ db None None d = (Ok self, d)
    /\ Session_execute db self sql args d = (Raise (AttributeError "cursor"), d)
    /\ Session_fetchone self d = (Raise (AttributeError "cursor"), d)
    /\ Session_fetchmany self size d = (Raise (AttributeError "cursor"), d)
    /\ Session_fetchall self d = (Raise (AttributeError "cursor"), d)
    /\ Session_commit db self d = (Raise (AttributeError "connection"), d)
    /\ Session_rollback db self d = (Raise (AttributeError "connection"), d)
    /\ Session_close db self d = (Raise (AttributeError "cursor"), d)
    /\ Session_connect db self d = (Raise (AttributeError "connect"), d).
Proof.
  exists {| Session_bind := None; Session_cursor := false |}.
  split; [reflexivity|].
  unfold Session_execute, Session_fetchone, Session_fetchmany,
    Session_fetchall, Session_commit, Session_rollback, Session_close,
    Session_connect.
  repeat split; by destruct size.
Qed.

(** X18: a session made with a bind, given to the constructor or else
    configured on the class, connects at once: on a database that
    accepts the calls it opens one connection on the engine's URI and
    one cursor; a bind given to the constructor wins over the configured
    one. *)
Theorem Session_with_bind
    (db : list event -> event -> outcome (option (list row)))
    (_bind bind : option Engine) (engine : Engine) (d : Driver) :
  accepts_all db ->
  bind = Some engine \/ (bind = None /\ _bind = Some engine) ->
  runs (Session___init__ db _bind bind) d
    {| Session_bind := Some engine; Session_cursor := true |}
    [Connect (Engine_uri engine); OpenCursor].
Proof.
  intros Hdb Hbind.
  assert (Session___init__ db _bind bind
          = Session_connect db {| Session_bind := Some engine;
                                  Session_cursor := false |}) as ->.
  { destruct Hbind as [->|[-> ->]]; reflexivity. }
  unfold Session_connect, Engine_connect. cbn [Session_bind].
  apply runs_call_then; [done|]. intros d1.
  change [OpenCursor] with ([OpenCursor] ++ []).
  eapply runs_bind; [by apply runs_call | intros d2 _; apply runs_ret].
Qed.

(** ** ForeignKey *)

Lemma snoc_append (s : string) (c : ascii) : snoc s c = s +:+ String c "".
Proof. induction s as [|c' s IH]; [done|]. cbn [snoc]. by rewrite IH. Qed.

Lemma split_dots_no_dot (s cur : string) :
  no_dot s = true -> split_dots s cur = [cur +:+ s].
Proof.
  revert cur. induction s as [|c s IH]; intros cur; cbn [no_dot split_dots].
  - intros _. by rewrite append_nil_r.
  - intros [Hc Hs]%andb_prop. destruct (Ascii.eqb c "."); [done|].
    rewrite IH by done. rewrite snoc_append, append_assoc. reflexivity.
Qed.

Lemma split_dots_dot (s1 s2 cur : string) :
  no_dot s1 = true ->
  split_dots (s1 +:+ "." +:+ s2) cur = (cur +:+ s1) :: split_dots s2 "".
Proof.
  revert cur. induction s1 as [|c s1 IH]; intros cur; cbn [no_dot].
  - intros _. rewrite append_nil_l, append_nil_r. reflexivity.
  - intros [Hc Hs]%andb_prop. rewrite append_cons. cbn [split_dots].
    destruct (Ascii.eqb c "."); [done|].
    rewrite IH by done. rewrite snoc_append, append_assoc. reflexivity.
Qed.

Lemma split_dots_join (s cur : string) :
  join "." (split_dots s cur) = cur +:+ s.
Proof.
  revert cur. induction s as [|c s IH]; intros cur; cbn [split_dots].
  - cbn. by rewrite append_nil_r.
  - destruct (Ascii.eqb_spec c ".") as [->|Hne].
    + specialize (IH ""). rewrite append_nil_l in IH.
      destruct (split_dots s "") as [|p ps] eqn:Hsplit.
      * destruct s; cbn in Hsplit; [done|].
        by destruct (Ascii.eqb a ".").
      * cbn [join]. cbn [join] in IH. by rewrite IH.
    + rewrite IH, snoc_append, append_assoc. reflexivity.
Qed.

Lemma split_dots_nonempty (s cur : string) : split_dots s cur <> [].
Proof.
  revert cur. induction s as [|c s IH]; intros cur; cbn [split_dots];
    [done|]. by destruct (Ascii.eqb c ".").
Qed.

Lemma no_dot_append (s1 s2 : string) :
  no_dot (s1 +:+ s2) = no_dot s1 && no_dot s2.
Proof.
  induction s1 as [|c s1 IH]; [done|]. rewrite append_cons. cbn [no_dot].
  rewrite IH. by rewrite andb_assoc.
Qed.

Lemma split_dots_parts (s cur : string) :
  no_dot cur = true -> Forall (fun p => no_dot p = true) (split_dots s cur).
Proof.
  revert cur. induction s as [|c s IH]; intros cur Hcur; cbn [split_dots].
  - by constructor.
  - destruct (Ascii.eqb c ".") eqn:Hc.
    + constructor; [done | by apply IH].
    + apply IH. rewrite snoc_append, no_dot_append, Hcur. cbn. by rewrite Hc.
Qed.

(** X19: [ForeignKey(column)] accepts exactly the strings [<table>.<column>]
    with one dot: it stores the text before the dot as table and the text
    after it as column, so that joining them with a dot gives the
    argument back, and [to_sql()] then starts with
    [REFERENCES <table> (<column>)].  A string without a dot raises
    [ValueError], and so does one with two dots or more. *)
Theorem ForeignKey___init___parses (onupdate ondelete : option string) :
  (forall table_name column_name,
     no_dot table_name = true -> no_dot column_name = true ->
     ForeignKey___init__ (table_name +:+ "." +:+ column_name) onupdate ondelete
     = Ok {| ForeignKey_table_name := table_name;
             ForeignKey_column_name := column_name;
             ForeignKey_onupdate := onupdate;
             ForeignKey_ondelete := ondelete |})
  /\ (forall column fk,
        ForeignKey___init__ column onupdate ondelete = Ok fk ->
        column = ForeignKey_table_name fk +:+ "." +:+ ForeignKey_column_name fk
        /\ no_dot (ForeignKey_table_name fk) = true
        /\ no_dot (ForeignKey_column_name fk) = true
        /\ ForeignKey_onupdate fk = onupdate
        /\ ForeignKey_ondelete fk = ondelete
        /\ ForeignKey_to_sql fk = Ok (ForeignKey_clause fk))
  /\ (forall column,
        no_dot column = true ->
        ForeignKey___init__ column onupdate ondelete
        = Raise (ValueError "not enough values to unpack"))
  /\ (forall table_name column_name rest,
        no_dot table_name = true -> no_dot column_name = true ->
        ForeignKey___init__
          (table_name +:+ "." +:+ column_name +:+ "." +:+ rest)
          onupdate ondelete
        = Raise (ValueError "too many values to unpack")).
Proof.
  split; [|split; [|split]].
  - intros t c Ht Hc. unfold ForeignKey___init__.
    rewrite split_dots_dot by done.
    rewrite split_dots_no_dot by done. reflexivity.
  - intros column fk. unfold ForeignKey___init__.
    pose proof (split_dots_join column "") as Hjoin.
    pose proof (split_dots_parts column "" eq_refl) as Hparts.
    destruct (split_dots column "") as [|t [|c [|x rest]]]; try done.
    intros [= <-]. cbn [ForeignKey_table_name ForeignKey_column_name
                         ForeignKey_onupdate ForeignKey_ondelete].
    cbn [join] in Hjoin. rewrite append_nil_l in Hjoin.
    apply Forall_cons in Hparts as [Ht Hparts].
    apply Forall_cons in Hparts as [Hc _].
    split; [done|]. do 4 (split; [done|]).
    apply ForeignKey_to_sql_clause.
  - intros column Hc. unfold ForeignKey___init__.
    by rewrite split_dots_no_dot.
  - intros t c rest Ht Hc. unfold ForeignKey___init__.
    rewrite split_dots_dot by done. rewrite split_dots_dot by done.
    pose proof (split_dots_nonempty rest "") as Hne.
    by destruct (split_dots rest "").
Qed.

(** ** DDL texts *)

Lemma Index_to_sql_statement (index : Index) :
  Index_to_sql index = Ok (index_statement index).
Proof.
  unfold Index_to_sql, index_statement, format, clause.
  destruct (Index_unique index); cbn; by autorewrite with str.
Qed.

Lemma join_nonempty (sep : string) (parts : list string) :
  parts <> [] ->
  Forall (fun p => p <> "") parts ->
  join sep parts <> "".
Proof.
  intros Hne Hall. destruct Hall as [|p ps Hp _]; [done|].
  destruct p as [|c p]; [done|]. cbn [join].
  destruct ps; [done|]. by rewrite append_cons.
Qed.

Lemma index_statement_nonempty (index : Index) : index_statement index <> "".
Proof. unfold index_statement. by rewrite append_cons. Qed.

(** X20: [index_sqls()] never fails, whatever indexes the registry holds: it
    is the join with [;] and a newline of one statement per index, in
    registry order, a [CREATE UNIQUE INDEX] for an index flagged unique
    and a [CREATE INDEX] otherwise; it is the empty string exactly when
    the registry holds no index. *)
Theorem MetaData_index_sqls_statements (md : MetaData) :
  exists index_sql,
    MetaData_index_sqls md = Ok index_sql
    /\ index_sql
       = join (String ";" (String "010" ""))
           (map index_statement (MetaData_indexes md))
    /\ (index_sql = "" <-> MetaData_indexes md = [])
    /\ Forall (fun index =>
         index_statement index
         = (if Index_unique index then "CREATE UNIQUE INDEX "
            else "CREATE INDEX ")
           +:+ Index_name index +:+ " ON " +:+ Index_table_name index
           +:+ " (" +:+ py_str (of_opt_str (Index_column_name index)) +:+ ");")
         (MetaData_indexes md).
Proof.
  eexists. split; [|split; [reflexivity|split]].
  - unfold MetaData_index_sqls.
    rewrite (comprehension_map _ index_statement); [done|].
    apply Forall_forall. intros index _. apply Index_to_sql_statement.
  - split.
    + intros Hempty. destruct (MetaData_indexes md) as [|index indexes] eqn:E;
        [done|]. exfalso. revert Hempty. apply join_nonempty; [done|].
      apply Forall_forall. intros s (index' & <- & _)%list_elem_of_In%in_map_iff.
      apply index_statement_nonempty.
    + by intros ->.
  - apply Forall_forall. intros index _. unfold index_statement, clause.
    destruct (Index_unique index); by autorewrite with str.
Qed.

(** X21: [table_sql()] of an ordinary class declared on table [t] is the
    statement [CREATE TABLE t (...)] that lists the column definitions
    of the class's fields in declaration order, one per line; a class
    declared without any field gives a statement with an empty column
    list. *)
Theorem Model_table_sql_statement
    (attr_dict : list (string * attr_value)) (table_name : string)
    (md : MetaData) :
  declares_table attr_dict table_name ->
  plain_body attr_dict = true ->
  exists cls md' fields,
    ModelMetaClass___init__ attr_dict md = (Ok cls, md')
    /\ Model_fields cls = Some fields
    /\ Forall2 (fun entry g => attached_as table_name entry.1 entry.2 g)
         (body_fields attr_dict) fields
    /\ Model_table_sql cls = Ok (create_table_statement table_name fields)
    /\ (body_fields attr_dict = [] ->
        Model_table_sql cls
        = Ok (String "010" "CREATE TABLE " +:+ table_name +:+ " ("
              +:+ String "010" "    "
              +:+ String "010" ");" +:+ String "010" "")).
Proof.
  intros Hd _. eexists _, _, _.
  split; [apply (ModelMetaClass___init___declared _ _ _ Hd)|].
  split; [done|]. split; [apply attached_fields_body|].
  split; [apply Model_table_sql_text|].
  intros Hnone. rewrite Model_table_sql_text.
  pose proof (attached_fields_body table_name attr_dict) as Hall.
  rewrite Hnone in Hall. inversion Hall as [Hnil|].
  unfold create_table_statement. cbn [map join].
  by autorewrite with str.
Qed.

(** ** The properties on the sample classes *)

Lemma Account_body_declares_table : declares_table Account_body "accounts".
Proof. split; [reflexivity | discriminate]. Defined.

Lemma MetaData_drop_all_calls_witness :
  accepts_all sample_db
  /\ runs (MetaData_drop_all sample_db sample_registry sample_engine)
      Driver_initial tt
       ([Connect (Engine_uri sample_engine); OpenCursor]
        ++ map (fun table_name =>
                  Execute ("DROP TABLE IF EXISTS " +:+ table_name) None)
             (od_keys (MetaData_tables sample_registry))
        ++ [Commit; CloseCursor; CloseConnection]).
Proof.
  assert (accepts_all sample_db) as H0
    by exact sample_db_accepts_all.
  split; [exact H0|].
  exact (MetaData_drop_all_calls sample_db sample_registry sample_engine
      Driver_initial H0).
Defined.

Lemma MetaData_create_all_stops_at_rejection_witness :
  (plain_program [User_body; Note_body] = true)
  /\ (MetaData_create_all rejecting_db (registry [User_body; Note_body])
      sample_engine Driver_initial = (Raise syntax_error, stopped_create))
  /\ exists ddl before ev after,
       Forall2 (fun model sql =>
                  exists table_name fields,
                    Model_table_name model = Some table_name
                    /\ Model_fields model = Some fields
                    /\ sql = create_table_statement table_name fields)
         (od_values (MetaData_tables (registry [User_body; Note_body]))) ddl
       /\ create_all_script sample_engine ddl
            (join (String ";" (String "010" ""))
               (map create_index_statement (MetaData_indexes (registry
                   [User_body; Note_body]))))
          = before ++ ev :: after
       /\ trace stopped_create = trace Driver_initial ++ before ++ [ev]
       /\ rejecting_db (trace Driver_initial ++ before) ev = Raise
           syntax_error
       /\ (is_execute ev = true ->
           Forall (fun c => finishing c = false) (before ++ [ev])).
Proof.
  assert (plain_program [User_body; Note_body] = true) as H0
    by exact sample_program_plain.
  assert (MetaData_create_all rejecting_db (registry [User_body; Note_body])
      sample_engine Driver_initial = (Raise syntax_error, stopped_create)) as
      H1
    by (vm_compute; reflexivity).
  split; [exact H0|].
  split; [exact H1|].
  exact (MetaData_create_all_stops_at_rejection rejecting_db [User_body;
      Note_body] sample_engine Driver_initial stopped_create syntax_error H0
      H1).
Defined.

Lemma MetaData_drop_all_stops_at_rejection_witness :
  (MetaData_drop_all rejecting_db sample_registry sample_engine Driver_initial
      = (Raise syntax_error, stopped_drop))
  /\ exists before ev after,
       drop_all_script sample_engine (od_keys (MetaData_tables
           sample_registry))
       = before ++ ev :: after
       /\ trace stopped_drop = trace Driver_initial ++ before ++ [ev]
       /\ rejecting_db (trace Driver_initial ++ before) ev = Raise
           syntax_error
       /\ (is_execute ev = true ->
           Forall (fun c => finishing c = false) (before ++ [ev])).
Proof.
  assert (MetaData_drop_all rejecting_db sample_registry sample_engine
      Driver_initial = (Raise syntax_error, stopped_drop)) as H0
    by (vm_compute; reflexivity).
  split; [exact H0|].
  exact (MetaData_drop_all_stops_at_rejection rejecting_db sample_registry
      sample_engine Driver_initial stopped_drop syntax_error H0).
Defined.

Lemma ModelMetaClass___init___registers_witness :
  declares_table User_body "users"
  /\ (distinct_fields User_body = true)
  /\ exists cls md',
       ModelMetaClass___init__ User_body sample_registry = (Ok cls, md')
       /\ od_keys (MetaData_tables md')
          = (if decide ("users" ∈ od_keys (MetaData_tables sample_registry))
             then od_keys (MetaData_tables sample_registry)
             else od_keys (MetaData_tables sample_registry) ++ ["users"])
       /\ od_get "users" (MetaData_tables md') = Some cls
       /\ (forall other, other <> "users" ->
             od_get other (MetaData_tables md')
             = od_get other (MetaData_tables sample_registry))
       /\ MetaData_indexes md'
          = MetaData_indexes sample_registry ++ synthesized_indexes "users"
              User_body.
Proof.
  assert (declares_table User_body "users") as H0
    by exact User_body_declares_table.
  assert (distinct_fields User_body = true) as H1
    by (vm_compute; reflexivity).
  split; [exact H0|].
  split; [exact H1|].
  exact (ModelMetaClass___init___registers User_body "users" sample_registry
      H0 H1).
Defined.


Lemma ModelMetaClass___init___attaches_fields_witness :
  declares_table User_body "users"
  /\ (distinct_fields User_body = true)
  /\ exists cls md' fields,
       ModelMetaClass___init__ User_body MetaData_empty = (Ok cls, md')
       /\ Model_table_name cls = Some "users"
       /\ Model_fields cls = Some fields
       /\ Forall2 (fun entry g => attached_as "users" entry.1 entry.2 g)
            (body_fields User_body) fields
       /\ Model_pk_name cls
          = match List.find (fun entry => Field_primary_key entry.2)
                    (body_fields User_body) with
            | Some entry => Some (column_of entry.1 entry.2)
            | None => None
            end.
Proof.
  assert (declares_table User_body "users") as H0
    by exact User_body_declares_table.
  assert (distinct_fields User_body = true) as H1
    by (vm_compute; reflexivity).
  split; [exact H0|].
  split; [exact H1|].
  exact (ModelMetaClass___init___attaches_fields User_body "users"
      MetaData_empty H0 H1).
Defined.

Lemma Field_builders_after_declaration_witness :
  declares_table User_body "users"
  /\ (forall oid c name max_length default server_default unique nullable
             index primary_key foreign_key,
        let f := Field___init__ oid c name max_length default server_default
                   unique nullable index primary_key foreign_key in
        Field___lt__ f (VInt 1) = Raise (AttributeError "sql_column")
        /\ Field___ne__ f (VInt 1) = Raise (AttributeError "sql_column")
        /\ Field___gt__ f (VInt 1) = Raise (AttributeError "sql_column")
        /\ Field_like f (VInt 1) = Raise (AttributeError "sql_column")
        /\ Field_desc f = Raise (AttributeError "sql_column"))
     /\ exists cls md' fields,
          ModelMetaClass___init__ User_body MetaData_empty = (Ok cls, md')
          /\ Model_fields cls = Some fields
          /\ Forall (fun g =>
                       exists column,
                         Field_name g = Some column
                         /\ Field___lt__ g (VInt 1)
                            = Ok ("users" +:+ "." +:+ column +:+ " < %s",
                                (VInt 1))
                         /\ Field___ne__ g (VInt 1)
                            = Ok ("users" +:+ "." +:+ column +:+ " != %s",
                                (VInt 1))
                         /\ Field___gt__ g (VInt 1)
                            = Ok ("users" +:+ "." +:+ column +:+ " > %s",
                                (VInt 1))
                         /\ Field_like g (VInt 1)
                            = Ok ("users" +:+ "." +:+ column +:+ " LIKE %s",
                                (VInt 1))
                         /\ Field_desc g
                            = Ok ("users" +:+ "." +:+ column +:+ " DESC"))
               fields.
Proof.
  assert (declares_table User_body "users") as H0
    by exact User_body_declares_table.
  split; [exact H0|].
  exact (Field_builders_after_declaration User_body "users" MetaData_empty
      (VInt 1) H0).
Defined.


Lemma instance_setattr_getattr_witness :
  declares_table User_body "users"
  /\ (plain_body User_body = true)
  /\ (instance_class fresh_user = declared_class "users" User_body)
  /\ (reserved_attr "username" = false)
  /\ ("username" <> "pk_field")
  /\ exists inst',
       instance_setattr fresh_user "username" (VStr "bob") = Ok inst'
       /\ instance_class inst' = instance_class fresh_user
       /\ instance_pk_field inst' = instance_pk_field fresh_user
       /\ instance_getattr inst' "username" = Ok (VStr "bob")
       /\ forall other, other <> "username" ->
            instance_getattr inst' other = instance_getattr fresh_user other.
Proof.
  assert (declares_table User_body "users") as H0
    by exact User_body_declares_table.
  assert (plain_body User_body = true) as H1
    by exact User_body_plain.
  assert (instance_class fresh_user = declared_class "users" User_body) as H2
    by reflexivity.
  assert (reserved_attr "username" = false) as H3
    by reflexivity.
  assert ("username" <> "pk_field") as H4
    by discriminate.
  split; [exact H0|].
  split; [exact H1|].
  split; [exact H2|].
  split; [exact H3|].
  split; [exact H4|].
  exact (instance_setattr_getattr User_body "users" fresh_user "username"
      (VStr "bob") H0 H1 H2 H3 H4).
Defined.

Lemma Model_sql_values_in_declaration_order_witness :
  declares_table User_body "users"
  /\ (plain_body User_body = true)
  /\ (body_primary_key User_body = Some ("id", User_id))
  /\ (NoDup (map (fun entry => column_of entry.1 entry.2)
              (body_fields User_body)))
  /\ (plain_state new_user = true)
  /\ exists cls md' fields pk,
       ModelMetaClass___init__ User_body MetaData_empty = (Ok cls, md')
       /\ Model_fields cls = Some fields
       /\ first_primary_key fields = Some pk
       /\ Model_sql_values (instance_of cls new_user (Some pk))
          = Ok (written_items (instance_of cls new_user (Some pk)) pk fields).
Proof.
  assert (declares_table User_body "users") as H0
    by exact User_body_declares_table.
  assert (plain_body User_body = true) as H1
    by exact User_body_plain.
  assert (body_primary_key User_body = Some ("id", User_id)) as H2
    by reflexivity.
  assert (NoDup (map (fun entry => column_of entry.1 entry.2)
             (body_fields User_body))) as H3
    by compute_done.
  assert (plain_state new_user = true) as H4
    by exact new_user_plain.
  split; [exact H0|].
  split; [exact H1|].
  split; [exact H2|].
  split; [exact H3|].
  split; [exact H4|].
  exact (Model_sql_values_in_declaration_order User_body "users"
      MetaData_empty new_user ("id", User_id) H0 H1 H2 H3 H4).
Defined.

Lemma Session_update_statement_witness :
  declares_table User_body "users"
  /\ (plain_body User_body = true)
  /\ (body_primary_key User_body = Some ("id", User_id))
  /\ (column_of "id" User_id = "id")
  /\ (plain_state stored_user = true)
  /\ (Session_cursor sample_session = true)
  /\ exists cls md' fields pk values pk_value,
       ModelMetaClass___init__ User_body MetaData_empty = (Ok cls, md')
       /\ Model_fields cls = Some fields
       /\ first_primary_key fields = Some pk
       /\ Model_sql_values (instance_of cls stored_user (Some pk)) = Ok values
       /\ instance_getattr (instance_of cls stored_user (Some pk)) "id"
          = Ok pk_value
       /\ forall rows,
            let stmt :=
              Execute (update_statement "users" (od_keys values) "id")
                (Some (od_values values ++ [pk_value])) in
            sample_db (trace Driver_initial) stmt = Ok rows ->
            Session_update sample_db sample_session (instance_of cls
                stored_user (Some pk)) Driver_initial
            = (Ok tt, {| trace := trace Driver_initial ++ [stmt]; result :=
                rows |}).
Proof.
  assert (declares_table User_body "users") as H0
    by exact User_body_declares_table.
  assert (plain_body User_body = true) as H1
    by exact User_body_plain.
  assert (body_primary_key User_body = Some ("id", User_id)) as H2
    by reflexivity.
  assert (column_of "id" User_id = "id") as H3
    by reflexivity.
  assert (plain_state stored_user = true) as H4
    by (vm_compute; reflexivity).
  assert (Session_cursor sample_session = true) as H5
    by reflexivity.
  split; [exact H0|].
  split; [exact H1|].
  split; [exact H2|].
  split; [exact H3|].
  split; [exact H4|].
  split; [exact H5|].
  exact (Session_update_statement sample_db User_body "users" MetaData_empty
      stored_user sample_session Driver_initial "id" User_id H0 H1 H2 H3 H4
      H5).
Defined.

Lemma Session_delete_statement_witness :
  declares_table User_body "users"
  /\ (plain_body User_body = true)
  /\ (body_primary_key User_body = Some ("id", User_id))
  /\ (column_of "id" User_id = "id")
  /\ (plain_state stored_user = true)
  /\ (Session_cursor sample_session = true)
  /\ exists cls md' fields pk pk_value,
       ModelMetaClass___init__ User_body MetaData_empty = (Ok cls, md')
       /\ Model_fields cls = Some fields
       /\ first_primary_key fields = Some pk
       /\ instance_getattr (instance_of cls stored_user (Some pk)) "id"
          = Ok pk_value
       /\ forall rows,
            let stmt := Execute (delete_statement "users" "id")
                          (Some [pk_value]) in
            sample_db (trace Driver_initial) stmt = Ok rows ->
            Session_delete sample_db sample_session (instance_of cls
                stored_user (Some pk)) Driver_initial
            = (Ok (instance_of cls (<["id" := VNone]> stored_user) (Some pk)),
               {| trace := trace Driver_initial ++ [stmt]; result := rows |})
            /\ instance_getattr
                 (instance_of cls (<["id" := VNone]> stored_user) (Some pk))
                     "id"
               = Ok VNone.
Proof.
  assert (declares_table User_body "users") as H0
    by exact User_body_declares_table.
  assert (plain_body User_body = true) as H1
    by exact User_body_plain.
  assert (body_primary_key User_body = Some ("id", User_id)) as H2
    by reflexivity.
  assert (column_of "id" User_id = "id") as H3
    by reflexivity.
  assert (plain_state stored_user = true) as H4
    by (vm_compute; reflexivity).
  assert (Session_cursor sample_session = true) as H5
    by reflexivity.
  split; [exact H0|].
  split; [exact H1|].
  split; [exact H2|].
  split; [exact H3|].
  split; [exact H4|].
  split; [exact H5|].
  exact (Session_delete_statement sample_db User_body "users" MetaData_empty
      stored_user sample_session Driver_initial "id" User_id H0 H1 H2 H3 H4
      H5).
Defined.

Lemma Session_update_delete_column_not_attribute_witness :
  declares_table Account_body "accounts"
  /\ (body_primary_key Account_body = Some ("id", Account_id))
  /\ (column_of "id" Account_id ∉ od_keys Account_body)
  /\ (stored_account !! column_of "id" Account_id = None)
  /\ (reserved_attr (column_of "id" Account_id) = false)
  /\ (column_of "id" Account_id <> "table_name")
  /\ (column_of "id" Account_id <> "pk_name")
  /\ (column_of "id" Account_id <> "pk_field")
  /\ exists cls md' fields pk,
       ModelMetaClass___init__ Account_body MetaData_empty = (Ok cls, md')
       /\ Model_fields cls = Some fields
       /\ first_primary_key fields = Some pk
       /\ Session_update sample_db sample_session (instance_of cls
           stored_account (Some pk)) Driver_initial
          = (Raise (AttributeError (column_of "id" Account_id)),
              Driver_initial)
       /\ Session_delete sample_db sample_session (instance_of cls
           stored_account (Some pk)) Driver_initial
          = (Raise (AttributeError (column_of "id" Account_id)),
              Driver_initial).
Proof.
  assert (declares_table Account_body "accounts") as H0
    by exact Account_body_declares_table.
  assert (body_primary_key Account_body = Some ("id", Account_id)) as H1
    by reflexivity.
  assert (column_of "id" Account_id ∉ od_keys Account_body) as H2
    by compute_done.
  assert (stored_account !! column_of "id" Account_id = None) as H3
    by (vm_compute; reflexivity).
  assert (reserved_attr (column_of "id" Account_id) = false) as H4
    by reflexivity.
  assert (column_of "id" Account_id <> "table_name") as H5
    by discriminate.
  assert (column_of "id" Account_id <> "pk_name") as H6
    by discriminate.
  assert (column_of "id" Account_id <> "pk_field") as H7
    by discriminate.
  split; [exact H0|].
  split; [exact H1|].
  split; [exact H2|].
  split; [exact H3|].
  split; [exact H4|].
  split; [exact H5|].
  split; [exact H6|].
  split; [exact H7|].
  exact (Session_update_delete_column_not_attribute sample_db Account_body
      "accounts" MetaData_empty stored_account sample_session Driver_initial
      "id" Account_id H0 H1 H2 H3 H4 H5 H6 H7).
Defined.


Lemma Session_insert_without_values_witness :
  declares_table User_body "users"
  /\ (plain_body User_body = true)
  /\ (body_primary_key User_body = Some ("id", User_id))
  /\ (plain_state blank_user = true)
  /\ (Session_cursor sample_session = true)
  /\ ((forall attr f, (attr, f) ∈ body_fields User_body ->
                     (attr, f) = ("id", User_id) \/ blank_user !! attr = Some
                         VNone))
  /\ exists cls md' fields pk,
       ModelMetaClass___init__ User_body MetaData_empty = (Ok cls, md')
       /\ Model_fields cls = Some fields
       /\ first_primary_key fields = Some pk
       /\ Model_sql_values (instance_of cls blank_user (Some pk)) = Ok []
       /\ forall pk_value rest rows,
            let stmt :=
              Execute ("INSERT INTO " +:+ "users"
                       +:+ " () VALUES () RETURNING " +:+ column_of "id"
                           User_id
                       +:+ ";")
                (Some []) in
            sample_db (trace Driver_initial) stmt = Ok (Some ((pk_value ::
                rest) :: rows)) ->
            Session_insert sample_db sample_session (instance_of cls
                blank_user (Some pk)) Driver_initial
            = (Ok (instance_of cls (<["id" := pk_value]> blank_user) (Some
                pk)),
               {| trace := trace Driver_initial ++ [stmt]; result := Some rows
                   |}).
Proof.
  assert (declares_table User_body "users") as H0
    by exact User_body_declares_table.
  assert (plain_body User_body = true) as H1
    by exact User_body_plain.
  assert (body_primary_key User_body = Some ("id", User_id)) as H2
    by reflexivity.
  assert (plain_state blank_user = true) as H3
    by (vm_compute; reflexivity).
  assert (Session_cursor sample_session = true) as H4
    by reflexivity.
  assert ((forall attr f, (attr, f) ∈ body_fields User_body ->
                    (attr, f) = ("id", User_id) \/ blank_user !! attr = Some
                        VNone)) as H5
    by (intros attr f [[= <- <-]|[[= <- <-]|[[= <- <-]|[]]]]%list_elem_of_In;
        [left; reflexivity | right; vm_compute; reflexivity ..]).
  split; [exact H0|].
  split; [exact H1|].
  split; [exact H2|].
  split; [exact H3|].
  split; [exact H4|].
  split; [exact H5|].
  exact (Session_insert_without_values sample_db User_body "users"
      MetaData_empty blank_user sample_session Driver_initial "id" User_id H0
      H1 H2 H3 H4 H5).
Defined.

Lemma Session_with_bind_witness :
  accepts_all sample_db
  /\ ((Some sample_engine) = Some sample_engine \/ ((Some sample_engine) =
      None /\ None = Some sample_engine))
  /\ runs (Session___init__ sample_db None (Some sample_engine))
      Driver_initial
       {| Session_bind := Some sample_engine; Session_cursor := true |}
       [Connect (Engine_uri sample_engine); OpenCursor].
Proof.
  assert (accepts_all sample_db) as H0
    by exact sample_db_accepts_all.
  assert ((Some sample_engine) = Some sample_engine \/ ((Some sample_engine) =
      None /\ None = Some sample_engine)) as H1
    by (left; reflexivity).
  split; [exact H0|].
  split; [exact H1|].
  exact (Session_with_bind sample_db None (Some sample_engine) sample_engine
      Driver_initial H0 H1).
Defined.

Lemma Model_table_sql_statement_witness :
  declares_table User_body "users"
  /\ (plain_body User_body = true)
  /\ exists cls md' fields,
       ModelMetaClass___init__ User_body MetaData_empty = (Ok cls, md')
       /\ Model_fields cls = Some fields
       /\ Forall2 (fun entry g => attached_as "users" entry.1 entry.2 g)
            (body_fields User_body) fields
       /\ Model_table_sql cls = Ok (create_table_statement "users" fields)
       /\ (body_fields User_body = [] ->
           Model_table_sql cls
           = Ok (String "010" "CREATE TABLE " +:+ "users" +:+ " ("
                 +:+ String "010" "    "
                 +:+ String "010" ");" +:+ String "010" "")).
Proof.
  assert (declares_table User_body "users") as H0
    by exact User_body_declares_table.
  assert (plain_body User_body = true) as H1
    by exact User_body_plain.
  split; [exact H0|].
  split; [exact H1|].
  exact (Model_table_sql_statement User_body "users" MetaData_empty H0 H1).
Defined.
